(** * UAV strategic deconfliction: trajectories, conflict detection, verification

    A shallow embedding of [src/flight_plan.py], [src/conflict_detector.py]
    and [src/verification_service.py].

    Python's [float] and numpy's [float64] are IEEE 754 binary64 numbers and
    are modelled by Rocq's primitive [float]s, which are the same format with
    the same round-to-nearest-even operations: overflow to infinity, NaN and
    signed zeros behave here as they do in the program.  The fields of a
    waypoint and the parameters of the detector are Python floats, as they
    are annotated; the elements of a numpy array are numpy scalars, and
    where the two kinds of number behave differently (the power [**]) the
    model follows the kind.  Python exceptions are values of an error
    monad.  The service object is a state that the service's methods thread
    through. *)

From Stdlib Require Import ZArith QArith Lia Lqa ZifyBool Floats List Bool.
From Stdlib Require Import Sorted Permutation.
From stdpp Require Import gmap strings.

Set Warnings "-inexact-float".
Local Open Scope Z_scope.
Local Open Scope float_scope.
Import ListNotations.

(** ** What the program leaves to the platform

    Three things that decide results of the program are fixed neither by
    its source nor by IEEE 754.  The power [**] of Python and of numpy
    calls the C library's [pow], which need not round correctly (its
    result can differ from the product [x * x]) and which reports a range
    error in its own way.  [np.mean] adds the
    elements of an array in numpy's order, in blocks and pairs that depend
    on its version and build.  And how large an array the process can
    create is decided when it runs.  They are the fields of a class, and
    what depends on them takes an instance: a theorem that names none holds
    on every platform. *)

Module Platform.

(** Why an array cannot be created: numpy refuses its size ([ValueError]),
    or there is no memory for it ([MemoryError]). *)
Inductive array_failure : Set :=
| TooLarge
| NoMemory.

Class t : Type := {
  (** C's [pow(x, 2.0)] for a finite [x] above 0 other than 1 *)
  pow : float -> float;
  (** whether that call leaves [errno] at [ERANGE] *)
  pow_erange : float -> bool;
  (** [np.add.reduce] over a float64 array with these elements *)
  add_reduce : list float -> float;
  (** what creating a float64 array of that many elements fails with, if
      it fails *)
  array_error : Z -> option array_failure
}.

(** A statement about every platform. *)
Definition every (P : t -> Prop) : Prop := forall platform : t, P platform.

End Platform.

(** ** Python values and exceptions *)

Module Py.

Inductive exn : Set :=
| IndexError
| ValueError
| OverflowError
| ZeroDivisionError
| MemoryError.

Inductive result (A : Type) : Type :=
| Ok (a : A)
| Raise (e : exn).

Arguments Ok {A} a.
Arguments Raise {A} e.

Definition bind {A B : Type} (c : result A) (k : A -> result B) : result B :=
  match c with
  | Ok a => k a
  | Raise e => Raise e
  end.

(** The numbers the severity formula is evaluated on: binary64 in the
    program, exact rationals when the formula is read as a real function. *)
Class Num (F : Type) : Type := {
  num_zero : F;
  num_one : F;
  num_sub : F -> F -> F;
  num_div : F -> F -> F;
  num_ltb : F -> F -> bool
}.

#[global] Instance float_Num : Num float := {
  num_zero := 0;
  num_one := 1;
  num_sub := PrimFloat.sub;
  num_div := PrimFloat.div;
  num_ltb := PrimFloat.ltb
}.


(** [max(a, b)] keeps [a] unless [b > a]; [min(a, b)] keeps [a] unless
    [b < a].  With a NaN argument the result depends on the order. *)
Definition max {F : Type} `{Num F} (a b : F) : F :=
  if num_ltb a b then b else a.

Definition min {F : Type} `{Num F} (a b : F) : F :=
  if num_ltb b a then b else a.

(** [x ** 2] on a Python float, which is [float_pow] of CPython with the
    exponent 2.0.  A NaN, an infinity, a zero and 1 are answered without
    the C library; a negative base is replaced by its absolute value (the
    exponent is even); the rest is C's [pow], and a range error raises
    [OverflowError]: an infinite result, or [errno] left at [ERANGE] with a
    result other than zero. *)
Definition pow2 {platform : Platform.t} (x : float) : result float :=
  if is_nan x then Ok x
  else if is_infinity x then Ok (abs x)
  else if x =? 0 then Ok 0
  else
    let iv := if x <? 0 then - x else x in
    if iv =? 1 then Ok 1
    else
      let ix := Platform.pow iv in
      let range_error :=
        if Platform.pow_erange iv then negb (ix =? 0) else is_infinity ix in
      if range_error then Raise OverflowError else Ok ix.

(** [a / b] on Python floats: a zero divisor raises. *)
Definition truediv (a b : float) : result float :=
  if b =? 0 then Raise ZeroDivisionError else Ok (a / b).

(** [int(np.ceil(x))]: the least integer not below [x]; [int] raises
    [ValueError] on NaN and [OverflowError] on an infinity. *)
Definition int_ceil (x : float) : result Z :=
  match Prim2SF x with
  | S754_nan => Raise ValueError
  | S754_infinity _ => Raise OverflowError
  | S754_zero _ => Ok 0%Z
  | S754_finite s m e => Ok (Z.opp (Z.shiftl (Z.opp (cond_Zopp s (Z.pos m))) e))
  end.

(** [float(n)]: the binary64 nearest to the integer [n]. *)
Definition float_of_int (n : Z) : float :=
  SF2Prim (binary_normalize prec emax n 0%Z false).

(** [math.isfinite(x)] *)
Definition isfinite (x : float) : bool := abs x <? infinity.

(** [list.sort(key=...)] on float keys.  Python's sort is stable and only
    asks whether one key is less than another; on lists shorter than 64
    elements it is this insertion sort, each element placed after the
    elements of the sorted prefix that are not greater. *)
Fixpoint insort {A : Type} (key : A -> float) (x : A) (l : list A) : list A :=
  match l with
  | [] => [x]
  | y :: l' => if key x <? key y then x :: y :: l' else y :: insort key x l'
  end.

Definition sort {A : Type} (key : A -> float) (l : list A) : list A :=
  fold_left (fun acc x => insort key x acc) l [].

(** [l[0]] and [l[-1]] *)
Definition first {A : Type} (l : list A) : result A :=
  match l with
  | [] => Raise IndexError
  | a :: _ => Ok a
  end.

Fixpoint last {A : Type} (l : list A) : result A :=
  match l with
  | [] => Raise IndexError
  | [a] => Ok a
  | _ :: l' => last l'
  end.

(** Values stored in the dictionaries the program builds. *)
Inductive value : Type :=
| Int (n : Z)
| Float (f : float)
| Str (s : string)
| Tuple3 (p : float * float * float).

(** [min(l)] and [max(l)] of a list: the first element is kept until a
    later one is smaller, respectively greater; the empty list raises
    [ValueError]. *)
Definition min_of (l : list float) : result float :=
  match l with
  | [] => Raise ValueError
  | a :: l' => Ok (fold_left (fun current item => min current item) l' a)
  end.

Definition max_of (l : list float) : result float :=
  match l with
  | [] => Raise ValueError
  | a :: l' => Ok (fold_left (fun current item => max current item) l' a)
  end.

End Py.

Notation "x <- c1 ;; c2" := (Py.bind c1 (fun x => c2))
  (at level 100, c1 at next level, right associativity).

Import Py (Ok, Raise, result).

(** ** numpy *)

Module np.

(** What the failure to create an array raises. *)
Definition raise_of (f : Platform.array_failure) : Py.exn :=
  match f with
  | Platform.TooLarge => Py.ValueError
  | Platform.NoMemory => Py.MemoryError
  end.

(** [x ** 2] on a float64 scalar: C's [pow(x, 2.0)] itself.  C fixes it at
    a NaN, at the infinities, at the zeros and at 1, and raises a negative
    base to an even power through its absolute value.  An overflow gives
    infinity with a warning, not an exception. *)
Definition pow2 {platform : Platform.t} (x : float) : float :=
  if is_nan x then x
  else if is_infinity x then infinity
  else if x =? 0 then 0
  else
    let a := abs x in
    if a =? 1 then 1 else Platform.pow a.

(** [np.arange(0, num)] as floats *)
Definition indices (num : Z) : list float :=
  map (fun i => Py.float_of_int (Z.of_nat i)) (seq 0 (Z.to_nat num)).

(** [np.linspace(start, stop, num)] with [endpoint=True]: a negative
    [num] raises [ValueError], and so does an array of [num] elements that
    cannot be created ([ValueError] or [MemoryError]).  Otherwise the
    indices are scaled by [step = (stop - start) / (num - 1)] (or divided
    first when the step underflows to zero), shifted by [start], and the
    end point is stored as given. *)
Definition linspace {platform : Platform.t} (start stop : float) (num : Z) : result (list float) :=
  if (num <? 0)%Z then Raise Py.ValueError
  else
    match Platform.array_error num with
    | Some failure => Raise (raise_of failure)
    | None =>
        let div := (num - 1)%Z in
        let delta := stop - start in
        let y := indices num in
        let y :=
          if (0 <? div)%Z then
            let step := delta / Py.float_of_int div in
            if step =? 0
            then map (fun v => v / Py.float_of_int div * delta) y
            else map (fun v => v * step) y
          else map (fun v => v * delta) y in
        let y := map (fun v => v + start) y in
        Ok (if (1 <? num)%Z then removelast y ++ [stop] else y)
    end.

(** The length of [np.arange]: the least integer not below [value].
    numpy raises [ValueError] when [value] is NaN, and turns the overflow
    of a length that no array index can hold into a [ValueError] too.  (A
    value of exactly 2^63 passes numpy's range test and is then converted
    to an integer it does not fit, which C leaves undefined: it is taken
    as too large.) *)
Definition arange_length (value : float) : result Z :=
  match Py.int_ceil value with
  | Ok length =>
      if (length <? - 2 ^ 63)%Z || (2 ^ 63 - 1 <? length)%Z then Raise Py.ValueError
      else Ok length
  | Raise _ => Raise Py.ValueError
  end.

(** [np.arange(start, stop, step)] on Python floats: the length is
    [ceil((stop - start) / step)], computed with Python's division, which
    raises on a zero step; there is no element when it is not positive, and
    otherwise an array of that length must be created.  The first two
    elements are [start] and [start + step], and element [i] is
    [start + i * delta] where [delta] is the difference of the first two. *)
Definition arange {platform : Platform.t} (start stop step : float) : result (list float) :=
  quotient <- Py.truediv (stop - start) step ;;
  length <- arange_length quotient ;;
  if (length <=? 0)%Z then Ok []
  else
    match Platform.array_error length with
    | Some failure => Raise (raise_of failure)
    | None =>
        let next := start + step in
        let delta := next - start in
        Ok (map (fun i =>
                   match i with
                   | O => start
                   | S O => next
                   | _ => start + Py.float_of_int (Z.of_nat i) * delta
                   end) (seq 0 (Z.to_nat length)))
    end.

(** [np.min] and [np.max] of a non-empty array: a NaN is propagated. *)
Definition minimum (a b : float) : float :=
  if (a <? b) || is_nan a then a else b.

Definition maximum (a b : float) : float :=
  if (b <? a) || is_nan a then a else b.

Definition min (l : list float) : result float :=
  match l with
  | [] => Raise Py.ValueError
  | a :: l' => Ok (fold_left minimum l' a)
  end.

Definition max (l : list float) : result float :=
  match l with
  | [] => Raise Py.ValueError
  | a :: l' => Ok (fold_left maximum l' a)
  end.

(** [np.mean]: numpy's sum of the elements over their number.  In which
    order numpy adds the elements is the platform's; the quotient of an
    empty array is that of its sum by zero. *)
Definition mean {platform : Platform.t} (l : list float) : float :=
  Platform.add_reduce l / Py.float_of_int (Z.of_nat (length l)).

(** A two-dimensional boolean array, as the list of its rows. *)
Abbreviation matrix := (list (list bool)) (only parsing).

(** [np.zeros((n, n), dtype=bool)] *)
Definition zeros (n : nat) : matrix := repeat (repeat false n) n.

(** [matrix[i, j] = v] for indices that are not negative: an index outside
    the shape raises [IndexError]. *)
Definition setitem (m : matrix) (i j : nat) (v : bool) : result matrix :=
  match m !! i with
  | Some row =>
      if (j <? length row)%nat then Ok (<[i := <[j := v]> row]> m)
      else Raise Py.IndexError
  | None => Raise Py.IndexError
  end.

End np.

(** ** Flight plans ([src/flight_plan.py]) *)

Definition position : Type := float * float * float.

Module Waypoint.

Record t : Type := mk {
  x : float;
  y : float;
  z : float;
  time : float
}.

(** The coordinates are Python floats, and so are their differences: the
    three powers are Python's, which raise on overflow. *)
Definition distance_to {platform : Platform.t} (self other : t) : result float :=
  dx2 <- Py.pow2 (x self - x other) ;;
  dy2 <- Py.pow2 (y self - y other) ;;
  dz2 <- Py.pow2 (z self - z other) ;;
  Ok (sqrt (dx2 + dy2 + dz2)).

Definition coords (self : t) : position := (x self, y self, z self).

End Waypoint.

Module FlightPlan.

Record t : Type := mk {
  uav_id : string;
  waypoints : list Waypoint.t;
  speed : float;
  start_time : Z;
  priority : Z
}.

(** The dataclass constructor followed by [__post_init__]. *)
Definition make (uav_id : string) (waypoints : list Waypoint.t) (speed : float)
    (start_time : Z) (priority : Z) : result t :=
  if (length waypoints <? 2)%nat then Raise Py.ValueError
  else if speed <=? 0 then Raise Py.ValueError
  else if (priority <? 1)%Z then Raise Py.ValueError
  else Ok (mk uav_id waypoints speed start_time priority).

Definition duration (self : t) : result float :=
  match waypoints self with
  | [] => Ok 0
  | _ =>
      wp_last <- Py.last (waypoints self) ;;
      wp_first <- Py.first (waypoints self) ;;
      Ok (Waypoint.time wp_last - Waypoint.time wp_first)
  end.

(** The position on the segment from [wp1] to [wp2] at a time [t] inside
    it: [wp1] itself when the segment has no duration, the linear blend
    otherwise.  The division is a parameter, so that a theorem can say that
    a result does not depend on it. *)
Definition blend_with (div : float -> float -> result float)
    (wp1 wp2 : Waypoint.t) (t : float) : result position :=
  if Waypoint.time wp2 =? Waypoint.time wp1 then
    Ok (Waypoint.x wp1, Waypoint.y wp1, Waypoint.z wp1)
  else
    ratio <- div (t - Waypoint.time wp1) (Waypoint.time wp2 - Waypoint.time wp1) ;;
    let x := Waypoint.x wp1 + ratio * (Waypoint.x wp2 - Waypoint.x wp1) in
    let y := Waypoint.y wp1 + ratio * (Waypoint.y wp2 - Waypoint.y wp1) in
    let z := Waypoint.z wp1 + ratio * (Waypoint.z wp2 - Waypoint.z wp1) in
    Ok (x, y, z).

(** The loop [for i in range(len(self.waypoints) - 1)] of
    [interpolate_position] over the remaining waypoints; [None] is the
    [return None] after the loop. *)
Fixpoint segment_search_with (div : float -> float -> result float)
    (wps : list Waypoint.t) (t : float) : result (option position) :=
  match wps with
  | wp1 :: ((wp2 :: _) as rest) =>
      if (Waypoint.time wp1 <=? t) && (t <=? Waypoint.time wp2) then
        pos <- blend_with div wp1 wp2 t ;; Ok (Some pos)
      else segment_search_with div rest t
  | _ => Ok None
  end.

Definition interpolate_position_with (div : float -> float -> result float)
    (self : t) (t : float) : result (option position) :=
  wp_first <- Py.first (waypoints self) ;;
  if t <? Waypoint.time wp_first then Ok None
  else
    wp_last <- Py.last (waypoints self) ;;
    if Waypoint.time wp_last <? t then Ok None
    else segment_search_with div (waypoints self) t.

(** The program divides with [/]. *)
Definition blend : Waypoint.t -> Waypoint.t -> float -> result position :=
  blend_with Py.truediv.

Definition segment_search : list Waypoint.t -> float -> result (option position) :=
  segment_search_with Py.truediv.

Definition interpolate_position : t -> float -> result (option position) :=
  interpolate_position_with Py.truediv.

(** Whether the coordinates [interpolate_position] returns at [t] are the
    waypoint's own: the segment the search stops at has no duration
    (line 109).  They are Python floats then.  The coordinates of the blend
    (lines 111 to 116) are numbers of the kind of [t]: numpy scalars when
    [t] is an element of an array. *)
Fixpoint on_instant_segment (wps : list Waypoint.t) (t : float) : bool :=
  match wps with
  | wp1 :: ((wp2 :: _) as rest) =>
      if (Waypoint.time wp1 <=? t) && (t <=? Waypoint.time wp2)
      then Waypoint.time wp2 =? Waypoint.time wp1
      else on_instant_segment rest t
  | _ => false
  end.

(** The loop of [total_distance] over the remaining waypoints. *)
Fixpoint total_distance_loop {platform : Platform.t} (wps : list Waypoint.t) (distance : float)
    : result float :=
  match wps with
  | wp1 :: ((wp2 :: _) as rest) =>
      d <- Waypoint.distance_to wp1 wp2 ;;
      total_distance_loop rest (distance + d)
  | _ => Ok distance
  end.

Definition total_distance {platform : Platform.t} (self : t) : result float :=
  total_distance_loop (waypoints self) 0.0.

(** The velocity on the segment from [wp1] to [wp2]: zero when the segment
    has no duration. *)
Definition segment_velocity (wp1 wp2 : Waypoint.t) : result position :=
  let dt := Waypoint.time wp2 - Waypoint.time wp1 in
  if dt =? 0 then Ok (0.0, 0.0, 0.0)
  else
    vx <- Py.truediv (Waypoint.x wp2 - Waypoint.x wp1) dt ;;
    vy <- Py.truediv (Waypoint.y wp2 - Waypoint.y wp1) dt ;;
    vz <- Py.truediv (Waypoint.z wp2 - Waypoint.z wp1) dt ;;
    Ok (vx, vy, vz).

(** The loop of [get_velocity_at_time] over the remaining waypoints.  There
    is no test of the time span before it. *)
Fixpoint velocity_search (wps : list Waypoint.t) (t : float) : result (option position) :=
  match wps with
  | wp1 :: ((wp2 :: _) as rest) =>
      if (Waypoint.time wp1 <=? t) && (t <=? Waypoint.time wp2) then
        v <- segment_velocity wp1 wp2 ;; Ok (Some v)
      else velocity_search rest t
  | _ => Ok None
  end.

Definition get_velocity_at_time (self : t) (t : float) : result (option position) :=
  velocity_search (waypoints self) t.

(** [((min_x, max_x), (min_y, max_y), (min_z, max_z))] *)
Definition get_bounds (self : t)
    : result ((float * float) * (float * float) * (float * float)) :=
  let xs := map Waypoint.x (waypoints self) in
  let ys := map Waypoint.y (waypoints self) in
  let zs := map Waypoint.z (waypoints self) in
  min_x <- Py.min_of xs ;;
  max_x <- Py.max_of xs ;;
  min_y <- Py.min_of ys ;;
  max_y <- Py.max_of ys ;;
  min_z <- Py.min_of zs ;;
  max_z <- Py.max_of zs ;;
  Ok ((min_x, max_x), (min_y, max_y), (min_z, max_z)).

End FlightPlan.

(** ** Conflict detection ([src/conflict_detector.py]) *)

Module Conflict.

Record t : Type := mk {
  uav1_id : string;
  uav2_id : string;
  time : float;
  position1 : position;
  position2 : position;
  distance : float;
  severity : float
}.

End Conflict.

Module ConflictDetector.

Record t : Type := mk {
  safety_distance : float;
  time_step : float;
  time_window : float;
  vertical_weight : float
}.

(** [ConflictDetector(safety_distance, time_step)] with the defaults of
    the other two parameters. *)
Definition make (safety_distance time_step : float) : t :=
  mk safety_distance time_step 10.0 1.5.

(** The loop of [_calculate_max_segment_speed] over the remaining
    waypoints. *)
Fixpoint max_segment_speed_loop {platform : Platform.t} (wps : list Waypoint.t) (max_speed : float)
    : result float :=
  match wps with
  | wp1 :: ((wp2 :: _) as rest) =>
      let dt := Waypoint.time wp2 - Waypoint.time wp1 in
      if dt <=? 0 then max_segment_speed_loop rest max_speed
      else
        distance <- Waypoint.distance_to wp1 wp2 ;;
        let segment_speed := distance / dt in
        if max_speed <? segment_speed
        then max_segment_speed_loop rest segment_speed
        else max_segment_speed_loop rest max_speed
  | _ => Ok max_speed
  end.

Definition _calculate_max_segment_speed {platform : Platform.t} (self : t) (flight : FlightPlan.t)
    : result float :=
  max_segment_speed_loop (FlightPlan.waypoints flight) (Py.max (FlightPlan.speed flight) 0.0).

(** The divisor of [desired_step] is not zero: it is reached only with a
    relative speed above 1e-6 (lemma [relative_speed_divisor]). *)
Definition _get_effective_time_step {platform : Platform.t} (self : t) (flight1 flight2 : FlightPlan.t)
    : result float :=
  let base_step := Py.max (time_step self) 1e-3 in
  speed1 <- _calculate_max_segment_speed self flight1 ;;
  speed2 <- _calculate_max_segment_speed self flight2 ;;
  let relative_speed := speed1 + speed2 in
  if relative_speed <=? 1e-6 then Ok base_step
  else
    let desired_step := safety_distance self / (relative_speed * 4.0) in
    let min_step := base_step * 0.1 in
    Ok (Py.min base_step (Py.max desired_step min_step)).

(** [v ** 2] where [v] is a Python float ([python_float = true]) or a
    numpy scalar. *)
Definition pow2 {platform : Platform.t} (python_float : bool) (v : float) : result float :=
  if python_float then Py.pow2 v else Ok (np.pow2 v).

(** The vertically weighted distance between two positions (lines 180 to
    184).  The three differences are Python floats when the coordinates of
    both positions are, and numpy scalars otherwise. *)
Definition weighted_distance {platform : Platform.t} (self : t) (python_floats : bool)
    (pos1 pos2 : position) : result float :=
  let '(x1, y1, z1) := pos1 in
  let '(x2, y2, z2) := pos2 in
  let dx := x1 - x2 in
  let dy := y1 - y2 in
  let dz := (z1 - z2) * vertical_weight self in
  dx2 <- pow2 python_floats dx ;;
  dy2 <- pow2 python_floats dy ;;
  dz2 <- pow2 python_floats dz ;;
  Ok (sqrt (dx2 + dy2 + dz2)).

(** The weighted distance of the two flights at a sample time, an element
    of a numpy array: the coordinates of a position are Python floats only
    where [interpolate_position] returns a waypoint's own. *)
Definition distance_at {platform : Platform.t} (self : t) (flight1 flight2 : FlightPlan.t) (t : float)
    (pos1 pos2 : position) : result float :=
  weighted_distance self
    (FlightPlan.on_instant_segment (FlightPlan.waypoints flight1) t
     && FlightPlan.on_instant_segment (FlightPlan.waypoints flight2) t)
    pos1 pos2.

(** [severity = max(0.0, min(1.0, 1.0 - min_distance / safety_distance))] *)
Definition severity_of {F : Type} `{Py.Num F} (min_distance safety_distance : F) : F :=
  Py.max Py.num_zero
    (Py.min Py.num_one (Py.num_sub Py.num_one (Py.num_div min_distance safety_distance))).

(** The sample times of [_check_pair] over the window from [t_start] to
    [t_end].  The step is never zero (lemma [effective_time_step_not_zero]),
    so [duration / step] does not raise. *)
Definition sample_times {platform : Platform.t} (self : t) (flight1 flight2 : FlightPlan.t)
    (t_start t_end : float) : result (list float) :=
  if abs (t_start - t_end) <=? 1e-6 then Ok [t_start]
  else
    step <- _get_effective_time_step self flight1 flight2 ;;
    let duration := Py.max (t_end - t_start) step in
    count <- Py.int_ceil (duration / step) ;;
    let sample_count := Z.max (count + 1) 2 in
    np.linspace t_start t_end sample_count.

(** The running minimum of the sampling loop: [min_distance] and, once a
    sample has been taken, [conflict_time] with the two positions there. *)
Record closest : Type := mk_closest {
  min_distance : float;
  at_conflict : option (float * position * position)
}.

Fixpoint sample_loop {platform : Platform.t} (self : t) (flight1 flight2 : FlightPlan.t)
    (times : list float) (acc : closest) : result closest :=
  match times with
  | [] => Ok acc
  | t :: times' =>
      pos1 <- FlightPlan.interpolate_position flight1 t ;;
      pos2 <- FlightPlan.interpolate_position flight2 t ;;
      match pos1, pos2 with
      | Some pos1, Some pos2 =>
          distance <- distance_at self flight1 flight2 t pos1 pos2 ;;
          if distance <? min_distance acc
          then sample_loop self flight1 flight2 times'
                 (mk_closest distance (Some (t, pos1, pos2)))
          else sample_loop self flight1 flight2 times' acc
      | _, _ => sample_loop self flight1 flight2 times' acc
      end
  end.

Definition _check_pair {platform : Platform.t} (self : t) (flight1 flight2 : FlightPlan.t)
    : result (list Conflict.t) :=
  first1 <- Py.first (FlightPlan.waypoints flight1) ;;
  first2 <- Py.first (FlightPlan.waypoints flight2) ;;
  let t_start := Py.max (Waypoint.time first1) (Waypoint.time first2) in
  last1 <- Py.last (FlightPlan.waypoints flight1) ;;
  last2 <- Py.last (FlightPlan.waypoints flight2) ;;
  let t_end := Py.min (Waypoint.time last1) (Waypoint.time last2) in
  if (t_end <? t_start) && (1e-6 <? t_start - t_end) then Ok []
  else
    times <- sample_times self flight1 flight2 t_start t_end ;;
    found <- sample_loop self flight1 flight2 times (mk_closest infinity None) ;;
    match at_conflict found with
    | Some (conflict_time, pos1_at_conflict, pos2_at_conflict) =>
        if min_distance found <? safety_distance self then
          let severity := severity_of (min_distance found) (safety_distance self) in
          Ok [Conflict.mk (FlightPlan.uav_id flight1) (FlightPlan.uav_id flight2)
                conflict_time pos1_at_conflict pos2_at_conflict
                (min_distance found) severity]
        else Ok []
    | None => Ok []
    end.

(** The inner loop [for j in range(i + 1, len(flights))] and the outer loop
    [for i in range(len(flights))] of [find_conflicts]. *)
Fixpoint pair_loop {platform : Platform.t} (self : t) (flight_i : FlightPlan.t)
    (rest : list FlightPlan.t) : result (list Conflict.t) :=
  match rest with
  | [] => Ok []
  | flight_j :: rest' =>
      flight_conflicts <- _check_pair self flight_i flight_j ;;
      conflicts <- pair_loop self flight_i rest' ;;
      Ok (flight_conflicts ++ conflicts)
  end.

Fixpoint flights_loop {platform : Platform.t} (self : t) (flights : list FlightPlan.t)
    : result (list Conflict.t) :=
  match flights with
  | [] => Ok []
  | flight_i :: rest =>
      row <- pair_loop self flight_i rest ;;
      conflicts <- flights_loop self rest ;;
      Ok (row ++ conflicts)
  end.

Definition find_conflicts {platform : Platform.t} (self : t) (flights : list FlightPlan.t)
    : result (list Conflict.t) :=
  conflicts <- flights_loop self flights ;;
  Ok (Py.sort Conflict.time conflicts).

(** The loop of [check_continuous_conflict] over the sample times. *)
Fixpoint continuous_loop {platform : Platform.t} (self : t) (flight1 flight2 : FlightPlan.t)
    (times : list float) : result bool :=
  match times with
  | [] => Ok true
  | t :: times' =>
      pos1 <- FlightPlan.interpolate_position flight1 t ;;
      pos2 <- FlightPlan.interpolate_position flight2 t ;;
      match pos1, pos2 with
      | Some pos1, Some pos2 =>
          distance <- distance_at self flight1 flight2 t pos1 pos2 ;;
          if safety_distance self <=? distance then Ok false
          else continuous_loop self flight1 flight2 times'
      | _, _ => Ok false
      end
  end.

Definition check_continuous_conflict {platform : Platform.t} (self : t) (flight1 flight2 : FlightPlan.t)
    (start_time end_time : float) : result bool :=
  times <- np.arange start_time end_time (time_step self) ;;
  continuous_loop self flight1 flight2 times.

(** The dictionary [get_statistics] returns. *)
Definition get_statistics {platform : Platform.t} (self : t) (conflicts : list Conflict.t)
    : result (gmap string Py.value) :=
  match conflicts with
  | [] =>
      Ok (<["max_severity" := Py.Float 0.0]>
          (<["avg_severity" := Py.Float 0.0]>
          (<["min_distance" := Py.Float 0.0]>
          (<["avg_distance" := Py.Float 0.0]>
          (<["total_conflicts" := Py.Int 0]> ∅)))))
  | _ =>
      let distances := map Conflict.distance conflicts in
      let severities := map Conflict.severity conflicts in
      let avg_distance := np.mean distances in
      min_distance <- np.min distances ;;
      max_distance <- np.max distances ;;
      let avg_severity := np.mean severities in
      max_severity <- np.max severities ;;
      let critical := length (List.filter (fun s => 0.8 <? s) severities) in
      Ok (<["critical_conflicts" := Py.Int (Z.of_nat critical)]>
          (<["max_severity" := Py.Float max_severity]>
          (<["avg_severity" := Py.Float avg_severity]>
          (<["max_distance" := Py.Float max_distance]>
          (<["min_distance" := Py.Float min_distance]>
          (<["avg_distance" := Py.Float avg_distance]>
          (<["total_conflicts" := Py.Int (Z.of_nat (length conflicts))]> ∅)))))))
  end.

(** The loop of [predict_conflicts] that keeps the flights whose last
    waypoint is later than [current_time]. *)
Fixpoint future_loop (flights : list FlightPlan.t) (current_time : float)
    : result (list FlightPlan.t) :=
  match flights with
  | [] => Ok []
  | flight :: rest =>
      wp_last <- Py.last (FlightPlan.waypoints flight) ;;
      future_flights <- future_loop rest current_time ;;
      Ok (if current_time <? Waypoint.time wp_last
          then flight :: future_flights else future_flights)
  end.

Definition predict_conflicts {platform : Platform.t} (self : t) (flights : list FlightPlan.t)
    (current_time : float) : result (list Conflict.t) :=
  future_flights <- future_loop flights current_time ;;
  find_conflicts self future_flights.

(** What [get_conflict_matrix] can raise: an exception of [find_conflicts]
    or of an array assignment, or the [KeyError] of a dictionary lookup. *)
Inductive raised : Type :=
| Exn (e : Py.exn)
| KeyError (key : string).

(** [{f.uav_id: i for i, f in enumerate(flights)}], from index [i] on: a
    later flight with the same identifier replaces the earlier one. *)
Fixpoint flight_map_from (i : nat) (flights : list FlightPlan.t) (flight_map : gmap string nat)
    : gmap string nat :=
  match flights with
  | [] => flight_map
  | f :: rest => flight_map_from (S i) rest (<[FlightPlan.uav_id f := i]> flight_map)
  end.

(** The loop of [get_conflict_matrix] over the conflicts. *)
Fixpoint matrix_loop (flight_map : gmap string nat) (conflicts : list Conflict.t)
    (matrix : np.matrix) : np.matrix + raised :=
  match conflicts with
  | [] => inl matrix
  | conflict :: rest =>
      match flight_map !! Conflict.uav1_id conflict with
      | None => inr (KeyError (Conflict.uav1_id conflict))
      | Some i =>
          match flight_map !! Conflict.uav2_id conflict with
          | None => inr (KeyError (Conflict.uav2_id conflict))
          | Some j =>
              match np.setitem matrix i j true with
              | Raise e => inr (Exn e)
              | Ok matrix =>
                  match np.setitem matrix j i true with
                  | Raise e => inr (Exn e)
                  | Ok matrix => matrix_loop flight_map rest matrix
                  end
              end
          end
      end
  end.

Definition get_conflict_matrix {platform : Platform.t} (self : t) (flights : list FlightPlan.t)
    : np.matrix + raised :=
  let n := length flights in
  let matrix := np.zeros n in
  let flight_map := flight_map_from 0 flights ∅ in
  match find_conflicts self flights with
  | Raise e => inr (Exn e)
  | Ok conflicts => matrix_loop flight_map conflicts matrix
  end.

End ConflictDetector.

(** ** The verification service ([src/verification_service.py]) *)

Module VerificationResult.

Record t : Type := mk {
  status : string;
  primary_mission : FlightPlan.t;
  conflicts : list Conflict.t;
  conflict_details : list (gmap string Py.value)
}.

Definition is_clear (self : t) : bool := String.eqb (status self) "CLEAR".

End VerificationResult.

Module MissionVerificationService.

Record t : Type := mk {
  simulated_schedules : list FlightPlan.t;
  safety_distance : float;
  time_step : float;
  detector : ConflictDetector.t
}.

(** What the service prints, one constructor per [print] call; the text
    formatting of the numbers is left out. *)
Inductive line : Type :=
| Initialized
| InitSchedules (n : nat)
| InitSafetyDistance (d : float)
| InitTimeResolution (s : float)
| VerifyingMission (uav_id : string)
| Waypoints (n : nat)
| Duration (d : float)
| CheckingAgainst (n : nat)
| Clear
| ConflictCount (n : nat)
| AddedSchedule (uav_id : string)
| RemovedSchedule (uav_id : string).

(** The state a method runs in: the service object and the standard
    output.  A method is a state transformer that returns a value or
    raises; the state reached when it raises is kept. *)
Record state : Type := mk_state {
  self : t;
  stdout : list line
}.

Definition method (A : Type) : Type := state -> result A * state.

Definition ret {A : Type} (a : A) : method A := fun s => (Ok a, s).

Definition bind {A B : Type} (c : method A) (k : A -> method B) : method B :=
  fun s =>
    match c s with
    | (Ok a, s') => k a s'
    | (Raise e, s') => (Raise e, s')
    end.

Definition lift {A : Type} (r : result A) : method A := fun s => (r, s).

Definition get {A : Type} (attr : t -> A) : method A := fun s => (Ok (attr (self s)), s).

Definition set_simulated_schedules (l : list FlightPlan.t) : method unit :=
  fun s =>
    (Ok tt,
     mk_state (mk l (safety_distance (self s)) (time_step (self s)) (detector (self s)))
       (stdout s)).

Definition print (l : line) : method unit :=
  fun s => (Ok tt, mk_state (self s) (stdout s ++ [l])).

Definition when (b : bool) (c : method unit) : method unit :=
  if b then c else ret tt.

Local Notation "x <~ c1 ;; c2" := (bind c1 (fun x => c2))
  (at level 100, c1 at next level, right associativity).

(** [MissionVerificationService(simulated_schedules, safety_distance, time_step)] *)
Definition init (simulated_schedules : list FlightPlan.t)
    (safety_distance time_step : float) (out : list line) : state :=
  mk_state
    (mk simulated_schedules safety_distance time_step
       (ConflictDetector.make safety_distance time_step))
    (out ++ [Initialized; InitSchedules (length simulated_schedules);
             InitSafetyDistance safety_distance; InitTimeResolution time_step]).

(** [c.uav1_id == primary.uav_id or c.uav2_id == primary.uav_id] *)
Definition involves (primary_mission : FlightPlan.t) (c : Conflict.t) : bool :=
  String.eqb (Conflict.uav1_id c) (FlightPlan.uav_id primary_mission)
  || String.eqb (Conflict.uav2_id c) (FlightPlan.uav_id primary_mission).

(** The loop of [verify_mission] over the scheduled flights still to
    check; [all_conflicts] is the list built so far. *)
Fixpoint schedule_loop {platform : Platform.t} (primary_mission : FlightPlan.t)
    (schedules : list FlightPlan.t) (all_conflicts : list Conflict.t)
    : method (list Conflict.t) :=
  match schedules with
  | [] => ret all_conflicts
  | simulated_flight :: rest =>
      detector <~ get detector ;;
      conflicts <~ lift (ConflictDetector.find_conflicts detector
                           [primary_mission; simulated_flight]) ;;
      let relevant_conflicts := List.filter (involves primary_mission) conflicts in
      schedule_loop primary_mission rest (all_conflicts ++ relevant_conflicts)
  end.

(** One entry of [conflict_details]. *)
Definition conflict_detail (primary_mission : FlightPlan.t) (conflict : Conflict.t)
    : gmap string Py.value :=
  let conflicting_id :=
    if String.eqb (Conflict.uav1_id conflict) (FlightPlan.uav_id primary_mission)
    then Conflict.uav2_id conflict
    else Conflict.uav1_id conflict in
  let '(x1, y1, z1) := Conflict.position1 conflict in
  let '(x2, y2, z2) := Conflict.position2 conflict in
  let midpoint := ((x1 + x2) / 2, (y1 + y2) / 2, (z1 + z2) / 2) in
  <["severity" := Py.Float (Conflict.severity conflict)]>
  (<["distance" := Py.Float (Conflict.distance conflict)]>
  (<["conflicting_flight" := Py.Str conflicting_id]>
  (<["time" := Py.Float (Conflict.time conflict)]>
  (<["location" := Py.Tuple3 midpoint]> ∅)))).

Definition verify_mission {platform : Platform.t} (primary_mission : FlightPlan.t) (verbose : bool)
    : method VerificationResult.t :=
  _ <~ when verbose (
         _ <~ print (VerifyingMission (FlightPlan.uav_id primary_mission)) ;;
         _ <~ print (Waypoints (length (FlightPlan.waypoints primary_mission))) ;;
         duration <~ lift (FlightPlan.duration primary_mission) ;;
         _ <~ print (Duration duration) ;;
         schedules <~ get simulated_schedules ;;
         print (CheckingAgainst (length schedules))) ;;
  schedules <~ get simulated_schedules ;;
  all_conflicts <~ schedule_loop primary_mission schedules [] ;;
  let conflict_details := map (conflict_detail primary_mission) all_conflicts in
  let status :=
    if (length all_conflicts =? 0)%nat then "CLEAR"%string
    else "CONFLICT_DETECTED"%string in
  let result :=
    VerificationResult.mk status primary_mission all_conflicts conflict_details in
  _ <~ when verbose (
         if VerificationResult.is_clear result then print Clear
         else print (ConflictCount (length all_conflicts))) ;;
  ret result.

Definition add_simulated_schedule (flight : FlightPlan.t) : method unit :=
  schedules <~ get simulated_schedules ;;
  _ <~ set_simulated_schedules (schedules ++ [flight]) ;;
  print (AddedSchedule (FlightPlan.uav_id flight)).

(** The loop of [remove_simulated_schedule]: [before] are the flights
    already passed. *)
Fixpoint remove_loop (uav_id : string) (before rest : list FlightPlan.t) : method bool :=
  match rest with
  | [] => ret false
  | flight :: rest' =>
      if String.eqb (FlightPlan.uav_id flight) uav_id then
        _ <~ set_simulated_schedules (before ++ rest') ;;
        _ <~ print (RemovedSchedule uav_id) ;;
        ret true
      else remove_loop uav_id (before ++ [flight]) rest'
  end.

Definition remove_simulated_schedule (uav_id : string) : method bool :=
  schedules <~ get simulated_schedules ;;
  remove_loop uav_id [] schedules.

(** What [batch_verify] prints itself. *)
Inductive batch_line : Type :=
| BatchVerification (n : nat)
| Rule
| RuleAfterBlank
| BatchSummary
| BatchClear (clear_count n : nat)
| BatchConflicts (conflict_count : Z) (n : nat).

(** The state [batch_verify] runs in: the service object, and the
    standard output made of its own lines and of those of the calls of
    [verify_mission] in between. *)
Record batch_state : Type := mk_batch_state {
  service : t;
  output : list (line + batch_line)
}.

(** A call of a method of the service: what the method prints is appended
    to the output. *)
Definition call {A : Type} (c : method A) (bs : batch_state) : result A * batch_state :=
  let '(r, st) := c (mk_state (service bs) []) in
  (r, mk_batch_state (self st) (output bs ++ map inl (stdout st))).

Definition batch_print (lines : list batch_line) (bs : batch_state) : batch_state :=
  mk_batch_state (service bs) (output bs ++ map inr lines).

(** The loop of [batch_verify] over the missions still to verify. *)
Fixpoint batch_loop {platform : Platform.t} (missions : list FlightPlan.t) (verbose : bool)
    (results : gmap string VerificationResult.t) (bs : batch_state)
    : result (gmap string VerificationResult.t) * batch_state :=
  match missions with
  | [] => (Ok results, bs)
  | mission :: rest =>
      match call (verify_mission mission verbose) bs with
      | (Ok result, bs) =>
          batch_loop rest verbose (<[FlightPlan.uav_id mission := result]> results) bs
      | (Raise e, bs) => (Raise e, bs)
      end
  end.

Definition batch_verify {platform : Platform.t} (missions : list FlightPlan.t) (verbose : bool)
    (bs : batch_state) : result (gmap string VerificationResult.t) * batch_state :=
  let bs := if verbose then batch_print [BatchVerification (length missions); Rule] bs
            else bs in
  match batch_loop missions verbose ∅ bs with
  | (Ok results, bs) =>
      let bs :=
        if verbose then
          let clear_count :=
            length (List.filter (fun kr => VerificationResult.is_clear (snd kr))
                      (map_to_list results)) in
          let conflict_count := (Z.of_nat (size results) - Z.of_nat clear_count)%Z in
          batch_print [RuleAfterBlank; BatchSummary;
                       BatchClear clear_count (length missions);
                       BatchConflicts conflict_count (length missions)] bs
        else bs in
      (Ok results, bs)
  | (Raise e, bs) => (Raise e, bs)
  end.

End MissionVerificationService.

(** * Trajectories the specification calls valid *)

Module Valid.

(** Waypoint times never decrease along the trajectory. *)
Fixpoint times_sorted (wps : list Waypoint.t) : bool :=
  match wps with
  | wp1 :: ((wp2 :: _) as rest) =>
      (Waypoint.time wp1 <=? Waypoint.time wp2) && times_sorted rest
  | _ => true
  end.

(** At least two waypoints, with non-decreasing times. *)
Definition trajectory (fp : FlightPlan.t) : bool :=
  (2 <=? length (FlightPlan.waypoints fp))%nat && times_sorted (FlightPlan.waypoints fp).

(** Equality of positions as Python compares tuples of floats. *)
Definition position_eqb (p q : position) : bool :=
  let '(px, py, pz) := p in
  let '(qx, qy, qz) := q in
  (px =? qx) && (py =? qy) && (pz =? qz).

(** The coordinates of the first segment are finite and so are their
    differences: the blend does not overflow. *)
Definition segment_finite (wp1 wp2 : Waypoint.t) : bool :=
  Py.isfinite (Waypoint.time wp1)
  && Py.isfinite (Waypoint.x wp1) && Py.isfinite (Waypoint.y wp1)
  && Py.isfinite (Waypoint.z wp1)
  && Py.isfinite (Waypoint.x wp2 - Waypoint.x wp1)
  && Py.isfinite (Waypoint.y wp2 - Waypoint.y wp1)
  && Py.isfinite (Waypoint.z wp2 - Waypoint.z wp1).

(** The first segment whose closed time span contains [t]: the one the
    search of [interpolate_position] stops at. *)
Fixpoint enclosing_segment (wps : list Waypoint.t) (t : float)
    : option (Waypoint.t * Waypoint.t) :=
  match wps with
  | wp1 :: ((wp2 :: _) as rest) =>
      if (Waypoint.time wp1 <=? t) && (t <=? Waypoint.time wp2) then Some (wp1, wp2)
      else enclosing_segment rest t
  | _ => None
  end.

End Valid.

(** * Vocabulary of the claims *)

Module Spec.

(** Every unordered pair of positions of a list, once, in the order the two
    loops of [find_conflicts] visit them. *)
Fixpoint pairs {A : Type} (l : list A) : list (A * A) :=
  match l with
  | [] => []
  | a :: rest => map (pair a) rest ++ pairs rest
  end.

(** The sample times of the pairwise check: the overlap window of the two
    trajectories, sampled as [_check_pair] samples it. *)
Definition pair_sample_times {platform : Platform.t} (d : ConflictDetector.t)
    (flight1 flight2 : FlightPlan.t) : result (list float) :=
  first1 <- Py.first (FlightPlan.waypoints flight1) ;;
  first2 <- Py.first (FlightPlan.waypoints flight2) ;;
  last1 <- Py.last (FlightPlan.waypoints flight1) ;;
  last2 <- Py.last (FlightPlan.waypoints flight2) ;;
  ConflictDetector.sample_times d flight1 flight2
    (Py.max (Waypoint.time first1) (Waypoint.time first2))
    (Py.min (Waypoint.time last1) (Waypoint.time last2)).

(** Both trajectories have a position at time [t]. *)
Definition sampled_at (flight1 flight2 : FlightPlan.t) (t : float) (p1 p2 : position) : Prop :=
  FlightPlan.interpolate_position flight1 t = Ok (Some p1) /\
  FlightPlan.interpolate_position flight2 t = Ok (Some p2).

(** [c] reports the closest approach of the pair over its sample times:
    it names the two flights, its time is a sample time, its positions are
    the two trajectories there, its distance is their weighted distance,
    which is below the safety distance, and no sample is closer. *)
Definition closest_approach {platform : Platform.t} (d : ConflictDetector.t)
    (flight1 flight2 : FlightPlan.t) (c : Conflict.t) : Prop :=
  Conflict.uav1_id c = FlightPlan.uav_id flight1 /\
  Conflict.uav2_id c = FlightPlan.uav_id flight2 /\
  (Conflict.distance c <? ConflictDetector.safety_distance d) = true /\
  ConflictDetector.distance_at d flight1 flight2 (Conflict.time c)
    (Conflict.position1 c) (Conflict.position2 c) = Ok (Conflict.distance c) /\
  Conflict.severity c
    = ConflictDetector.severity_of (Conflict.distance c) (ConflictDetector.safety_distance d) /\
  exists times,
    pair_sample_times d flight1 flight2 = Ok times /\
    In (Conflict.time c) times /\
    sampled_at flight1 flight2 (Conflict.time c) (Conflict.position1 c) (Conflict.position2 c) /\
    forall t p1 p2, In t times -> sampled_at flight1 flight2 t p1 p2 ->
      exists distance,
        ConflictDetector.distance_at d flight1 flight2 t p1 p2 = Ok distance /\
        (distance <? Conflict.distance c) = false.

(** The running minimum is the closest approach over the samples seen. *)
Definition closest_over {platform : Platform.t} (d : ConflictDetector.t)
    (flight1 flight2 : FlightPlan.t) (seen : list float) (acc : ConflictDetector.closest)
    : Prop :=
  (ConflictDetector.min_distance acc =? ConflictDetector.min_distance acc) = true /\
  (forall t p1 p2, In t seen -> sampled_at flight1 flight2 t p1 p2 ->
     exists distance,
       ConflictDetector.distance_at d flight1 flight2 t p1 p2 = Ok distance /\
       (distance <? ConflictDetector.min_distance acc) = false) /\
  match ConflictDetector.at_conflict acc with
  | Some (t, p1, p2) =>
      In t seen /\ sampled_at flight1 flight2 t p1 p2 /\
      ConflictDetector.distance_at d flight1 flight2 t p1 p2
        = Ok (ConflictDetector.min_distance acc)
  | None => True
  end.

(** What the check of one pair contributes: at most one conflict, the
    closest approach of that pair. *)
Definition pair_result {platform : Platform.t} (d : ConflictDetector.t)
    (pr : FlightPlan.t * FlightPlan.t) (cs : list Conflict.t) : Prop :=
  ConflictDetector._check_pair d (fst pr) (snd pr) = Ok cs /\
  (length cs <= 1)%nat /\
  Forall (closest_approach d (fst pr) (snd pr)) cs.

(** Ascending order of the times of closest approach. *)
Definition time_le (a b : Conflict.t) : Prop :=
  (Conflict.time a <=? Conflict.time b) = true.

(** The conflicts whose time of closest approach equals [k]. *)
Definition at_time (k : float) (l : list Conflict.t) : list Conflict.t :=
  List.filter (fun c => Conflict.time c =? k) l.

(** The same number: the same float, or two zeros, which differ in their
    sign at most and compare equal ([0.0 == -0.0]). *)
Definition same_number (a b : float) : Prop :=
  a = b \/ ((a =? 0) = true /\ (b =? 0) = true).

Definition same_position (p q : position) : Prop :=
  let '(px, py, pz) := p in
  let '(qx, qy, qz) := q in
  same_number px qx /\ same_number py qy /\ same_number pz qz.

Definition same_option_position (p q : option position) : Prop :=
  match p, q with
  | Some p, Some q => same_position p q
  | None, None => True
  | _, _ => False
  end.

(** Two calls end alike: both return, with results that [R] relates, or
    both raise the same exception. *)
Definition alike {A B : Type} (R : A -> B -> Prop) (r : result A) (r' : result B) : Prop :=
  match r, r' with
  | Ok a, Ok b => R a b
  | Raise e, Raise e' => e = e'
  | _, _ => False
  end.

(** The running minimum of the sampling loop seen from the other flight. *)
Definition mirrored_closest (acc acc' : ConflictDetector.closest) : Prop :=
  ConflictDetector.min_distance acc' = ConflictDetector.min_distance acc /\
  match ConflictDetector.at_conflict acc, ConflictDetector.at_conflict acc' with
  | Some (t, p1, p2), Some (t', q1, q2) =>
      same_number t' t /\ same_position q1 p2 /\ same_position q2 p1
  | None, None => True
  | _, _ => False
  end.

(** [c'] is the conflict [c] seen from the other flight: the two
    identifiers and the two positions exchanged, at the same time, with
    the same distance and severity. *)
Definition mirrored (c c' : Conflict.t) : Prop :=
  Conflict.uav1_id c' = Conflict.uav2_id c /\
  Conflict.uav2_id c' = Conflict.uav1_id c /\
  same_number (Conflict.time c') (Conflict.time c) /\
  same_position (Conflict.position1 c') (Conflict.position2 c) /\
  same_position (Conflict.position2 c') (Conflict.position1 c) /\
  Conflict.distance c' = Conflict.distance c /\
  Conflict.severity c' = Conflict.severity c.

(** Order and well-formedness of the elements of a list under a float
    key. *)
Definition key_le {A : Type} (key : A -> float) (a b : A) : Prop :=
  (key a <=? key b) = true.

Definition key_ok {A : Type} (key : A -> float) (a : A) : Prop :=
  (key a =? key a) = true.

(** One scheduled flight checked against the primary mission. *)
Definition checked {platform : Platform.t} (d : ConflictDetector.t)
    (primary_mission simulated_flight : FlightPlan.t) (conflicts : list Conflict.t) : Prop :=
  ConflictDetector.find_conflicts d [primary_mission; simulated_flight] = Ok conflicts.

(** The conflicts [verify_mission] keeps of the checks [per]. *)
Definition aggregated (primary_mission : FlightPlan.t) (per : list (list Conflict.t))
    : list Conflict.t :=
  concat (map (List.filter (MissionVerificationService.involves primary_mission)) per).

(** The loop of [verify_mission] as a function of the detector alone. *)
Fixpoint aggregate {platform : Platform.t} (d : ConflictDetector.t) (primary_mission : FlightPlan.t)
    (schedules : list FlightPlan.t) (acc : list Conflict.t) : result (list Conflict.t) :=
  match schedules with
  | [] => Ok acc
  | s :: rest =>
      cs <- ConflictDetector.find_conflicts d [primary_mission; s] ;;
      aggregate d primary_mission rest (acc ++ List.filter (MissionVerificationService.involves primary_mission) cs)
  end.

(** A sample at which both trajectories have a position and the weighted
    distance is not at or above the safety distance. *)
Definition in_conflict_at {platform : Platform.t} (d : ConflictDetector.t) (f1 f2 : FlightPlan.t)
    (t : float) : Prop :=
  exists p1 p2 distance,
    sampled_at f1 f2 t p1 p2 /\
    ConflictDetector.distance_at d f1 f2 t p1 p2 = Ok distance /\
    (ConflictDetector.safety_distance d <=? distance) = false.




End Spec.

(** * Vocabulary of the further properties *)

Module Vocab.

(** The three coordinates of a waypoint are finite. *)
Definition finite_coords (w : Waypoint.t) : bool :=
  Py.isfinite (Waypoint.x w) && Py.isfinite (Waypoint.y w) && Py.isfinite (Waypoint.z w).

(** The three coordinates of a waypoint are numbers. *)
Definition coords_not_nan (w : Waypoint.t) : bool :=
  (Waypoint.x w =? Waypoint.x w) && (Waypoint.y w =? Waypoint.y w)
  && (Waypoint.z w =? Waypoint.z w).

(** [lo <= v <= hi] *)
Definition between (range : float * float) (v : float) : bool :=
  (fst range <=? v) && (v <=? snd range).

(** The waypoint lies in the box. *)
Definition inside (box : (float * float) * (float * float) * (float * float))
    (w : Waypoint.t) : bool :=
  let '(range_x, range_y, range_z) := box in
  between range_x (Waypoint.x w) && between range_y (Waypoint.y w)
  && between range_z (Waypoint.z w).

(** [t] is within the closed time span of the trajectory. *)
Definition in_span (fp : FlightPlan.t) (t : float) : bool :=
  match Py.first (FlightPlan.waypoints fp), Py.last (FlightPlan.waypoints fp) with
  | Ok wf, Ok wl => (Waypoint.time wf <=? t) && (t <=? Waypoint.time wl)
  | _, _ => false
  end.

(** [t] is a number that is neither before the first waypoint nor after
    the last. *)
Definition not_outside (fp : FlightPlan.t) (t : float) : bool :=
  match Py.first (FlightPlan.waypoints fp), Py.last (FlightPlan.waypoints fp) with
  | Ok wf, Ok wl =>
      (t =? t) && negb (t <? Waypoint.time wf) && negb (Waypoint.time wl <? t)
  | _, _ => false
  end.

(** The last waypoint of the flight is later than [current_time]. *)
Definition ends_after (current_time : float) (flight : FlightPlan.t) : bool :=
  match Py.last (FlightPlan.waypoints flight) with
  | Ok wp_last => current_time <? Waypoint.time wp_last
  | Raise _ => false
  end.

(** The detector [d] with another look-ahead window. *)
Definition with_time_window (d : ConflictDetector.t) (time_window : float)
    : ConflictDetector.t :=
  ConflictDetector.mk (ConflictDetector.safety_distance d) (ConflictDetector.time_step d)
    time_window (ConflictDetector.vertical_weight d).

(** [matrix[i, j]] for indices inside the shape, [false] outside. *)
Definition cell (m : np.matrix) (i j : nat) : bool :=
  match m !! i with
  | Some row => match row !! j with Some b => b | None => false end
  | None => false
  end.

(** The array has [n] rows of [n] entries. *)
Definition square_shape (n : nat) (m : np.matrix) : Prop :=
  length m = n /\ Forall (fun row => length row = n) m.

(** The conflict [c] links the rows [a] and [b] of the matrix: they are the
    indices of its two identifiers, in one order or the other. *)
Definition links (flight_map : gmap string nat) (a b : nat) (c : Conflict.t) : bool :=
  match flight_map !! Conflict.uav1_id c, flight_map !! Conflict.uav2_id c with
  | Some i, Some j => ((i =? a)%nat && (j =? b)%nat) || ((i =? b)%nat && (j =? a)%nat)
  | _, _ => false
  end.

(** The flight is registered under the identifier [uav_id]. *)
Definition named (uav_id : string) (flight : FlightPlan.t) : Prop :=
  FlightPlan.uav_id flight = uav_id.

(** The service object with another list of scheduled flights. *)
Definition with_schedules (s : MissionVerificationService.t) (l : list FlightPlan.t)
    : MissionVerificationService.t :=
  MissionVerificationService.mk l (MissionVerificationService.safety_distance s)
    (MissionVerificationService.time_step s) (MissionVerificationService.detector s).

(** One trajectory ends more than 1e-6 seconds before the other starts. *)
Definition before (A B : FlightPlan.t) : bool :=
  match Py.last (FlightPlan.waypoints A), Py.first (FlightPlan.waypoints B) with
  | Ok last_A, Ok first_B =>
      (Waypoint.time last_A <? Waypoint.time first_B)
      && (1e-6 <? Waypoint.time first_B - Waypoint.time last_A)
  | _, _ => false
  end.

Definition disjoint_spans (A B : FlightPlan.t) : bool := before A B || before B A.

(** The last flight of the list with the identifier [uav_id]. *)
Fixpoint last_named (uav_id : string) (flights : list FlightPlan.t) : option FlightPlan.t :=
  match flights with
  | [] => None
  | f :: rest =>
      match last_named uav_id rest with
      | Some g => Some g
      | None => if String.eqb (FlightPlan.uav_id f) uav_id then Some f else None
      end
  end.

(** The result of verifying one mission against the schedules of the
    service [s], apart from what is printed. *)
Definition verified {platform : Platform.t} (s : MissionVerificationService.t) (mission : FlightPlan.t)
    : result VerificationResult.t :=
  fst (MissionVerificationService.verify_mission mission false
         (MissionVerificationService.mk_state s [])).

End Vocab.

(** * Concrete trajectories used by the examples *)

Module Examples.

(** A platform for the examples: its [pow] rounds correctly and reports no
    range error of its own, its sum adds from left to right, and it has
    memory for arrays of up to 2^20 elements. *)
Definition platform : Platform.t := {|
  Platform.pow := fun x => x * x;
  Platform.pow_erange := fun _ => false;
  Platform.add_reduce := fun l => fold_left PrimFloat.add l 0;
  Platform.array_error := fun n =>
    if (n <=? 2 ^ 20)%Z then None
    else if (n <? 2 ^ 60)%Z then Some Platform.NoMemory
    else Some Platform.TooLarge
|}.

Definition wp := Waypoint.mk.

(** Stands still for an instant at the start, then moves. *)
Definition hold_then_go : FlightPlan.t :=
  FlightPlan.mk "U1" [wp 0 0 0 0; wp 10 0 0 0; wp 20 0 0 5] 15.0 0 1.

(** Ends with an instantaneous jump from [x = 1] to [x = 5] at [t = 1]. *)
Definition final_jump : FlightPlan.t :=
  FlightPlan.mk "U2" [wp 0 0 0 0; wp 1 0 0 1; wp 5 0 0 1] 15.0 0 1.

(** One segment from [x = 1e16] to [x = 1]. *)
Definition long_leg : FlightPlan.t :=
  FlightPlan.mk "U3" [wp 1e16 0 0 0; wp 1 0 0 1] 15.0 0 1.

(** The same path flown twice, the second time after the first has landed. *)
Definition early : FlightPlan.t :=
  FlightPlan.mk "E" [wp 0 0 100 0; wp 100 0 100 10] 15.0 0 1.

Definition late : FlightPlan.t :=
  FlightPlan.mk "L" [wp 0 0 100 20; wp 100 0 100 30] 15.0 0 1.

Definition detector : ConflictDetector.t := ConflictDetector.make 10.0 1.0.

(** Two straight flights through (5000, 5000, 200) at [t = 100]. *)
Definition eastbound : FlightPlan.t :=
  FlightPlan.mk "EAST" [wp 0 5000 200 0; wp 10000 5000 200 200] 50.0 0 1.

Definition northbound : FlightPlan.t :=
  FlightPlan.mk "NORTH" [wp 5000 0 200 0; wp 5000 10000 200 200] 50.0 0 1.

Definition crossing : Conflict.t :=
  Conflict.mk "EAST" "NORTH" 100 (5000, 5000, 200) (5000, 5000, 200) 0 1.

(** [hover] stays at the origin; [leaving] starts 5 m away from it and is
    100 m away one second later. *)
Definition hover : FlightPlan.t :=
  FlightPlan.mk "H" [wp 0 0 0 0; wp 0 0 0 1] 15.0 0 1.

Definition leaving : FlightPlan.t :=
  FlightPlan.mk "G" [wp 0 5 0 0; wp 100 5 0 1] 15.0 0 1.



(** Both trajectories hover from [t = -1e308] to [t = 1e308]: the length
    of the overlap window overflows. *)
Definition endless : FlightPlan.t :=
  FlightPlan.mk "P" [wp 0 0 100 (-1e308); wp 0 0 100 1e308] 15.0 0 1.

Definition endless_too : FlightPlan.t :=
  FlightPlan.mk "S" [wp 0 50 100 (-1e308); wp 0 50 100 1e308] 15.0 0 1.

(** [creeping] starts where [hover] is and is 1 m away one second later;
    [tight] is a detector with a safety distance of half a metre. *)
Definition creeping : FlightPlan.t :=
  FlightPlan.mk "C" [wp 0 0 0 0; wp 1 0 0 1] 15.0 0 1.

Definition tight : ConflictDetector.t := ConflictDetector.make 0.5 1.0.

(** [hover] with the negative zero as its first time. *)
Definition hover_from_negative_zero : FlightPlan.t :=
  FlightPlan.mk "Z" [wp 0 0 0 (- 0); wp 0 0 0 1] 15.0 0 1.

(** The closest approach of [hover] and [leaving]: at the start, 5 m apart. *)
Definition departure : Conflict.t :=
  Conflict.mk "H" "G" 0 (0, 0, 0) (0, 5, 0) 5 0.5.

(** The sample times of the check of [hover] against [leaving]. *)
Definition departure_times : list float :=
  Eval vm_compute in
    match @Spec.pair_sample_times platform detector hover leaving with
    | Ok times => times
    | Raise _ => []
    end.

End Examples.

(** * Keys of binary64 values

    The comparisons of IEEE 754 order the values that are not NaN like
    triples of integers: sign class, exponent, mantissa. *)

Module Binary64.
Local Open Scope Z_scope.

(** Rank of a non-NaN binary64 value in the total preorder IEEE comparison
    induces: sign class first, then exponent, then mantissa. *)
Definition sf_key (f : spec_float) : option (Z * Z * Z) :=
  match f with
  | S754_nan => None
  | S754_infinity true => Some (-2, 0, 0)
  | S754_infinity false => Some (2, 0, 0)
  | S754_zero _ => Some (0, 0, 0)
  | S754_finite true m e => Some (-1, - e, Z.neg m)
  | S754_finite false m e => Some (1, e, Z.pos m)
  end.

Definition key_compare (a b : Z * Z * Z) : comparison :=
  let '(c1, e1, m1) := a in
  let '(c2, e2, m2) := b in
  match c1 ?= c2 with
  | Eq => match e1 ?= e2 with Eq => m1 ?= m2 | c => c end
  | c => c
  end.

Definition key_ltb (a b : Z * Z * Z) : bool :=
  let '(c1, e1, m1) := a in
  let '(c2, e2, m2) := b in
  (c1 <? c2) || ((c1 =? c2) && ((e1 <? e2) || ((e1 =? e2) && (m1 <? m2)))).

Definition key_eqb (a b : Z * Z * Z) : bool :=
  let '(c1, e1, m1) := a in
  let '(c2, e2, m2) := b in
  (c1 =? c2) && (e1 =? e2) && (m1 =? m2).

Definition fkey (x : float) : option (Z * Z * Z) := sf_key (Prim2SF x).

(** Zero or finite. *)
Definition sf_zero (f : spec_float) : bool :=
  match f with
  | S754_zero _ => true
  | _ => false
  end.

(** The same value: the same datum, or two zeros. *)
Definition sf_same (x y : spec_float) : Prop :=
  x = y \/ (sf_zero x = true /\ sf_zero y = true).

Definition sf_finite (f : spec_float) : bool :=
  match f with
  | S754_zero _ | S754_finite _ _ _ => true
  | _ => false
  end.

(** [x] is positive, finite with an exponent of at least [e] or infinite. *)
Definition positive_above (e : Z) (x : float) : bool :=
  match Prim2SF x with
  | S754_finite false _ e' => (e <=? e')%Z
  | S754_infinity false => true
  | _ => false
  end.

End Binary64.

(** * Facts about binary64 arithmetic

    The standard library specifies the primitive operations bit by bit
    ([FloatAxioms]); the lemmas below derive from that specification the
    order and sign facts the program relies on. *)

Module IEEE.
Export Binary64.
Local Open Scope Z_scope.

Lemma SFcompare_key x y :
  SFcompare x y =
  match sf_key x, sf_key y with
  | Some a, Some b => Some (key_compare a b)
  | _, _ => None
  end.
Proof.
  destruct x as [[]|[]| |[] mx ex], y as [[]|[]| |[] my ey]; try reflexivity; simpl.
  - rewrite Z.compare_opp, (Z.compare_antisym ex ey), Pos.compare_cont_spec.
    simpl. destruct (ex ?= ey); simpl; try reflexivity. destruct (mx ?= my)%positive; reflexivity.
Qed.

Lemma key_compare_Lt a b : key_compare a b = Lt <-> key_ltb a b = true.
Proof.
  destruct a as [[c1 e1] m1], b as [[c2 e2] m2]. unfold key_compare, key_ltb.
  destruct (Z.compare_spec c1 c2), (Z.compare_spec e1 e2), (Z.compare_spec m1 m2);
    split; intro; try discriminate; try reflexivity; lia.
Qed.

Lemma key_compare_Eq a b : key_compare a b = Eq <-> key_eqb a b = true.
Proof.
  destruct a as [[c1 e1] m1], b as [[c2 e2] m2]. unfold key_compare, key_eqb.
  destruct (Z.compare_spec c1 c2), (Z.compare_spec e1 e2), (Z.compare_spec m1 m2);
    split; intro; try discriminate; try reflexivity; lia.
Qed.

Lemma ltb_key x y :
  (x <? y)%float =
  match fkey x, fkey y with Some a, Some b => key_ltb a b | _, _ => false end.
Proof.
  rewrite FloatAxioms.ltb_spec. unfold SFltb, fkey. rewrite SFcompare_key.
  destruct (sf_key (Prim2SF x)) as [a|], (sf_key (Prim2SF y)) as [b|]; try reflexivity.
  pose proof (key_compare_Lt a b) as H.
  destruct (key_compare a b), (key_ltb a b); try reflexivity;
    destruct H as [H1 H2]; try (discriminate (H1 eq_refl)); discriminate (H2 eq_refl).
Qed.

Lemma eqb_key x y :
  (x =? y)%float =
  match fkey x, fkey y with Some a, Some b => key_eqb a b | _, _ => false end.
Proof.
  rewrite FloatAxioms.eqb_spec. unfold SFeqb, fkey. rewrite SFcompare_key.
  destruct (sf_key (Prim2SF x)) as [a|], (sf_key (Prim2SF y)) as [b|]; try reflexivity.
  pose proof (key_compare_Eq a b) as H.
  destruct (key_compare a b), (key_eqb a b); try reflexivity;
    destruct H as [H1 H2]; try (discriminate (H1 eq_refl)); discriminate (H2 eq_refl).
Qed.

Lemma leb_key x y :
  (x <=? y)%float =
  match fkey x, fkey y with
  | Some a, Some b => key_ltb a b || key_eqb a b
  | _, _ => false
  end.
Proof.
  rewrite FloatAxioms.leb_spec. unfold SFleb, fkey. rewrite SFcompare_key.
  destruct (sf_key (Prim2SF x)) as [a|], (sf_key (Prim2SF y)) as [b|]; try reflexivity.
  pose proof (key_compare_Eq a b) as H. pose proof (key_compare_Lt a b) as H'.
  destruct (key_compare a b), (key_ltb a b), (key_eqb a b); try reflexivity;
    destruct H as [H1 H2]; destruct H' as [H3 H4];
    try (discriminate (H1 eq_refl)); try (discriminate (H2 eq_refl));
    try (discriminate (H3 eq_refl)); discriminate (H4 eq_refl).
Qed.

Lemma fkey_zero : fkey 0 = Some (0, 0, 0).
Proof. reflexivity. Qed.

Lemma fkey_one : fkey 1 = Some (1, -52, 4503599627370496).
Proof. reflexivity. Qed.

Lemma fkey_infinity : fkey infinity = Some (2, 0, 0).
Proof. reflexivity. Qed.

(** Replaces the key of a closed float by its value. *)
Ltac fkey_literal c :=
  let k := eval vm_compute in (classify c) in
  lazymatch k with
  | classify _ => fail
  | _ => let v := eval vm_compute in (fkey c) in change (fkey c) with v in *
  end.

(** Decides goals about the IEEE comparisons of primitive floats by moving
    to integer keys. *)
Ltac float_order :=
  rewrite ?ltb_key, ?leb_key, ?eqb_key in *;
  repeat match goal with
  | |- context [fkey ?c] => fkey_literal c
  | H : context [fkey ?c] |- _ => fkey_literal c
  end;
  repeat match goal with
  | |- context [fkey ?x] =>
      let k := fresh "k" in let E := fresh in
      remember (fkey x) as k eqn:E in *; clear E; destruct k as [[[? ?] ?]|]
  | H : context [fkey ?x] |- _ =>
      let k := fresh "k" in let E := fresh in
      remember (fkey x) as k eqn:E in *; clear E; destruct k as [[[? ?] ?]|]
  end;
  unfold key_ltb, key_eqb in *; try discriminate; try lia.

Lemma ltb_leb x y : (x <? y)%float = true -> (x <=? y)%float = true.
Proof. intros. float_order. Qed.

Lemma leb_trans x y z : (x <=? y)%float = true -> (y <=? z)%float = true -> (x <=? z)%float = true.
Proof. intros. float_order. Qed.

Lemma ltb_false_leb x y : (x =? x)%float = true -> (y =? y)%float = true -> (x <? y)%float = false -> (y <=? x)%float = true.
Proof. intros. float_order. Qed.

Lemma leb_not_nan x y : (x <=? y)%float = true -> (x =? x)%float = true /\ (y =? y)%float = true.
Proof. intros. split; float_order. Qed.

Lemma SFadd_comm p em x y : SFadd p em x y = SFadd p em y x.
Proof.
  destruct x as [[]|[]| |sx mx ex], y as [[]|[]| |sy my ey]; try reflexivity.
  unfold SFadd. rewrite (Z.min_comm ey ex). f_equal. apply Z.add_comm.
Qed.

Lemma fadd_comm (x y : float) : (x + y)%float = (y + x)%float.
Proof.
  apply Prim2SF_inj. rewrite !add_spec. apply SFadd_comm.
Qed.

Lemma binary_round_aux_opp p em s m e l :
  binary_round_aux p em (negb s) m e l = SFopp (binary_round_aux p em s m e l).
Proof.
  unfold binary_round_aux.
  destruct (shr_fexp p em m e l) as [mrs' e'].
  destruct (shr_fexp p em _ e' loc_Exact) as [mrs'' e''].
  destruct (shr_m mrs''); try reflexivity.
  destruct (e'' <=? em - p); reflexivity.
Qed.

Lemma binary_normalize_opp p em m e :
  m <> 0 ->
  binary_normalize p em (- m) e false = SFopp (binary_normalize p em m e false).
Proof.
  destruct m as [|q|q]; intros H; try congruence; simpl; unfold binary_round;
    destruct (shl_align q e _) as [mz ez].
  - apply (binary_round_aux_opp p em false).
  - rewrite <- (binary_round_aux_opp p em true). reflexivity.
Qed.

(** [y - x] is the negation of [x - y] unless both are the same zero or NaN. *)
Lemma SFsub_swap p em x y :
  SFsub p em y x = SFopp (SFsub p em x y) \/
  (SFsub p em y x = SFsub p em x y /\
   (SFsub p em x y = S754_zero false \/ SFsub p em x y = S754_nan)).
Proof.
  destruct x as [sx|sx| |sx mx ex], y as [sy|sy| |sy my ey]; simpl; auto;
    try (destruct sx; auto; destruct sy; auto; fail);
    try (destruct sy; auto; fail); try (destruct sx; auto; fail).
  - rewrite (Z.min_comm ey ex).
    set (a := cond_Zopp sx _). set (b := cond_Zopp sy _).
    destruct (Z.eq_dec (a - b) 0) as [E|E].
    + right. replace (b - a) with 0 by lia. rewrite E. simpl. auto.
    + left. replace (b - a) with (- (a - b)) by lia. now apply binary_normalize_opp.
Qed.

Lemma SFmul_opp_l p em x y : SFmul p em (SFopp x) y = SFopp (SFmul p em x y).
Proof.
  destruct x as [sx|sx| |sx mx ex], y as [sy|sy| |sy my ey]; simpl; try reflexivity;
    try (destruct sx, sy; reflexivity).
  rewrite <- binary_round_aux_opp. destruct sx, sy; reflexivity.
Qed.

Lemma SFmul_opp_opp p em x : SFmul p em (SFopp x) (SFopp x) = SFmul p em x x.
Proof.
  destruct x as [sx|sx| |sx mx ex]; simpl; try reflexivity;
    try (destruct sx; reflexivity).
Qed.

Section Rounding.
Variables p em : Z.
Hypothesis p_pos : 0 < p.

Lemma digits2_pos_bounds m :
  2 ^ (Z.pos (digits2_pos m) - 1) <= Z.pos m < 2 ^ Z.pos (digits2_pos m).
Proof.
  induction m as [m IH|m IH|]; simpl digits2_pos.
  - rewrite Pos2Z.inj_succ. replace (Z.succ (Z.pos (digits2_pos m)) - 1) with (Z.pos (digits2_pos m)) by lia.
    rewrite Z.pow_succ_r by lia.
    replace (2 ^ Z.pos (digits2_pos m)) with (2 * 2 ^ (Z.pos (digits2_pos m) - 1)) in *
      by (rewrite <- Z.pow_succ_r by lia; f_equal; lia).
    lia.
  - rewrite Pos2Z.inj_succ. replace (Z.succ (Z.pos (digits2_pos m)) - 1) with (Z.pos (digits2_pos m)) by lia.
    rewrite Z.pow_succ_r by lia.
    replace (2 ^ Z.pos (digits2_pos m)) with (2 * 2 ^ (Z.pos (digits2_pos m) - 1)) in *
      by (rewrite <- Z.pow_succ_r by lia; f_equal; lia).
    lia.
  - simpl. lia.
Qed.

Lemma shr_1_m mrs : 0 <= shr_m mrs -> shr_m (shr_1 mrs) = Z.div2 (shr_m mrs).
Proof.
  destruct mrs as [m r s]. simpl. destruct m as [|[q|q|]|q]; simpl; try reflexivity; lia.
Qed.

Lemma iter_shr_1_m n mrs :
  0 <= shr_m mrs ->
  shr_m (SpecFloat.iter_pos shr_1 n mrs) = Z.shiftr (shr_m mrs) (Z.pos n).
Proof.
  revert mrs. induction n as [n IH|n IH|]; intros mrs H; simpl SpecFloat.iter_pos.
  - assert (H1 : 0 <= shr_m (shr_1 mrs)) by (rewrite shr_1_m by assumption; apply Z.div2_nonneg; assumption).
    assert (H2 : 0 <= shr_m (SpecFloat.iter_pos shr_1 n (shr_1 mrs))) by (rewrite IH by assumption; apply Z.shiftr_nonneg; assumption).
    rewrite IH, IH, shr_1_m, Z.div2_spec, !Z.shiftr_shiftr by (assumption || lia).
    f_equal. lia.
  - assert (H2 : 0 <= shr_m (SpecFloat.iter_pos shr_1 n mrs)) by (rewrite IH by assumption; apply Z.shiftr_nonneg; assumption).
    rewrite IH, IH, !Z.shiftr_shiftr by (assumption || lia).
    f_equal. lia.
  - rewrite shr_1_m, Z.div2_spec by assumption. reflexivity.
Qed.

Lemma shr_record_of_loc_m m l : shr_m (shr_record_of_loc m l) = m.
Proof. destruct l as [|[]]; reflexivity. Qed.

(** Shifting a positive mantissa down to its canonical exponent keeps it
    positive, provided the exponent is not below [emin]. *)
Lemma shr_fexp_pos m e l :
  SpecFloat.emin p em <= e ->
  0 < shr_m (fst (shr_fexp p em (Z.pos m) e l)) /\
  SpecFloat.emin p em <= snd (shr_fexp p em (Z.pos m) e l).
Proof.
  intros He. unfold shr_fexp, shr. simpl Zdigits2.
  pose proof (digits2_pos_bounds m) as [Hlo _].
  set (d := Z.pos (digits2_pos m)) in *.
  destruct (fexp p em (d + e) - e) as [|n|n] eqn:En; simpl fst; simpl snd;
    rewrite ?shr_record_of_loc_m; try (split; lia).
  unfold fexp in En.
  assert (Hn : Z.pos n = d - p) by lia.
  rewrite iter_shr_1_m by (rewrite shr_record_of_loc_m; lia).
  rewrite shr_record_of_loc_m. split; [|lia].
  rewrite Z.shiftr_div_pow2 by lia.
  apply Z.div_str_pos. split; [apply Z.pow_pos_nonneg; lia|].
  transitivity (2 ^ (d - 1)); [|assumption].
  apply Z.pow_le_mono_r; lia.
Qed.

Lemma round_nearest_even_pos m l : 0 < m -> 0 < round_nearest_even m l.
Proof.
  intros. unfold round_nearest_even. destruct l as [|[]]; try lia. destruct (Z.even m); lia.
Qed.

Lemma binary_round_aux_nonzero s m e l s' :
  SpecFloat.emin p em <= e ->
  binary_round_aux p em s (Z.pos m) e l <> S754_zero s'.
Proof.
  intros He. unfold binary_round_aux.
  pose proof (shr_fexp_pos m e l He) as [H1 H2].
  destruct (shr_fexp p em (Z.pos m) e l) as [mrs' e']. simpl in H1, H2.
  pose proof (round_nearest_even_pos (shr_m mrs') (loc_of_shr_record mrs') H1) as H3.
  destruct (round_nearest_even (shr_m mrs') (loc_of_shr_record mrs')) as [|m2|m2]; try lia.
  pose proof (shr_fexp_pos m2 e' loc_Exact H2) as [H4 _].
  destruct (shr_fexp p em (Z.pos m2) e' loc_Exact) as [mrs'' e'']. simpl in H4.
  destruct (shr_m mrs'') as [|m3|m3]; try lia.
  destruct (e'' <=? em - p); discriminate.
Qed.

Lemma shl_align_exp m e e' : Z.min e e' <= snd (shl_align m e e').
Proof.
  unfold shl_align. destruct (e' - e) eqn:E; simpl; lia.
Qed.

Lemma binary_round_nonzero s m e s' :
  SpecFloat.emin p em <= e ->
  binary_round p em s m e <> S754_zero s'.
Proof.
  intros He. unfold binary_round.
  pose proof (shl_align_exp m e (fexp p em (Z.pos (digits2_pos m) + e))) as H.
  destruct (shl_align m e _) as [mz ez]. simpl in H.
  apply binary_round_aux_nonzero. unfold fexp in H. lia.
Qed.

Lemma binary_normalize_zero m e s' :
  SpecFloat.emin p em <= e ->
  binary_normalize p em m e false = S754_zero s' -> m = 0.
Proof.
  intros He. destruct m; simpl; intros H; try reflexivity;
    exfalso; revert H; now apply binary_round_nonzero.
Qed.

Lemma shl_align_value m e e' :
  e' <= e -> Z.pos (fst (shl_align m e e')) = Z.pos m * 2 ^ (e - e').
Proof.
  intros H. unfold shl_align. destruct (e' - e) as [|d|d] eqn:E; simpl fst; try lia.
  - replace (e - e') with 0 by lia. simpl. lia.
  - change (Pos.iter xO m d) with (shift_pos d m). rewrite shift_pos_correct.
    replace (e - e') with (Z.pos d) by lia. change (Z.pow_pos 2 d) with (2 ^ Z.pos d). lia.
Qed.

Lemma canonical_bounds m e :
  bounded p em m e = true ->
  SpecFloat.emin p em <= e /\ Z.pos (digits2_pos m) <= p /\
  (SpecFloat.emin p em < e -> Z.pos (digits2_pos m) = p).
Proof.
  unfold bounded, canonical_mantissa, fexp. intros H.
  apply andb_true_iff in H as [H _]. apply Z.eqb_eq in H. lia.
Qed.

(** Two canonical mantissas that agree once aligned to the smaller exponent
    are the same mantissa at the same exponent. *)
Lemma aligned_eq mx ex my ey :
  bounded p em mx ex = true -> bounded p em my ey = true -> ex <= ey ->
  Z.pos mx = Z.pos my * 2 ^ (ey - ex) -> ex = ey /\ mx = my.
Proof.
  intros Hx Hy Hle Heq.
  apply canonical_bounds in Hx as (Hx1 & Hx2 & Hx3).
  apply canonical_bounds in Hy as (Hy1 & Hy2 & Hy3).
  destruct (Z.eq_dec ex ey) as [->|Hne].
  - split; [reflexivity|]. rewrite Z.sub_diag in Heq. simpl in Heq. lia.
  - exfalso. assert (Hd : Z.pos (digits2_pos my) = p) by (apply Hy3; lia).
    pose proof (digits2_pos_bounds mx) as [_ Hux].
    pose proof (digits2_pos_bounds my) as [Hly _].
    rewrite Hd in Hly.
    assert (2 ^ p <= Z.pos mx).
    { rewrite Heq. replace p with ((p - 1) + 1) at 1 by lia.
      rewrite Z.pow_add_r by lia.
      assert (2 ^ 1 <= 2 ^ (ey - ex)) by (apply Z.pow_le_mono_r; lia).
      assert (0 <= 2 ^ (p - 1)) by (apply Z.pow_nonneg; lia).
      apply Z.mul_le_mono_nonneg; lia. }
    assert (2 ^ Z.pos (digits2_pos mx) <= 2 ^ p) by (apply Z.pow_le_mono_r; lia).
    lia.
Qed.

Lemma SFsub_zero_eqb x y s :
  SpecFloat.valid_binary p em x = true -> SpecFloat.valid_binary p em y = true ->
  SFsub p em x y = S754_zero s -> SFeqb x y = true.
Proof.
  destruct x as [sx|sx| |sx mx ex], y as [sy|sy| |sy my ey]; simpl;
    intros Hx Hy H; try reflexivity; try discriminate;
    try (destruct sx, sy; discriminate); try (destruct sx; discriminate).
  pose proof (canonical_bounds _ _ Hx) as (Hx1 & _).
  pose proof (canonical_bounds _ _ Hy) as (Hy1 & _).
  apply binary_normalize_zero in H; [|lia].
  assert (Ex := shl_align_value mx ex (Z.min ex ey) ltac:(lia)).
  assert (Ey := shl_align_value my ey (Z.min ex ey) ltac:(lia)).
  unfold cond_Zopp in H.
  assert (Hs : sx = sy) by (destruct sx, sy; try reflexivity; lia).
  subst sy.
  assert (Hm : Z.pos (fst (shl_align mx ex (Z.min ex ey))) =
               Z.pos (fst (shl_align my ey (Z.min ex ey))))
    by (destruct sx; lia).
  rewrite Ex, Ey in Hm.
  assert (ex = ey /\ mx = my) as [-> ->].
  { destruct (Z.le_ge_cases ex ey) as [Hle|Hge].
    - rewrite Z.min_l, Z.sub_diag, Z.pow_0_r, Z.mul_1_r in Hm by assumption.
      apply aligned_eq; assumption.
    - rewrite Z.min_r, Z.sub_diag, Z.pow_0_r, Z.mul_1_r in Hm by lia.
      symmetry in Hm. destruct (aligned_eq my ey mx ex) as [-> ->]; try assumption; try lia. }
  unfold SFeqb. simpl. rewrite Z.compare_refl, Pos.compare_cont_refl.
  destruct sx; reflexivity.
Qed.

End Rounding.

Lemma fsub_eq_zero (x y : float) :
  (x - y =? 0)%float = true -> (x =? y)%float = true.
Proof.
  rewrite !FloatAxioms.eqb_spec, sub_spec. intros H.
  destruct (SF64sub (Prim2SF x) (Prim2SF y)) as [s|s| |s m e] eqn:E;
    try (destruct s; discriminate H); try discriminate H.
  apply (SFsub_zero_eqb prec emax ltac:(reflexivity)) with (s := s);
    auto using Prim2SF_valid.
Qed.

Section Shape.
Variables p em : Z.
Hypothesis p_pos : 0 < p.

Lemma binary_round_aux_shape s m e l :
  SpecFloat.emin p em <= e ->
  (exists m' e', binary_round_aux p em s (Z.pos m) e l = S754_finite s m' e') \/
  binary_round_aux p em s (Z.pos m) e l = S754_infinity s.
Proof.
  intros He. unfold binary_round_aux.
  pose proof (shr_fexp_pos p em p_pos m e l He) as [H1 H2].
  destruct (shr_fexp p em (Z.pos m) e l) as [mrs' e']. simpl in H1, H2.
  pose proof (round_nearest_even_pos (shr_m mrs') (loc_of_shr_record mrs') H1) as H3.
  destruct (round_nearest_even (shr_m mrs') (loc_of_shr_record mrs')) as [|m2|m2]; try lia.
  pose proof (shr_fexp_pos p em p_pos m2 e' loc_Exact H2) as [H4 _].
  destruct (shr_fexp p em (Z.pos m2) e' loc_Exact) as [mrs'' e'']. simpl in H4.
  destruct (shr_m mrs'') as [|m3|m3]; try lia.
  destruct (e'' <=? em - p); eauto.
Qed.

Lemma binary_normalize_not_nan m e :
  SpecFloat.emin p em <= e -> binary_normalize p em m e false <> S754_nan.
Proof.
  intros He. destruct m as [|m|m]; simpl; try discriminate; unfold binary_round.
  - pose proof (shl_align_exp m e (fexp p em (Z.pos (digits2_pos m) + e))) as H.
    destruct (shl_align m e _) as [mz ez]. simpl in H.
    destruct (binary_round_aux_shape false mz ez loc_Exact) as [(m' & e' & ->)| ->];
      try discriminate. unfold fexp in H. lia.
  - pose proof (shl_align_exp m e (fexp p em (Z.pos (digits2_pos m) + e))) as H.
    destruct (shl_align m e _) as [mz ez]. simpl in H.
    destruct (binary_round_aux_shape true mz ez loc_Exact) as [(m' & e' & ->)| ->];
      try discriminate. unfold fexp in H. lia.
Qed.

End Shape.

Lemma isfinite_spec x : Py.isfinite x = sf_finite (Prim2SF x).
Proof.
  unfold Py.isfinite. rewrite FloatAxioms.ltb_spec, abs_spec.
  change (Prim2SF infinity) with (S754_infinity false).
  destruct (Prim2SF x) as [s|s| |s m e]; try reflexivity.
Qed.

Lemma not_nan_spec x : (x =? x)%float = true <-> Prim2SF x <> S754_nan.
Proof.
  rewrite FloatAxioms.eqb_spec. unfold SFeqb.
  destruct (Prim2SF x) as [s|s| |s m e]; simpl; split; intros H; try congruence; try reflexivity.
  - destruct s; reflexivity.
  - rewrite Z.compare_refl, Pos.compare_cont_refl. destruct s; reflexivity.
Qed.

Lemma sub_finite_not_nan x y :
  (x =? x)%float = true -> Py.isfinite y = true -> Prim2SF (x - y) <> S754_nan.
Proof.
  rewrite not_nan_spec, isfinite_spec, sub_spec.
  pose proof (Prim2SF_valid x) as Vx. pose proof (Prim2SF_valid y) as Vy.
  destruct (Prim2SF x) as [sx|sx| |sx mx ex], (Prim2SF y) as [sy|sy| |sy my ey];
    simpl; intros Hx Hy; try congruence; try discriminate;
    try (destruct sx, sy; discriminate).
  apply binary_normalize_not_nan; [reflexivity|].
  apply (canonical_bounds prec emax) in Vx as (Hx1 & _).
  apply (canonical_bounds prec emax) in Vy as (Hy1 & _). lia.
Qed.

Lemma SFsub_diag p em x : sf_finite x = true -> SFsub p em x x = S754_zero false.
Proof.
  destruct x as [s|s| |s m e]; simpl; try discriminate; intros _.
  - destruct s; reflexivity.
  - rewrite Z.sub_diag. reflexivity.
Qed.

Lemma SFeqb_refl x : x <> S754_nan -> SFeqb x x = true.
Proof.
  unfold SFeqb. destruct x as [s|s| |s m e]; simpl; intros H; try congruence.
  - destruct s; reflexivity.
  - rewrite Z.compare_refl, Pos.compare_cont_refl. destruct s; reflexivity.
Qed.

(** At the start of a segment of positive duration the ratio is a zero and
    the blend is the start coordinate. *)
Lemma blend_at_start (x1 dx t1 t2 : float) :
  Py.isfinite t1 = true -> (t2 =? t2)%float = true -> (t2 =? t1)%float = false ->
  Py.isfinite x1 = true -> Py.isfinite dx = true ->
  (x1 + (t1 - t1) / (t2 - t1) * dx =? x1)%float = true.
Proof.
  intros Ht1 Ht2 Hne Hx Hdx.
  pose proof (sub_finite_not_nan t2 t1 Ht2 Ht1) as Hd.
  assert (Hz : (t2 - t1 =? 0)%float = false).
  { destruct (t2 - t1 =? 0)%float eqn:E; [|reflexivity].
    apply fsub_eq_zero in E. congruence. }
  rewrite FloatAxioms.eqb_spec in Hz. change (Prim2SF 0) with (S754_zero false) in Hz.
  rewrite isfinite_spec in Ht1, Hx, Hdx.
  rewrite FloatAxioms.eqb_spec, add_spec, mul_spec, div_spec, (sub_spec t1 t1).
  unfold SF64add, SF64mul, SF64div, SF64sub.
  rewrite SFsub_diag by assumption.
  destruct (Prim2SF (t2 - t1)) as [sd|sd| |sd md ed]; try congruence;
    try (destruct sd; discriminate Hz);
  destruct (Prim2SF dx) as [sx|sx| |sx mx ex]; try discriminate Hdx;
  destruct (Prim2SF x1) as [s|s| |s m e]; try discriminate Hx;
  cbn [SFdiv SFmul SFadd];
  try (apply SFeqb_refl; discriminate);
  repeat match goal with b : bool |- _ => destruct b end; reflexivity.
Qed.



Lemma positive_above_lt (c x : float) (e : Z) :
  positive_above e c = true -> (c <=? x)%float = true -> positive_above e x = true.
Proof.
  unfold positive_above. rewrite FloatAxioms.leb_spec. unfold SFleb.
  destruct (Prim2SF c) as [sc|sc| |sc mc ec], (Prim2SF x) as [s|s| |s m e'];
    simpl; intros Hc Hle; try discriminate;
    repeat match goal with b : bool |- _ => destruct b end;
    try discriminate; try reflexivity.
  destruct (Z.compare_spec ec e'); try discriminate; lia.
Qed.

Lemma positive_above_mul (a b : float) (ea eb : Z) :
  positive_above ea a = true -> positive_above eb b = true ->
  (SpecFloat.emin prec emax <=? ea + eb)%Z = true ->
  (0 <? a * b)%float = true.
Proof.
  unfold positive_above. intros Ha Hb He. rewrite FloatAxioms.ltb_spec, mul_spec.
  change (Prim2SF 0) with (S754_zero false). unfold SF64mul.
  destruct (Prim2SF a) as [sa|sa| |sa ma ea'], (Prim2SF b) as [sb|sb| |sb mb eb'];
    try discriminate;
    destruct sa; try discriminate; destruct sb; try discriminate; try reflexivity.
  cbn [SFmul xorb].
  destruct (binary_round_aux_shape prec emax ltac:(reflexivity) false (ma * mb)
              (ea' + eb') loc_Exact) as [(m' & e' & ->)| ->]; [lia| |]; reflexivity.
Qed.

Lemma positive_above_pos (e : Z) (x : float) :
  positive_above e x = true -> (0 <? x)%float = true.
Proof.
  unfold positive_above. rewrite FloatAxioms.ltb_spec.
  change (Prim2SF 0) with (S754_zero false).
  destruct (Prim2SF x) as [s|s| |s m e']; try discriminate;
    destruct s; try discriminate; reflexivity.
Qed.

(** ** The power [x ** 2]

    Both powers are functions of the absolute value of the base. *)

Section Power.
Local Open Scope float_scope.
Context {platform : Platform.t}.

Lemma abs_abs (x : float) : abs (abs x) = abs x.
Proof. apply Prim2SF_inj. rewrite !abs_spec. destruct (Prim2SF x); reflexivity. Qed.

Lemma abs_opp (x : float) : abs (- x) = abs x.
Proof. apply Prim2SF_inj. rewrite !abs_spec, opp_spec. destruct (Prim2SF x); reflexivity. Qed.

Lemma is_nan_abs (x : float) : is_nan (abs x) = is_nan x.
Proof.
  unfold is_nan. rewrite !FloatAxioms.eqb_spec, abs_spec. unfold SFeqb.
  destruct (Prim2SF x) as [s|s| |s m e]; simpl; try reflexivity.
  - destruct s; reflexivity.
  - rewrite Z.compare_refl, Pos.compare_cont_refl. destruct s; reflexivity.
Qed.

Lemma eqb_zero_abs (x : float) : (abs x =? 0) = (x =? 0).
Proof.
  rewrite !FloatAxioms.eqb_spec, abs_spec. change (Prim2SF 0) with (S754_zero false).
  destruct (Prim2SF x) as [s|s| |s m e]; try reflexivity; destruct s; reflexivity.
Qed.

Lemma nan_abs (x : float) : is_nan x = true -> abs x = x.
Proof.
  unfold is_nan. rewrite FloatAxioms.eqb_spec. intros H. apply Prim2SF_inj. rewrite abs_spec.
  pose proof (SFeqb_refl (Prim2SF x)) as R.
  destruct (Prim2SF x) as [s|s| |s m e]; try reflexivity;
    rewrite R in H by discriminate; discriminate.
Qed.

(** The absolute value as [float_pow] takes it: the base itself unless it
    is below zero. *)
Lemma abs_by_sign (x : float) :
  (x =? 0) = false -> (if x <? 0 then - x else x) = abs x.
Proof.
  rewrite FloatAxioms.eqb_spec, FloatAxioms.ltb_spec. change (Prim2SF 0) with (S754_zero false).
  intros H. apply Prim2SF_inj. rewrite abs_spec.
  destruct (Prim2SF x) as [s|s| |s m e] eqn:E.
  - destruct s; discriminate.
  - destruct s; cbn; [rewrite opp_spec|]; rewrite E; reflexivity.
  - cbn. rewrite E. reflexivity.
  - destruct s; cbn; [rewrite opp_spec|]; rewrite E; reflexivity.
Qed.

Lemma py_pow2_abs (x : float) : Py.pow2 (abs x) = Py.pow2 x.
Proof.
  unfold Py.pow2, is_infinity. rewrite is_nan_abs, !abs_abs, eqb_zero_abs.
  destruct (is_nan x) eqn:N; [now rewrite nan_abs|].
  destruct (abs x =? infinity); [reflexivity|].
  destruct (x =? 0) eqn:Z; [reflexivity|].
  rewrite (abs_by_sign x Z), (abs_by_sign (abs x)), abs_abs by now rewrite eqb_zero_abs.
  reflexivity.
Qed.

Lemma np_pow2_abs (x : float) : np.pow2 (abs x) = np.pow2 x.
Proof.
  unfold np.pow2, is_infinity. rewrite is_nan_abs, !abs_abs, eqb_zero_abs.
  destruct (is_nan x) eqn:N; [now rewrite nan_abs|]. reflexivity.
Qed.

Lemma pow2_abs (python_float : bool) (x : float) :
  ConflictDetector.pow2 python_float (abs x) = ConflictDetector.pow2 python_float x.
Proof.
  unfold ConflictDetector.pow2. destruct python_float; [apply py_pow2_abs|].
  now rewrite np_pow2_abs.
Qed.

Lemma abs_sub_swap (x y : float) : abs (x - y) = abs (y - x).
Proof.
  apply Prim2SF_inj. rewrite !abs_spec, !sub_spec. unfold SF64sub.
  destruct (SFsub_swap prec emax (Prim2SF x) (Prim2SF y)) as [H|[H _]]; rewrite H;
    [|reflexivity].
  destruct (SFsub prec emax (Prim2SF x) (Prim2SF y)); reflexivity.
Qed.

Lemma abs_sub_mul_swap (x y w : float) : abs ((x - y) * w) = abs ((y - x) * w).
Proof.
  apply Prim2SF_inj. rewrite !abs_spec, !mul_spec, !sub_spec. unfold SF64mul, SF64sub.
  destruct (SFsub_swap prec emax (Prim2SF x) (Prim2SF y)) as [H|[H _]]; rewrite H;
    [|reflexivity].
  rewrite SFmul_opp_l. destruct (SFmul prec emax _ _); reflexivity.
Qed.

Lemma py_pow2_sub_swap (x y : float) : Py.pow2 (x - y) = Py.pow2 (y - x).
Proof. rewrite <- py_pow2_abs, abs_sub_swap, py_pow2_abs. reflexivity. Qed.

Lemma pow2_sub_swap (python_float : bool) (x y : float) :
  ConflictDetector.pow2 python_float (x - y) = ConflictDetector.pow2 python_float (y - x).
Proof. rewrite <- pow2_abs, abs_sub_swap, pow2_abs. reflexivity. Qed.

Lemma pow2_sub_mul_swap (python_float : bool) (x y w : float) :
  ConflictDetector.pow2 python_float ((x - y) * w)
  = ConflictDetector.pow2 python_float ((y - x) * w).
Proof. rewrite <- pow2_abs, abs_sub_mul_swap, pow2_abs. reflexivity. Qed.

(** Python's power raises nothing but [OverflowError]. *)
Lemma py_pow2_raises (x : float) (e : Py.exn) :
  Py.pow2 x = Raise e -> e = Py.OverflowError.
Proof.
  unfold Py.pow2. repeat match goal with |- context [if ?b then _ else _] => destruct b end;
    intros H; congruence.
Qed.

Lemma pow2_raises (python_float : bool) (x : float) (e : Py.exn) :
  ConflictDetector.pow2 python_float x = Raise e -> e = Py.OverflowError.
Proof.
  unfold ConflictDetector.pow2. destruct python_float; [apply py_pow2_raises|discriminate].
Qed.

(** When Python's power returns, it returns what numpy's does. *)
Lemma py_pow2_value (x v : float) : Py.pow2 x = Ok v -> v = np.pow2 x.
Proof.
  unfold Py.pow2, np.pow2.
  destruct (is_nan x); [congruence|].
  destruct (is_infinity x) eqn:I.
  - intros [= <-]. unfold is_infinity in I. apply Prim2SF_inj.
    rewrite FloatAxioms.eqb_spec in I. rewrite abs_spec in *.
    change (Prim2SF infinity) with (S754_infinity false) in *.
    destruct (Prim2SF x) as [s|s| |s m e]; try discriminate; reflexivity.
  - destruct (x =? 0) eqn:Z; [congruence|].
    rewrite (abs_by_sign x Z).
    destruct (abs x =? 1); [congruence|].
    match goal with |- context [if ?b then Raise _ else _] => destruct b end; congruence.
Qed.

End Power.

(** ** Numbers up to the sign of a zero

    The arithmetic and the comparisons do not tell the two zeros apart,
    except in the sign of a zero result. *)

Section SameNumber.
Local Open Scope float_scope.
Context {platform : Platform.t}.

Lemma sf_same_refl x : sf_same x x.
Proof. left. reflexivity. Qed.

Lemma sf_same_sym x y : sf_same x y -> sf_same y x.
Proof. intros [->|[H1 H2]]; [left; reflexivity|right; auto]. Qed.

Ltac sf_same_cases :=
  repeat match goal with
  | H : sf_same _ _ |- _ => destruct H as [<-|[? ?]]
  end;
  repeat match goal with
  | H : sf_zero ?x = true |- _ =>
      destruct x as [[|]|?| |? ? ?]; try discriminate H; clear H
  end.

Ltac sf_same_solve :=
  first [ left; reflexivity
        | right; split; reflexivity
        | match goal with
          | |- sf_same ?a ?b =>
              destruct b as [[|]|[|]| |[|] ? ?]; cbn; first [left; reflexivity | right; split; reflexivity]
          end ].

Lemma SFadd_same p em x x' y y' :
  sf_same x x' -> sf_same y y' -> sf_same (SFadd p em x y) (SFadd p em x' y').
Proof.
  intros Hx Hy. sf_same_cases; try apply sf_same_refl;
    try (destruct x as [[|]|[|]| |[|] ? ?]; cbn; sf_same_solve);
    try (destruct y as [[|]|[|]| |[|] ? ?]; cbn; sf_same_solve);
    cbn; sf_same_solve.
Qed.

Lemma SFopp_same x x' : sf_same x x' -> sf_same (SFopp x) (SFopp x').
Proof. intros Hx. sf_same_cases; cbn; sf_same_solve. Qed.

Lemma SFsub_same p em x x' y y' :
  sf_same x x' -> sf_same y y' -> sf_same (SFsub p em x y) (SFsub p em x' y').
Proof.
  intros Hx Hy. sf_same_cases; try apply sf_same_refl;
    try (destruct x as [[|]|[|]| |[|] ? ?]; cbn; sf_same_solve);
    try (destruct y as [[|]|[|]| |[|] ? ?]; cbn; sf_same_solve);
    cbn; sf_same_solve.
Qed.

Lemma SFmul_same p em x x' y y' :
  sf_same x x' -> sf_same y y' -> sf_same (SFmul p em x y) (SFmul p em x' y').
Proof.
  intros Hx Hy. sf_same_cases; try apply sf_same_refl;
    try (destruct x as [[|]|[|]| |[|] ? ?]; cbn; sf_same_solve);
    try (destruct y as [[|]|[|]| |[|] ? ?]; cbn; sf_same_solve);
    cbn; sf_same_solve.
Qed.

Lemma SFdiv_same p em x x' y :
  sf_same x x' -> sf_same (SFdiv p em x y) (SFdiv p em x' y).
Proof.
  intros Hx. sf_same_cases; try apply sf_same_refl;
    destruct y as [[|]|[|]| |[|] ? ?]; cbn; sf_same_solve.
Qed.

Lemma SFabs_same x x' : sf_same x x' -> sf_same (SFabs x) (SFabs x').
Proof. intros Hx. sf_same_cases; cbn; sf_same_solve. Qed.

Lemma SFcompare_same x x' y y' :
  sf_same x x' -> sf_same y y' -> SFcompare x y = SFcompare x' y'.
Proof.
  intros Hx Hy. sf_same_cases; try reflexivity;
    try (destruct x as [[|]|[|]| |[|] ? ?]; reflexivity);
    try (destruct y as [[|]|[|]| |[|] ? ?]; reflexivity).
Qed.

Lemma same_number_spec (a b : float) :
  Spec.same_number a b <-> sf_same (Prim2SF a) (Prim2SF b).
Proof.
  unfold Spec.same_number, sf_same. rewrite !FloatAxioms.eqb_spec.
  change (Prim2SF 0) with (S754_zero false).
  split; intros [H|[H1 H2]].
  - left. now rewrite H.
  - right. destruct (Prim2SF a) as [[|]|[|]| |[|] ? ?], (Prim2SF b) as [[|]|[|]| |[|] ? ?];
      try discriminate; split; reflexivity.
  - left. now apply Prim2SF_inj.
  - right. destruct (Prim2SF a) as [[|]|[|]| |[|] ? ?], (Prim2SF b) as [[|]|[|]| |[|] ? ?];
      try discriminate; split; reflexivity.
Qed.

Lemma same_number_refl (a : float) : Spec.same_number a a.
Proof. left. reflexivity. Qed.

Lemma same_number_sym (a b : float) : Spec.same_number a b -> Spec.same_number b a.
Proof. intros [->|[H1 H2]]; [left; reflexivity|right; auto]. Qed.

Lemma same_add a a' b b' :
  Spec.same_number a a' -> Spec.same_number b b' -> Spec.same_number (a + b) (a' + b').
Proof. rewrite !same_number_spec, !add_spec. apply SFadd_same. Qed.

Lemma same_sub a a' b b' :
  Spec.same_number a a' -> Spec.same_number b b' -> Spec.same_number (a - b) (a' - b').
Proof. rewrite !same_number_spec, !sub_spec. apply SFsub_same. Qed.

Lemma same_mul a a' b b' :
  Spec.same_number a a' -> Spec.same_number b b' -> Spec.same_number (a * b) (a' * b').
Proof. rewrite !same_number_spec, !mul_spec. apply SFmul_same. Qed.

Lemma same_div a a' b :
  Spec.same_number a a' -> Spec.same_number (a / b) (a' / b).
Proof. rewrite !same_number_spec, !div_spec. apply SFdiv_same. Qed.

Lemma same_abs a a' : Spec.same_number a a' -> Spec.same_number (abs a) (abs a').
Proof. rewrite !same_number_spec, !abs_spec. apply SFabs_same. Qed.

Lemma same_ltb a a' b b' :
  Spec.same_number a a' -> Spec.same_number b b' -> (a <? b) = (a' <? b').
Proof.
  rewrite !same_number_spec, !FloatAxioms.ltb_spec. unfold SFltb. intros Ha Hb.
  now rewrite (SFcompare_same _ _ _ _ Ha Hb).
Qed.

Lemma same_leb a a' b b' :
  Spec.same_number a a' -> Spec.same_number b b' -> (a <=? b) = (a' <=? b').
Proof.
  rewrite !same_number_spec, !FloatAxioms.leb_spec. unfold SFleb. intros Ha Hb.
  now rewrite (SFcompare_same _ _ _ _ Ha Hb).
Qed.

Lemma same_eqb a a' b b' :
  Spec.same_number a a' -> Spec.same_number b b' -> (a =? b) = (a' =? b').
Proof.
  rewrite !same_number_spec, !FloatAxioms.eqb_spec. unfold SFeqb. intros Ha Hb.
  now rewrite (SFcompare_same _ _ _ _ Ha Hb).
Qed.

(** Floats that compare equal are the same number. *)
Lemma eqb_same (a b : float) : (a =? b) = true -> Spec.same_number a b.
Proof.
  rewrite same_number_spec, FloatAxioms.eqb_spec. unfold SFeqb, sf_same.
  destruct (Prim2SF a) as [sa|sa| |sa ma ea], (Prim2SF b) as [sb|sb| |sb mb eb];
    simpl; try discriminate; auto;
    try (destruct sa, sb; simpl; intros; try discriminate; auto; fail).
  destruct sa, sb; try discriminate;
    destruct (Z.compare_spec ea eb); try discriminate;
    rewrite Pos.compare_cont_spec; simpl;
    destruct (Pos.compare_spec ma mb); try discriminate; intros _; left; congruence.
Qed.

(** The same number that is not NaN compares equal. *)
Lemma same_eqb_refl (a b : float) :
  Spec.same_number a b -> (a =? a) = true -> (a =? b) = true.
Proof. intros H Ha. rewrite <- (same_eqb a a a b (same_number_refl a) H). exact Ha. Qed.

Lemma same_int_ceil (a a' : float) : Spec.same_number a a' -> Py.int_ceil a = Py.int_ceil a'.
Proof.
  rewrite same_number_spec. unfold Py.int_ceil. intros [->|[H1 H2]]; [reflexivity|].
  destruct (Prim2SF a), (Prim2SF a'); try discriminate. reflexivity.
Qed.

Lemma same_pow2 (python_float : bool) (a a' : float) :
  Spec.same_number a a' ->
  ConflictDetector.pow2 python_float a = ConflictDetector.pow2 python_float a'.
Proof.
  intros [->|[H1 H2]]; [reflexivity|].
  assert (Z : forall x, (x =? 0) = true -> is_nan x = false /\ is_infinity x = false).
  { intros x. unfold is_nan, is_infinity. rewrite !FloatAxioms.eqb_spec, abs_spec.
    change (Prim2SF 0) with (S754_zero false). change (Prim2SF infinity) with (S754_infinity false).
    destruct (Prim2SF x) as [[|]|[|]| |[|] ? ?]; try discriminate; split; reflexivity. }
  destruct (Z a H1) as [Na Ia], (Z a' H2) as [Na' Ia'].
  unfold ConflictDetector.pow2, Py.pow2, np.pow2.
  rewrite Na, Ia, H1, Na', Ia', H2. reflexivity.
Qed.

Lemma same_max a a' b b' :
  Spec.same_number a a' -> Spec.same_number b b' ->
  Spec.same_number (Py.max a b) (Py.max a' b').
Proof.
  intros Ha Hb. unfold Py.max. cbn [Py.num_ltb Py.float_Num].
  rewrite (same_ltb a a' b b' Ha Hb). destruct (a' <? b'); assumption.
Qed.

Lemma same_min a a' b b' :
  Spec.same_number a a' -> Spec.same_number b b' ->
  Spec.same_number (Py.min a b) (Py.min a' b').
Proof.
  intros Ha Hb. unfold Py.min. cbn [Py.num_ltb Py.float_Num].
  rewrite (same_ltb b b' a a' Hb Ha). destruct (b' <? a'); assumption.
Qed.

(** [max(a, b)] and [max(b, a)] are the same number unless one is NaN, and
    so are [min(a, b)] and [min(b, a)]. *)
Lemma max_swap (a b : float) :
  (a =? a) = true -> (b =? b) = true -> Spec.same_number (Py.max b a) (Py.max a b).
Proof.
  intros Ha Hb. unfold Py.max. cbn [Py.num_ltb Py.float_Num].
  destruct (a <? b) eqn:E1, (b <? a) eqn:E2; try apply same_number_refl.
  - exfalso. float_order.
  - apply eqb_same. float_order.
Qed.

Lemma min_swap (a b : float) :
  (a =? a) = true -> (b =? b) = true -> Spec.same_number (Py.min b a) (Py.min a b).
Proof.
  intros Ha Hb. unfold Py.min. cbn [Py.num_ltb Py.float_Num].
  destruct (a <? b) eqn:E1, (b <? a) eqn:E2; try apply same_number_refl.
  - exfalso. float_order.
  - apply eqb_same. float_order.
Qed.

End SameNumber.

End IEEE.

(** * Interpolation *)

Section Interpolation.

Import IEEE.
Context {platform : Platform.t}.

Lemma truediv_sub_ok (a t2 t1 : float) :
  (t2 =? t1) = false -> Py.truediv a (t2 - t1) = Ok (a / (t2 - t1)).
Proof.
  intros H. unfold Py.truediv.
  destruct (t2 - t1 =? 0) eqn:E; [|reflexivity].
  apply fsub_eq_zero in E. congruence.
Qed.

(** The blend never raises: the division is only reached with a divisor
    that is not zero. *)
Lemma blend_ok (wp1 wp2 : Waypoint.t) (t : float) :
  exists pos, FlightPlan.blend wp1 wp2 t = Ok pos.
Proof.
  unfold FlightPlan.blend, FlightPlan.blend_with.
  destruct (Waypoint.time wp2 =? Waypoint.time wp1) eqn:E; [eauto|].
  rewrite truediv_sub_ok by assumption. simpl. eauto.
Qed.

Lemma segment_search_ok (wps : list Waypoint.t) (t : float) :
  exists r, FlightPlan.segment_search wps t = Ok r.
Proof.
  unfold FlightPlan.segment_search.
  induction wps as [|wp1 [|wp2 rest] IH]; simpl; eauto.
  destruct ((Waypoint.time wp1 <=? t) && (t <=? Waypoint.time wp2)); [|exact IH].
  destruct (blend_ok wp1 wp2 t) as [pos Hp]. unfold FlightPlan.blend in Hp.
  rewrite Hp. simpl. eauto.
Qed.

Lemma last_cons_cons {A : Type} (a b : A) (l : list A) :
  Py.last (a :: b :: l) = Py.last (b :: l).
Proof. reflexivity. Qed.

Lemma last_ok {A : Type} (a : A) (l : list A) : exists b, Py.last (a :: l) = Ok b.
Proof.
  revert a. induction l as [|b l IH]; intros a; [simpl; eauto|].
  rewrite last_cons_cons. apply IH.
Qed.

(** With at least one waypoint, interpolation returns (a position or
    [None]); it raises [IndexError] on an empty trajectory. *)
Lemma interpolate_position_ok (fp : FlightPlan.t) (t : float) :
  FlightPlan.waypoints fp <> [] ->
  exists r, FlightPlan.interpolate_position fp t = Ok r.
Proof.
  unfold FlightPlan.interpolate_position, FlightPlan.interpolate_position_with. intros H.
  destruct (FlightPlan.waypoints fp) as [|wp wps] eqn:E; [congruence|].
  cbn [Py.first Py.bind].
  destruct (t <? Waypoint.time wp); [eauto|].
  destruct (last_ok wp wps) as [wl ->]. cbn [Py.bind].
  destruct (Waypoint.time wl <? t); [eauto|].
  apply segment_search_ok.
Qed.

(** A time at which the search finds a segment is not NaN. *)
Lemma segment_search_some_not_nan (wps : list Waypoint.t) (t : float) (pos : position) :
  FlightPlan.segment_search wps t = Ok (Some pos) -> (t =? t) = true.
Proof.
  unfold FlightPlan.segment_search.
  induction wps as [|wp1 [|wp2 rest] IH]; simpl; try discriminate.
  destruct (Waypoint.time wp1 <=? t) eqn:E1; simpl; [|exact IH].
  intros _. clear IH. float_order.
Qed.

Lemma interpolate_position_some_not_nan (fp : FlightPlan.t) (t : float) (pos : position) :
  FlightPlan.interpolate_position fp t = Ok (Some pos) -> (t =? t) = true.
Proof.
  unfold FlightPlan.interpolate_position, FlightPlan.interpolate_position_with.
  destruct (Py.first _) as [wf|]; simpl; [|discriminate].
  destruct (t <? Waypoint.time wf); [discriminate|].
  destruct (Py.last _) as [wl|]; simpl; [|discriminate].
  destruct (Waypoint.time wl <? t); [discriminate|].
  apply segment_search_some_not_nan.
Qed.

(** Inside the time span of a sorted list of at least two waypoints the
    search finds a segment: the [return None] after the loop is not
    reached. *)
Lemma segment_search_in_range (wps : list Waypoint.t) (t : float) (wf wl : Waypoint.t) :
  (2 <= length wps)%nat -> Valid.times_sorted wps = true ->
  Py.first wps = Ok wf -> Py.last wps = Ok wl ->
  (Waypoint.time wf <=? t) = true -> (t <=? Waypoint.time wl) = true ->
  exists pos, FlightPlan.segment_search wps t = Ok (Some pos).
Proof.
  revert wf. induction wps as [|wp1 [|wp2 rest] IH]; intros wf Hlen Hs Hf Hl H1 H2;
    try (simpl in Hlen; lia).
  simpl in Hf. injection Hf as <-.
  simpl Valid.times_sorted in Hs. apply andb_true_iff in Hs as [Hs1 Hs2].
  unfold FlightPlan.segment_search. cbn [FlightPlan.segment_search_with].
  rewrite H1. simpl andb.
  destruct (t <=? Waypoint.time wp2) eqn:E.
  - destruct (blend_ok wp1 wp2 t) as [pos Hp]. unfold FlightPlan.blend in Hp.
    rewrite Hp. simpl. eauto.
  - rewrite last_cons_cons in Hl.
    destruct rest as [|wp3 rest].
    + simpl in Hl. injection Hl as <-. congruence.
    + apply (IH wp2); try assumption; try reflexivity.
      * simpl. lia.
      * clear IH Hl Hs2. float_order.
Qed.

End Interpolation.

Section InterpolationClaims.

Import IEEE.
Context {platform : Platform.t}.

Lemma segment_search_with_enclosing (div : float -> float -> result float)
    (wps : list Waypoint.t) (t : float) :
  FlightPlan.segment_search_with div wps t =
  match Valid.enclosing_segment wps t with
  | Some (wp1, wp2) => pos <- FlightPlan.blend_with div wp1 wp2 t ;; Ok (Some pos)
  | None => Ok None
  end.
Proof.
  induction wps as [|wp1 [|wp2 rest] IH]; try reflexivity.
  cbn [FlightPlan.segment_search_with Valid.enclosing_segment].
  destruct ((Waypoint.time wp1 <=? t) && (t <=? Waypoint.time wp2)); [reflexivity|exact IH].
Qed.

Lemma sorted_first_last (wps : list Waypoint.t) (wf wl : Waypoint.t) :
  (2 <= length wps)%nat -> Valid.times_sorted wps = true ->
  Py.first wps = Ok wf -> Py.last wps = Ok wl ->
  (Waypoint.time wf <=? Waypoint.time wl) = true.
Proof.
  revert wf. induction wps as [|wp1 [|wp2 rest] IH]; intros wf Hlen Hs Hf Hl;
    try (simpl in Hlen; lia).
  simpl in Hf. injection Hf as <-.
  cbn [Valid.times_sorted] in Hs. apply andb_true_iff in Hs as [Hs1 Hs2].
  rewrite last_cons_cons in Hl.
  destruct rest as [|wp3 rest].
  - simpl in Hl. injection Hl as <-. assumption.
  - assert (H : (Waypoint.time wp2 <=? Waypoint.time wl) = true).
    { apply (IH wp2); try assumption; try reflexivity. simpl. lia. }
    clear IH Hl Hs2. float_order.
Qed.

(** In a sorted trajectory every waypoint's time lies between the first
    and the last. *)
Lemma sorted_in_range (wps : list Waypoint.t) (wf wl w : Waypoint.t) :
  Valid.times_sorted wps = true ->
  Py.first wps = Ok wf -> Py.last wps = Ok wl -> In w wps ->
  (1 <= length wps)%nat /\
  ((2 <= length wps)%nat ->
   (Waypoint.time wf <=? Waypoint.time w) = true /\
   (Waypoint.time w <=? Waypoint.time wl) = true).
Proof.
  revert wf. induction wps as [|wp1 [|wp2 rest] IH]; intros wf Hs Hf Hl Hin.
  - destruct Hin.
  - simpl. split; [lia|lia].
  - split; [simpl; lia|]. intros _.
    simpl in Hf. injection Hf as <-.
    cbn [Valid.times_sorted] in Hs. apply andb_true_iff in Hs as [Hs1 Hs2].
    rewrite last_cons_cons in Hl.
    assert (Hfl : (Waypoint.time wp2 <=? Waypoint.time wl) = true).
    { destruct rest as [|wp3 rest].
      - simpl in Hl. injection Hl as <-. clear IH. float_order.
      - apply (sorted_first_last (wp2 :: wp3 :: rest)); try assumption; try reflexivity.
        simpl. lia. }
    destruct Hin as [<-|Hin].
    + split; clear IH Hl Hs2; float_order.
    + destruct (IH wp2 Hs2 eq_refl Hl Hin) as [_ H].
      destruct rest as [|wp3 rest].
      * destruct Hin as [<-|[]]. simpl in Hl. injection Hl as <-.
        split; clear IH H; float_order.
      * destruct H as [H1 H2]; [simpl; lia|].
        split; [|assumption]. clear IH Hl Hs2 Hfl H2. float_order.
Qed.

(** Inside the time span the two range tests of [interpolate_position]
    pass and the answer is that of the segment search. *)
Lemma interpolate_position_guard (fp : FlightPlan.t) (t : float) (wf wl : Waypoint.t) :
  Py.first (FlightPlan.waypoints fp) = Ok wf ->
  Py.last (FlightPlan.waypoints fp) = Ok wl ->
  (Waypoint.time wf <=? t) = true ->
  (t <=? Waypoint.time wl) = true ->
  forall div,
    FlightPlan.interpolate_position_with div fp t
    = FlightPlan.segment_search_with div (FlightPlan.waypoints fp) t.
Proof.
  intros Hf Hl H1 H2 div. unfold FlightPlan.interpolate_position_with.
  rewrite Hf, Hl. cbn [Py.bind].
  replace (t <? Waypoint.time wf) with false by (symmetry; float_order).
  replace (Waypoint.time wl <? t) with false by (symmetry; float_order).
  reflexivity.
Qed.

(** C9.  For a trajectory with at least two waypoints and non-decreasing
    times, and a time [t] between the first and the last waypoint's time,
    the segment search stops at a segment (the [return None] after the loop
    is not reached) and [interpolate_position] returns a position: neither
    [None] nor an exception.  When the segment it stops at has zero
    duration, the answer is that segment's first waypoint whatever the
    division does: no division takes part in it. *)
Theorem interpolate_position_defined (fp : FlightPlan.t) (t : float)
    (wf wl : Waypoint.t) :
  Valid.trajectory fp = true ->
  Py.first (FlightPlan.waypoints fp) = Ok wf ->
  Py.last (FlightPlan.waypoints fp) = Ok wl ->
  (Waypoint.time wf <=? t) = true ->
  (t <=? Waypoint.time wl) = true ->
  exists wp1 wp2 pos,
    Valid.enclosing_segment (FlightPlan.waypoints fp) t = Some (wp1, wp2) /\
    FlightPlan.segment_search (FlightPlan.waypoints fp) t = Ok (Some pos) /\
    FlightPlan.interpolate_position fp t = Ok (Some pos) /\
    ((Waypoint.time wp2 =? Waypoint.time wp1) = true ->
     forall div, FlightPlan.interpolate_position_with div fp t
                 = Ok (Some (Waypoint.coords wp1))).
Proof.
  unfold Valid.trajectory. intros Hv Hf Hl H1 H2.
  apply andb_true_iff in Hv as [Hlen Hs]. apply Nat.leb_le in Hlen.
  destruct (segment_search_in_range _ t wf wl Hlen Hs Hf Hl H1 H2) as [pos Hpos].
  pose proof (interpolate_position_guard fp t wf wl Hf Hl H1 H2) as Hguard.
  pose proof Hpos as Hpos'. unfold FlightPlan.segment_search in Hpos'.
  rewrite segment_search_with_enclosing in Hpos'.
  destruct (Valid.enclosing_segment (FlightPlan.waypoints fp) t) as [[wp1 wp2]|] eqn:E;
    [|discriminate].
  exists wp1, wp2, pos. repeat split.
  - exact Hpos.
  - unfold FlightPlan.interpolate_position. rewrite Hguard. exact Hpos.
  - intros Hz div. rewrite Hguard, segment_search_with_enclosing, E.
    unfold FlightPlan.blend_with. rewrite Hz. reflexivity.
Qed.

Lemma interpolate_position_defined_witness :
  exists wp1 wp2 pos,
    Valid.enclosing_segment (FlightPlan.waypoints Examples.hold_then_go) 0
      = Some (wp1, wp2) /\
    FlightPlan.segment_search (FlightPlan.waypoints Examples.hold_then_go) 0
      = Ok (Some pos) /\
    FlightPlan.interpolate_position Examples.hold_then_go 0 = Ok (Some pos) /\
    ((Waypoint.time wp2 =? Waypoint.time wp1) = true ->
     forall div, FlightPlan.interpolate_position_with div Examples.hold_then_go 0
                 = Ok (Some (Waypoint.coords wp1))).
Proof.
  apply (interpolate_position_defined Examples.hold_then_go 0
           (Examples.wp 0 0 0 0) (Examples.wp 20 0 0 5)); reflexivity.
Defined.

Lemma isfinite_not_nan (x : float) : Py.isfinite x = true -> (x =? x) = true.
Proof.
  rewrite isfinite_spec, not_nan_spec.
  destruct (Prim2SF x); simpl; congruence.
Qed.

(** What holds at the times of the waypoints.  On a trajectory with
    non-decreasing times a query at the time of any waypoint returns a
    position.  At the first waypoint's time it is the first waypoint's
    position (its coordinates compare equal), provided the first
    waypoint's time and coordinates are finite and the coordinate
    differences of the first segment do not overflow.  Nothing of the kind
    holds at later waypoints: see [interpolate_position_not_exact]. *)
Lemma interpolate_position_at_first (fp : FlightPlan.t)
    (wp1 wp2 : Waypoint.t) (rest : list Waypoint.t) :
  FlightPlan.waypoints fp = wp1 :: wp2 :: rest ->
  Valid.times_sorted (FlightPlan.waypoints fp) = true ->
  Valid.segment_finite wp1 wp2 = true ->
  (exists pos,
     FlightPlan.interpolate_position fp (Waypoint.time wp1) = Ok (Some pos) /\
     Valid.position_eqb pos (Waypoint.coords wp1) = true) /\
  (forall w, In w (FlightPlan.waypoints fp) ->
     exists pos, FlightPlan.interpolate_position fp (Waypoint.time w) = Ok (Some pos)).
Proof.
  intros Hw Hs Hfin.
  assert (Hv : Valid.trajectory fp = true).
  { unfold Valid.trajectory. rewrite Hs, Hw. reflexivity. }
  destruct (last_ok wp1 (wp2 :: rest)) as [wl Hl]. rewrite <- Hw in Hl.
  assert (Hf : Py.first (FlightPlan.waypoints fp) = Ok wp1) by (rewrite Hw; reflexivity).
  split.
  - unfold Valid.segment_finite in Hfin.
    repeat (apply andb_true_iff in Hfin as [Hfin ?]).
    assert (Hn1 : (Waypoint.time wp1 =? Waypoint.time wp1) = true)
      by (apply isfinite_not_nan; assumption).
    assert (H12 : (Waypoint.time wp1 <=? Waypoint.time wp2) = true).
    { rewrite Hw in Hs. cbn [Valid.times_sorted] in Hs.
      apply andb_true_iff in Hs as [Hs _]. exact Hs. }
    assert (H1l : (Waypoint.time wp1 <=? Waypoint.time wl) = true).
    { apply (sorted_first_last (FlightPlan.waypoints fp)); try assumption.
      rewrite Hw. simpl. lia. }
    unfold FlightPlan.interpolate_position, FlightPlan.interpolate_position_with.
    rewrite Hf, Hl. cbn [Py.bind].
    replace (Waypoint.time wp1 <? Waypoint.time wp1) with false
      by (symmetry; clear Hs; float_order).
    replace (Waypoint.time wl <? Waypoint.time wp1) with false
      by (symmetry; clear Hs H12; float_order).
    rewrite Hw. cbn [FlightPlan.segment_search_with].
    replace (Waypoint.time wp1 <=? Waypoint.time wp1) with true
      by (symmetry; clear Hs H12 H1l; float_order).
    rewrite H12. cbn [andb]. unfold FlightPlan.blend_with.
    destruct (Waypoint.time wp2 =? Waypoint.time wp1) eqn:E.
    + eexists. split; [reflexivity|].
      unfold Valid.position_eqb, Waypoint.coords.
      rewrite !isfinite_not_nan by assumption. reflexivity.
    + rewrite truediv_sub_ok by assumption. cbn [Py.bind].
      eexists. split; [reflexivity|].
      assert (Hn2 : (Waypoint.time wp2 =? Waypoint.time wp2) = true)
        by (clear Hs H1l E; float_order).
      unfold Valid.position_eqb, Waypoint.coords.
      rewrite !blend_at_start by assumption. reflexivity.
  - intros w Hin.
    destruct (sorted_in_range _ wp1 wl w Hs Hf Hl Hin) as [_ H].
    destruct H as [H1 H2]; [rewrite Hw; simpl; lia|].
    unfold Valid.trajectory in Hv. apply andb_true_iff in Hv as [Hlen _].
    apply Nat.leb_le in Hlen.
    destruct (segment_search_in_range _ (Waypoint.time w) wp1 wl Hlen Hs Hf Hl H1 H2)
      as [pos Hpos].
    exists pos. unfold FlightPlan.interpolate_position.
    rewrite (interpolate_position_guard fp _ wp1 wl Hf Hl H1 H2). exact Hpos.
Qed.

Example interpolate_position_at_first_final_jump :
  (exists pos,
     FlightPlan.interpolate_position Examples.final_jump 0 = Ok (Some pos) /\
     Valid.position_eqb pos (0, 0, 0) = true) /\
  (forall w, In w (FlightPlan.waypoints Examples.final_jump) ->
     exists pos,
       FlightPlan.interpolate_position Examples.final_jump (Waypoint.time w)
       = Ok (Some pos)).
Proof.
  apply (interpolate_position_at_first Examples.final_jump
           (Examples.wp 0 0 0 0) (Examples.wp 1 0 0 1) [Examples.wp 5 0 0 1]);
    reflexivity.
Qed.

(** C2.  The code misses the exact answer at the last waypoint, in two
    ways: the search stops at the first segment whose closed span contains
    the time and blends, with no case for a time that is a waypoint's.  At
    the end of a trajectory whose last segment is an instantaneous jump
    the answer is the waypoint before the jump, not the last waypoint.  At
    the end of an ordinary segment the answer is [wp1 + 1 * (wp2 - wp1)],
    which rounds: from [x = 1e16] to [x = 1] it is [0]. *)
Theorem interpolate_position_not_exact :
  (Valid.trajectory Examples.final_jump = true /\
   Py.last (FlightPlan.waypoints Examples.final_jump) = Ok (Examples.wp 5 0 0 1) /\
   FlightPlan.interpolate_position Examples.final_jump 1 = Ok (Some (1, 0, 0)) /\
   Valid.position_eqb (1, 0, 0) (5, 0, 0) = false) /\
  (Valid.trajectory Examples.long_leg = true /\
   Py.last (FlightPlan.waypoints Examples.long_leg) = Ok (Examples.wp 1 0 0 1) /\
   FlightPlan.interpolate_position Examples.long_leg 1 = Ok (Some (0, 0, 0)) /\
   Valid.position_eqb (0, 0, 0) (1, 0, 0) = false).
Proof. repeat split; vm_compute; reflexivity. Qed.

End InterpolationClaims.

(** * The pairwise check *)

Section CheckPair.

Import IEEE.
Context {platform : Platform.t}.

(** The divisor of [desired_step] is not zero. *)
Lemma relative_speed_divisor (x : float) :
  (x <=? 1e-6) = false -> (x * 4 =? 0) = false.
Proof.
  intros H. destruct (x =? x) eqn:En.
  - assert (Hle : (1e-6 <=? x) = true) by float_order.
    pose proof (positive_above_lt 1e-6 x (-72) eq_refl Hle) as Hx.
    pose proof (positive_above_mul x 4 (-72) (-50) Hx eq_refl eq_refl) as Hp.
    clear H Hle Hx En. float_order.
  - clear H. rewrite FloatAxioms.eqb_spec, mul_spec.
    apply not_true_iff_false in En. rewrite not_nan_spec in En.
    destruct (Prim2SF x) as [s|s| |s m e]; try reflexivity; exfalso; apply En; discriminate.
Qed.

(** The step of the sampling is never zero: [duration / step] does not
    divide by zero. *)
Lemma effective_time_step_not_zero (d : ConflictDetector.t) (f1 f2 : FlightPlan.t)
    (step : float) :
  ConflictDetector._get_effective_time_step d f1 f2 = Ok step -> (step =? 0) = false.
Proof.
  unfold ConflictDetector._get_effective_time_step.
  destruct (ConflictDetector._calculate_max_segment_speed d f1) as [speed1|]; [|discriminate].
  destruct (ConflictDetector._calculate_max_segment_speed d f2) as [speed2|]; [|discriminate].
  cbn [Py.bind].
  set (rel := (_ + _)).
  set (desired := (ConflictDetector.safety_distance d / (rel * 4.0))).
  unfold Py.max, Py.min. cbn [Py.num_ltb Py.float_Num].
  set (base := if (ConflictDetector.time_step d <? 1e-3) then 1e-3
               else ConflictDetector.time_step d).
  assert (Hbase : (base =? base) = true -> positive_above (-62) base = true).
  { unfold base. destruct (ConflictDetector.time_step d <? 1e-3) eqn:E.
    - reflexivity.
    - intros Hn. apply (positive_above_lt 1e-3); [reflexivity|].
      clear -E Hn. float_order. }
  assert (Hmin : (base =? base) = true -> (0 <? base * 0.1) = true).
  { intros Hn. apply (positive_above_mul base 0.1 (-62) (-56)); auto. }
  assert (Hpos : (base =? base) = true -> (0 <? base) = true).
  { intros Hn. apply (positive_above_pos (-62)). auto. }
  clearbody base. clear Hbase.
  set (min_step := (base * 0.1)) in *. clearbody min_step desired.
  destruct (rel <=? 1e-6).
  - intros [= <-].
    destruct (base =? base) eqn:En; [specialize (Hpos eq_refl)|]; clear Hmin; float_order.
  - intros [= <-]. destruct (base =? base) eqn:En.
    + specialize (Hpos eq_refl). specialize (Hmin eq_refl).
      destruct (desired <? min_step) eqn:E1;
        match goal with |- context [if ?c then _ else _] => destruct c eqn:E2 end;
        float_order.
    + clear Hpos Hmin.
      destruct (desired <? min_step) eqn:E1;
        match goal with |- context [if ?c then _ else _] => destruct c eqn:E2 end;
        float_order.
Qed.

(** C5.  When the span of one trajectory ends before the span of the other
    starts, and the gap is more than 1e-6 seconds, the pairwise check
    returns no conflict, in either order of the two flights and whatever
    their positions are. *)
Theorem check_pair_disjoint (d : ConflictDetector.t) (A B : FlightPlan.t)
    (first_A last_A first_B last_B : Waypoint.t) :
  Valid.trajectory A = true -> Valid.trajectory B = true ->
  Py.first (FlightPlan.waypoints A) = Ok first_A ->
  Py.last (FlightPlan.waypoints A) = Ok last_A ->
  Py.first (FlightPlan.waypoints B) = Ok first_B ->
  Py.last (FlightPlan.waypoints B) = Ok last_B ->
  (Waypoint.time last_A <? Waypoint.time first_B) = true ->
  (1e-6 <? Waypoint.time first_B - Waypoint.time last_A) = true ->
  ConflictDetector._check_pair d A B = Ok [] /\
  ConflictDetector._check_pair d B A = Ok [].
Proof.
  unfold Valid.trajectory. intros HA HB HfA HlA HfB HlB Hlt Hgap.
  apply andb_true_iff in HA as [HA1 HA2]. apply Nat.leb_le in HA1.
  apply andb_true_iff in HB as [HB1 HB2]. apply Nat.leb_le in HB1.
  pose proof (sorted_first_last _ _ _ HA1 HA2 HfA HlA) as HspanA.
  pose proof (sorted_first_last _ _ _ HB1 HB2 HfB HlB) as HspanB.
  clear HA1 HA2 HB1 HB2.
  unfold ConflictDetector._check_pair.
  rewrite HfA, HlA, HfB, HlB. cbn [Py.bind].
  unfold Py.max, Py.min. cbn [Py.num_ltb Py.float_Num].
  replace (Waypoint.time first_A <? Waypoint.time first_B) with true
    by (symmetry; clear Hgap; float_order).
  replace (Waypoint.time first_B <? Waypoint.time first_A) with false
    by (symmetry; clear Hgap; float_order).
  replace (Waypoint.time last_B <? Waypoint.time last_A) with false
    by (symmetry; clear Hgap; float_order).
  replace (Waypoint.time last_A <? Waypoint.time last_B) with true
    by (symmetry; clear Hgap; float_order).
  rewrite Hlt, Hgap. split; reflexivity.
Qed.

End CheckPair.

(** Examples on the platform of the examples. *)

Section CheckPairExamples.

#[local] Existing Instance Examples.platform.

Lemma check_pair_disjoint_witness :
  ConflictDetector._check_pair Examples.detector Examples.early Examples.late = Ok [] /\
  ConflictDetector._check_pair Examples.detector Examples.late Examples.early = Ok [].
Proof.
  apply (check_pair_disjoint Examples.detector Examples.early Examples.late
           (Examples.wp 0 0 100 0) (Examples.wp 100 0 100 10)
           (Examples.wp 0 0 100 20) (Examples.wp 100 0 100 30)); reflexivity.
Defined.

End CheckPairExamples.

(** * Sorting by a float key *)

Section Sorting.

Import IEEE.
Context {platform : Platform.t}.

Context {A : Type} (key : A -> float).

Lemma insort_In (x z : A) (l : list A) : In z (Py.insort key x l) <-> z = x \/ In z l.
Proof.
  induction l as [|y l IH]; simpl.
  - intuition congruence.
  - destruct (key x <? key y); simpl; rewrite ?IH; intuition congruence.
Qed.

Lemma insort_Permutation (x : A) (l : list A) : Permutation (Py.insort key x l) (x :: l).
Proof.
  induction l as [|y l IH]; simpl; [reflexivity|].
  destruct (key x <? key y); [reflexivity|].
  rewrite IH. apply perm_swap.
Qed.

Lemma insort_sorted (x : A) (l : list A) :
  Spec.key_ok key x -> Forall (Spec.key_ok key) l ->
  StronglySorted (Spec.key_le key) l -> StronglySorted (Spec.key_le key) (Py.insort key x l).
Proof.
  unfold Spec.key_ok, Spec.key_le. intros Hx Hl Hs.
  induction Hs as [|y l Hs IH Hy]; simpl.
  - constructor; constructor.
  - apply Forall_cons_iff in Hl as [Hny Hl].
    destruct (key x <? key y) eqn:E.
    + constructor; [constructor; assumption|].
      constructor; [clear IH Hy Hl; float_order|].
      rewrite List.Forall_forall in Hy |- *. intros z Hz. specialize (Hy z Hz).
      clear IH Hl Hz. float_order.
    + constructor; [apply IH; assumption|].
      rewrite List.Forall_forall in Hy |- *. intros z Hz.
      apply insort_In in Hz as [->|Hz]; [clear IH Hy Hl; float_order|auto].
Qed.

Lemma sort_acc_Permutation (l acc : list A) :
  Permutation (fold_left (fun acc x => Py.insort key x acc) l acc) (acc ++ l).
Proof.
  revert acc. induction l as [|x l IH]; intros acc; simpl.
  - rewrite app_nil_r. reflexivity.
  - rewrite IH, insort_Permutation. simpl. apply Permutation_middle.
Qed.

Lemma sort_Permutation (l : list A) : Permutation (Py.sort key l) l.
Proof. apply (sort_acc_Permutation l []). Qed.

Lemma sort_acc_sorted (l acc : list A) :
  Forall (Spec.key_ok key) l -> Forall (Spec.key_ok key) acc -> StronglySorted (Spec.key_le key) acc ->
  StronglySorted (Spec.key_le key) (fold_left (fun acc x => Py.insort key x acc) l acc).
Proof.
  revert acc. induction l as [|x l IH]; intros acc Hl Hacc Hs; simpl; [assumption|].
  apply Forall_cons_iff in Hl as [Hx Hl].
  apply IH; [assumption| |apply insort_sorted; assumption].
  rewrite List.Forall_forall in Hacc |- *. intros z Hz.
  apply insort_In in Hz as [->|Hz]; auto.
Qed.

(** On keys that are not NaN the sort puts the list in ascending order. *)
Lemma sort_sorted (l : list A) : Forall (Spec.key_ok key) l -> StronglySorted (Spec.key_le key) (Py.sort key l).
Proof. intros H. apply sort_acc_sorted; [assumption|constructor|constructor]. Qed.

(** Stability: the elements of any one key keep their order. *)
Lemma insort_filter (k : float) (x : A) (l : list A) :
  Spec.key_ok key x -> Forall (Spec.key_ok key) l -> StronglySorted (Spec.key_le key) l ->
  List.filter (fun a => key a =? k) (Py.insort key x l)
  = List.filter (fun a => key a =? k) l ++ List.filter (fun a => key a =? k) [x].
Proof.
  unfold Spec.key_ok, Spec.key_le. intros Hx Hl Hs.
  induction Hs as [|y l Hs IH Hy]; simpl.
  - reflexivity.
  - apply Forall_cons_iff in Hl as [Hny Hl].
    destruct (key x <? key y) eqn:E.
    + cbn [List.filter]. destruct (key x =? k) eqn:Ex.
      * replace (key y =? k) with false by (symmetry; clear IH Hy Hl; float_order).
        assert (Hnone : List.filter (fun a => key a =? k) l = []).
        { clear IH. induction l as [|z l IHl]; [reflexivity|].
          apply Forall_cons_iff in Hy as [Hyz Hy].
          apply Forall_cons_iff in Hl as [_ Hl].
          inversion Hs; subst. cbn [List.filter].
          replace (key z =? k) with false by (symmetry; clear IHl Hy Hl; float_order).
          apply IHl; assumption. }
        rewrite Hnone. reflexivity.
      * rewrite app_nil_r. reflexivity.
    + cbn [List.filter]. rewrite (IH Hl). simpl.
      destruct (key y =? k); reflexivity.
Qed.

Lemma sort_acc_filter (k : float) (l acc : list A) :
  Forall (Spec.key_ok key) l -> Forall (Spec.key_ok key) acc -> StronglySorted (Spec.key_le key) acc ->
  List.filter (fun a => key a =? k) (fold_left (fun acc x => Py.insort key x acc) l acc)
  = List.filter (fun a => key a =? k) (acc ++ l).
Proof.
  revert acc. induction l as [|x l IH]; intros acc Hl Hacc Hs; simpl.
  - rewrite app_nil_r. reflexivity.
  - apply Forall_cons_iff in Hl as [Hx Hl].
    rewrite IH; [|assumption| |apply insort_sorted; assumption].
    + rewrite !List.filter_app, insort_filter by assumption.
      rewrite <- app_assoc. f_equal. change (x :: l) with ([x] ++ l).
      rewrite List.filter_app. reflexivity.
    + rewrite List.Forall_forall in Hacc |- *. intros z Hz.
      apply insort_In in Hz as [->|Hz]; auto.
Qed.

Lemma sort_filter (k : float) (l : list A) :
  Forall (Spec.key_ok key) l ->
  List.filter (fun a => key a =? k) (Py.sort key l) = List.filter (fun a => key a =? k) l.
Proof. intros H. apply (sort_acc_filter k l []); [assumption|constructor|constructor]. Qed.

Lemma sort_short (l : list A) : (length l <= 1)%nat -> Py.sort key l = l.
Proof. destruct l as [|a [|b l]]; simpl; try reflexivity; lia. Qed.

End Sorting.

Section FindConflicts.

Import IEEE.
Context {platform : Platform.t}.

Lemma bind_Ok {A B : Type} (c : result A) (k : A -> result B) (b : B) :
  Py.bind c k = Ok b -> exists a, c = Ok a /\ k a = Ok b.
Proof. destruct c as [a|e]; simpl; [eauto|discriminate]. Qed.

Lemma sample_loop_closest (d : ConflictDetector.t) (f1 f2 : FlightPlan.t)
    (times seen : list float) (acc found : ConflictDetector.closest) :
  ConflictDetector.sample_loop d f1 f2 times acc = Ok found ->
  Spec.closest_over d f1 f2 seen acc ->
  Spec.closest_over d f1 f2 (seen ++ times) found.
Proof.
  revert seen acc. induction times as [|t times IH]; intros seen acc Hrun Hinv.
  - simpl in Hrun. injection Hrun as <-. rewrite app_nil_r. assumption.
  - cbn [ConflictDetector.sample_loop] in Hrun.
    apply bind_Ok in Hrun as (pos1 & H1 & Hrun).
    apply bind_Ok in Hrun as (pos2 & H2 & Hrun).
    replace (seen ++ t :: times) with ((seen ++ [t]) ++ times)
      by (rewrite <- app_assoc; reflexivity).
    destruct Hinv as (Hnan & Hmin & Hat).
    assert (Hskip : (pos1 = None \/ pos2 = None) ->
                    Spec.closest_over d f1 f2 (seen ++ [t]) acc).
    { intros Hnone. repeat split; [assumption| |].
      - intros t' p1 p2 Hin [Hp1 Hp2]. apply in_app_or in Hin as [Hin|[<-|[]]].
        + apply (Hmin t'); [assumption|split; assumption].
        + destruct Hnone; congruence.
      - destruct (ConflictDetector.at_conflict acc) as [[[t' p1] p2]|]; [|exact I].
        destruct Hat as (Hin & Hs & Heq). repeat split; try assumption; try apply Hs.
        apply in_or_app. left. assumption. }
    destruct pos1 as [pos1|]; [|apply (IH _ _ Hrun); auto].
    destruct pos2 as [pos2|]; [|apply (IH _ _ Hrun); auto].
    apply bind_Ok in Hrun as (distance & Hd & Hrun).
    destruct (distance <? ConflictDetector.min_distance acc) eqn:E;
      apply (IH _ _ Hrun); clear IH Hrun.
    + repeat split; cbn [ConflictDetector.min_distance ConflictDetector.at_conflict].
      * clear Hmin Hat. float_order.
      * intros t' p1 p2 Hin [Hp1 Hp2]. apply in_app_or in Hin as [Hin|[<-|[]]].
        -- destruct (Hmin t' p1 p2 Hin (conj Hp1 Hp2)) as (dist' & Hd' & Hle).
           exists dist'. split; [assumption|].
           clear Hat Hp1 Hp2 H1 H2 Hmin Hd Hd'. float_order.
        -- assert (p1 = pos1) by congruence. assert (p2 = pos2) by congruence. subst.
           exists distance. split; [assumption|].
           clear Hmin Hat Hp1 Hp2 H1 H2 Hd. float_order.
      * apply in_or_app. right. left. reflexivity.
      * assumption.
      * assumption.
      * assumption.
    + repeat split; [assumption| |].
      * intros t' p1 p2 Hin [Hp1 Hp2]. apply in_app_or in Hin as [Hin|[<-|[]]].
        -- apply (Hmin t'); [assumption|split; assumption].
        -- assert (p1 = pos1) by congruence. assert (p2 = pos2) by congruence. subst.
           exists distance. split; assumption.
      * destruct (ConflictDetector.at_conflict acc) as [[[t' p1] p2]|]; [|exact I].
        destruct Hat as (Hin & Hs & Heq). repeat split; try assumption; try apply Hs.
        apply in_or_app. left. assumption.
Qed.

(** The pairwise check returns no conflict or exactly one, the closest
    approach of the pair. *)
Lemma check_pair_closest (d : ConflictDetector.t) (f1 f2 : FlightPlan.t)
    (cs : list Conflict.t) :
  ConflictDetector._check_pair d f1 f2 = Ok cs ->
  cs = [] \/ exists c, cs = [c] /\ Spec.closest_approach d f1 f2 c.
Proof.
  unfold ConflictDetector._check_pair. intros H.
  apply bind_Ok in H as (first1 & Hf1 & H).
  apply bind_Ok in H as (first2 & Hf2 & H).
  apply bind_Ok in H as (last1 & Hl1 & H).
  apply bind_Ok in H as (last2 & Hl2 & H).
  match type of H with (if ?g then _ else _) = _ => destruct g end;
    [injection H as <-; auto|].
  apply bind_Ok in H as (times & Ht & H).
  apply bind_Ok in H as (found & Hloop & H).
  assert (Hinit : Spec.closest_over d f1 f2 [] (ConflictDetector.mk_closest infinity None)).
  { repeat split. intros t p1 p2 []. }
  pose proof (sample_loop_closest d f1 f2 times [] _ found Hloop Hinit) as (Hnan & Hmin & Hat).
  simpl app in *.
  destruct (ConflictDetector.at_conflict found) as [[[t p1] p2]|];
    [|injection H as <-; auto].
  destruct (ConflictDetector.min_distance found <? ConflictDetector.safety_distance d) eqn:E;
    [|injection H as <-; auto].
  injection H as <-. right. eexists. split; [reflexivity|].
  destruct Hat as (Hin & Hs & Heq).
  unfold Spec.closest_approach.
  cbn [Conflict.uav1_id Conflict.uav2_id Conflict.distance Conflict.position1
       Conflict.position2 Conflict.time Conflict.severity].
  repeat split; try assumption; try apply Hs.
  exists times. repeat split; try assumption; try apply Hs.
  unfold Spec.pair_sample_times. rewrite Hf1, Hf2, Hl1, Hl2. exact Ht.
Qed.

Lemma pair_loop_cases (d : ConflictDetector.t) (f : FlightPlan.t) (rest : list FlightPlan.t) :
  match ConflictDetector.pair_loop d f rest with
  | Ok cs =>
      exists per, Forall2 (Spec.pair_result d) (map (pair f) rest) per /\ cs = concat per
  | Raise e =>
      Exists (fun pr => ConflictDetector._check_pair d (fst pr) (snd pr) = Raise e)
        (map (pair f) rest)
  end.
Proof.
  induction rest as [|g rest IH]; cbn [ConflictDetector.pair_loop map].
  - exists []. split; [constructor|reflexivity].
  - destruct (ConflictDetector._check_pair d f g) as [r|e] eqn:E; cbn [Py.bind].
    + destruct (ConflictDetector.pair_loop d f rest) as [cs|e]; cbn [Py.bind].
      * destruct IH as (per & Hper & ->). exists (r :: per). split; [|reflexivity].
        constructor; [|assumption]. split; [exact E|].
        destruct (check_pair_closest d f g r E) as [->|(c & -> & Hc)]; simpl.
        -- split; [lia|constructor].
        -- split; [lia|]. constructor; [assumption|constructor].
      * apply Exists_cons_tl. assumption.
    + apply Exists_cons_hd. exact E.
Qed.

Lemma flights_loop_cases (d : ConflictDetector.t) (flights : list FlightPlan.t) :
  match ConflictDetector.flights_loop d flights with
  | Ok cs =>
      exists per, Forall2 (Spec.pair_result d) (Spec.pairs flights) per /\ cs = concat per
  | Raise e =>
      Exists (fun pr => ConflictDetector._check_pair d (fst pr) (snd pr) = Raise e)
        (Spec.pairs flights)
  end.
Proof.
  induction flights as [|f rest IH]; cbn [ConflictDetector.flights_loop Spec.pairs].
  - exists []. split; [constructor|reflexivity].
  - pose proof (pair_loop_cases d f rest) as Hrow.
    destruct (ConflictDetector.pair_loop d f rest) as [row|e]; cbn [Py.bind].
    + destruct (ConflictDetector.flights_loop d rest) as [cs|e]; cbn [Py.bind].
      * destruct Hrow as (per1 & H1 & ->). destruct IH as (per2 & H2 & ->).
        exists (per1 ++ per2). split; [|symmetry; apply concat_app].
        apply Forall2_app; assumption.
      * apply Exists_app. right. assumption.
    + apply Exists_app. left. assumption.
Qed.

Lemma closest_approach_time_ok (d : ConflictDetector.t) (f1 f2 : FlightPlan.t) (c : Conflict.t) :
  Spec.closest_approach d f1 f2 c -> (Conflict.time c =? Conflict.time c) = true.
Proof.
  intros (_ & _ & _ & _ & _ & times & _ & _ & [H _] & _).
  exact (interpolate_position_some_not_nan _ _ _ H).
Qed.

Lemma pair_results_time_ok (d : ConflictDetector.t) (prs : list (FlightPlan.t * FlightPlan.t))
    (per : list (list Conflict.t)) :
  Forall2 (Spec.pair_result d) prs per ->
  Forall (Spec.key_ok Conflict.time) (concat per).
Proof.
  induction 1 as [|pr r prs per (_ & _ & Hr) _ IH]; simpl; [constructor|].
  apply Forall_app. split; [|assumption].
  eapply List.Forall_impl; [|exact Hr].
  intros c Hc. exact (closest_approach_time_ok _ _ _ _ Hc).
Qed.

(** C1.  [find_conflicts] either raises the exception of a pairwise check,
    or returns a list made of the results of the checks of the unordered
    pairs of input flights, each pair checked once and contributing at most
    one conflict, the closest approach of that pair over its sample times.
    The list is in ascending order of the time of closest approach, and
    conflicts of equal time keep the order in which their pairs were
    checked. *)
Theorem find_conflicts_one_per_pair_sorted (d : ConflictDetector.t)
    (flights : list FlightPlan.t) :
  match ConflictDetector.find_conflicts d flights with
  | Ok conflicts =>
      exists per_pair : list (list Conflict.t),
        Forall2 (Spec.pair_result d) (Spec.pairs flights) per_pair /\
        Permutation conflicts (concat per_pair) /\
        StronglySorted Spec.time_le conflicts /\
        forall k, Spec.at_time k conflicts = Spec.at_time k (concat per_pair)
  | Raise e =>
      Exists (fun pr => ConflictDetector._check_pair d (fst pr) (snd pr) = Raise e)
        (Spec.pairs flights)
  end.
Proof.
  unfold ConflictDetector.find_conflicts.
  pose proof (flights_loop_cases d flights) as H.
  destruct (ConflictDetector.flights_loop d flights) as [cs|e]; cbn [Py.bind]; [|exact H].
  destruct H as (per & Hper & ->). exists per.
  pose proof (pair_results_time_ok d _ _ Hper) as Hok.
  split; [assumption|]. split; [apply sort_Permutation|].
  split; [apply sort_sorted; assumption|].
  intros k. apply sort_filter. assumption.
Qed.

End FindConflicts.
(** * Symmetry of the pairwise check *)

Section Symmetry.

Import IEEE.
Context {platform : Platform.t}.

Lemma alike_refl {A : Type} (R : A -> A -> Prop) (r : result A) :
  (forall a, R a a) -> Spec.alike R r r.
Proof. intros H. destruct r; simpl; auto. Qed.

Lemma same_position_refl (p : position) : Spec.same_position p p.
Proof. destruct p as [[x y] z]. repeat split; apply same_number_refl. Qed.

(** ** Exceptions of the speed estimate *)

Lemma distance_to_raises (a b : Waypoint.t) (e : Py.exn) :
  Waypoint.distance_to a b = Raise e -> e = Py.OverflowError.
Proof.
  unfold Waypoint.distance_to.
  destruct (Py.pow2 (Waypoint.x a - Waypoint.x b)) eqn:E1; cbn [Py.bind];
    [|intros [= <-]; exact (py_pow2_raises _ _ E1)].
  destruct (Py.pow2 (Waypoint.y a - Waypoint.y b)) eqn:E2; cbn [Py.bind];
    [|intros [= <-]; exact (py_pow2_raises _ _ E2)].
  destruct (Py.pow2 (Waypoint.z a - Waypoint.z b)) eqn:E3; cbn [Py.bind];
    [discriminate|intros [= <-]; exact (py_pow2_raises _ _ E3)].
Qed.

Lemma max_segment_speed_loop_raises (wps : list Waypoint.t) (max_speed : float) (e : Py.exn) :
  ConflictDetector.max_segment_speed_loop wps max_speed = Raise e -> e = Py.OverflowError.
Proof.
  revert max_speed. induction wps as [|wp1 [|wp2 rest] IH]; intros max_speed;
    try discriminate.
  cbn [ConflictDetector.max_segment_speed_loop].
  destruct (_ <=? 0); [apply IH|].
  destruct (Waypoint.distance_to wp1 wp2) as [dist|e'] eqn:E; cbn [Py.bind];
    [|intros [= <-]; exact (distance_to_raises _ _ _ E)].
  destruct (max_speed <? _); apply IH.
Qed.

Lemma max_segment_speed_raises (d : ConflictDetector.t) (f : FlightPlan.t) (e : Py.exn) :
  ConflictDetector._calculate_max_segment_speed d f = Raise e -> e = Py.OverflowError.
Proof. apply max_segment_speed_loop_raises. Qed.

Lemma effective_time_step_comm (d : ConflictDetector.t) (A B : FlightPlan.t) :
  ConflictDetector._get_effective_time_step d A B
  = ConflictDetector._get_effective_time_step d B A.
Proof.
  unfold ConflictDetector._get_effective_time_step.
  destruct (ConflictDetector._calculate_max_segment_speed d A) as [sa|ea] eqn:EA,
           (ConflictDetector._calculate_max_segment_speed d B) as [sb|eb] eqn:EB;
    cbn [Py.bind]; try reflexivity.
  - rewrite (fadd_comm sa sb). reflexivity.
  - rewrite (max_segment_speed_raises _ _ _ EA), (max_segment_speed_raises _ _ _ EB).
    reflexivity.
Qed.

(** ** Sample times *)

Lemma Forall2_map_same {A : Type} (f g : A -> float) (l : list A) :
  (forall v, Spec.same_number (f v) (g v)) ->
  Forall2 Spec.same_number (map f l) (map g l).
Proof. intros H. induction l; simpl; constructor; auto. Qed.

Lemma Forall2_removelast {A B : Type} (R : A -> B -> Prop) (l : list A) (l' : list B) :
  Forall2 R l l' -> Forall2 R (removelast l) (removelast l').
Proof.
  induction 1 as [|a b l l' Hab Hl IH]; simpl; [constructor|].
  destruct Hl; [constructor|]. constructor; assumption.
Qed.

Lemma linspace_same (start start' stop stop' : float) (num : Z) :
  Spec.same_number start start' -> Spec.same_number stop stop' ->
  Spec.alike (Forall2 Spec.same_number)
    (np.linspace start stop num) (np.linspace start' stop' num).
Proof.
  intros Hs He. unfold np.linspace.
  destruct (num <? 0)%Z; [reflexivity|].
  destruct (Platform.array_error num); [reflexivity|].
  cbn [Spec.alike].
  pose proof (same_sub _ _ _ _ He Hs) as Hd.
  assert (Hy : Forall2 Spec.same_number
            (map (fun v => v + start)
               (if (0 <? num - 1)%Z
                then if (stop - start) / Py.float_of_int (num - 1) =? 0
                     then map (fun v => v / Py.float_of_int (num - 1) * (stop - start))
                            (np.indices num)
                     else map (fun v => v * ((stop - start) / Py.float_of_int (num - 1)))
                            (np.indices num)
                else map (fun v => v * (stop - start)) (np.indices num)))
            (map (fun v => v + start')
               (if (0 <? num - 1)%Z
                then if (stop' - start') / Py.float_of_int (num - 1) =? 0
                     then map (fun v => v / Py.float_of_int (num - 1) * (stop' - start'))
                            (np.indices num)
                     else map (fun v => v * ((stop' - start') / Py.float_of_int (num - 1)))
                            (np.indices num)
                else map (fun v => v * (stop' - start')) (np.indices num)))).
  { rewrite <- (same_eqb _ _ 0 0 (same_div _ _ (Py.float_of_int (num - 1)) Hd)
                  (same_number_refl 0)).
    destruct (0 <? num - 1)%Z;
      [destruct (_ =? 0)|]; rewrite !map_map; apply Forall2_map_same; intros v;
      apply same_add; try assumption; apply same_mul;
      try apply same_number_refl; try assumption.
    apply same_div. assumption. }
  destruct (1 <? num)%Z; [|exact Hy].
  apply Forall2_app; [apply Forall2_removelast; exact Hy|].
  constructor; [assumption|constructor].
Qed.

Lemma sample_times_mirrored (d : ConflictDetector.t) (A B : FlightPlan.t)
    (t_start t_start' t_end t_end' : float) :
  Spec.same_number t_start t_start' -> Spec.same_number t_end t_end' ->
  Spec.alike (Forall2 Spec.same_number)
    (ConflictDetector.sample_times d A B t_start t_end)
    (ConflictDetector.sample_times d B A t_start' t_end').
Proof.
  intros Hs He. unfold ConflictDetector.sample_times.
  rewrite <- (same_leb _ _ 1e-6 1e-6 (same_abs _ _ (same_sub _ _ _ _ Hs He))
                (same_number_refl _)).
  destruct (abs (t_start - t_end) <=? 1e-6).
  - simpl. constructor; [assumption|constructor].
  - rewrite (effective_time_step_comm d B A).
    destruct (ConflictDetector._get_effective_time_step d A B) as [step|e];
      [|reflexivity].
    cbn [Py.bind].
    rewrite <- (same_int_ceil _ _
                  (same_div _ _ step
                     (same_max _ _ _ _ (same_sub _ _ _ _ He Hs) (same_number_refl step)))).
    destruct (Py.int_ceil _) as [count|e]; [|reflexivity].
    cbn [Py.bind]. apply linspace_same; assumption.
Qed.

(** ** Positions *)

Lemma blend_same (wp1 wp2 : Waypoint.t) (t t' : float) :
  Spec.same_number t t' ->
  Spec.alike Spec.same_position (FlightPlan.blend wp1 wp2 t) (FlightPlan.blend wp1 wp2 t').
Proof.
  intros Ht. unfold FlightPlan.blend, FlightPlan.blend_with.
  destruct (Waypoint.time wp2 =? Waypoint.time wp1).
  - simpl. repeat split; apply same_number_refl.
  - unfold Py.truediv. destruct (_ =? 0); [reflexivity|].
    cbn [Py.bind Spec.alike Spec.same_position].
    pose proof (same_div _ _ (Waypoint.time wp2 - Waypoint.time wp1)
                  (same_sub _ _ _ _ Ht (same_number_refl (Waypoint.time wp1)))) as Hr.
    repeat split; apply same_add; try apply same_number_refl;
      apply same_mul; try apply same_number_refl; exact Hr.
Qed.

Lemma segment_search_same (wps : list Waypoint.t) (t t' : float) :
  Spec.same_number t t' ->
  Spec.alike Spec.same_option_position
    (FlightPlan.segment_search wps t) (FlightPlan.segment_search wps t').
Proof.
  intros Ht. induction wps as [|wp1 [|wp2 rest] IH]; try exact I.
  unfold FlightPlan.segment_search in *. cbn [FlightPlan.segment_search_with].
  rewrite <- (same_leb _ _ _ _ (same_number_refl (Waypoint.time wp1)) Ht).
  rewrite <- (same_leb _ _ _ _ Ht (same_number_refl (Waypoint.time wp2))).
  destruct (_ && _); [|exact IH].
  pose proof (blend_same wp1 wp2 t t' Ht) as Hb. unfold FlightPlan.blend in Hb.
  destruct (FlightPlan.blend_with Py.truediv wp1 wp2 t),
           (FlightPlan.blend_with Py.truediv wp1 wp2 t'); simpl in *; auto.
Qed.

Lemma interpolate_position_same (fp : FlightPlan.t) (t t' : float) :
  Spec.same_number t t' ->
  Spec.alike Spec.same_option_position
    (FlightPlan.interpolate_position fp t) (FlightPlan.interpolate_position fp t').
Proof.
  intros Ht. unfold FlightPlan.interpolate_position, FlightPlan.interpolate_position_with.
  destruct (Py.first (FlightPlan.waypoints fp)) as [wf|e]; [|reflexivity].
  cbn [Py.bind].
  rewrite <- (same_ltb _ _ _ _ Ht (same_number_refl (Waypoint.time wf))).
  destruct (t <? Waypoint.time wf); [exact I|].
  destruct (Py.last (FlightPlan.waypoints fp)) as [wl|e]; [|reflexivity].
  cbn [Py.bind].
  rewrite <- (same_ltb _ _ _ _ (same_number_refl (Waypoint.time wl)) Ht).
  destruct (Waypoint.time wl <? t); [exact I|].
  apply segment_search_same. assumption.
Qed.

Lemma on_instant_segment_same (wps : list Waypoint.t) (t t' : float) :
  Spec.same_number t t' ->
  FlightPlan.on_instant_segment wps t = FlightPlan.on_instant_segment wps t'.
Proof.
  intros Ht. induction wps as [|wp1 [|wp2 rest] IH]; try reflexivity.
  cbn [FlightPlan.on_instant_segment].
  rewrite <- (same_leb _ _ _ _ (same_number_refl (Waypoint.time wp1)) Ht).
  rewrite <- (same_leb _ _ _ _ Ht (same_number_refl (Waypoint.time wp2))).
  destruct (_ && _); [reflexivity|exact IH].
Qed.

(** ** The weighted distance *)

Lemma weighted_distance_mirrored (d : ConflictDetector.t) (python_floats : bool)
    (p1 p2 q1 q2 : position) :
  Spec.same_position q1 p2 -> Spec.same_position q2 p1 ->
  ConflictDetector.weighted_distance d python_floats q1 q2
  = ConflictDetector.weighted_distance d python_floats p1 p2.
Proof.
  destruct p1 as [[x1 y1] z1], p2 as [[x2 y2] z2], q1 as [[u1 v1] w1], q2 as [[u2 v2] w2].
  intros (Hx1 & Hy1 & Hz1) (Hx2 & Hy2 & Hz2). unfold ConflictDetector.weighted_distance.
  rewrite (pow2_sub_swap _ u1 u2), (pow2_sub_swap _ v1 v2), (pow2_sub_mul_swap _ w1 w2).
  rewrite (same_pow2 _ _ _ (same_sub _ _ _ _ Hx2 Hx1)).
  rewrite (same_pow2 _ _ _ (same_sub _ _ _ _ Hy2 Hy1)).
  rewrite (same_pow2 _ _ _
             (same_mul _ _ _ _ (same_sub _ _ _ _ Hz2 Hz1)
                (same_number_refl (ConflictDetector.vertical_weight d)))).
  reflexivity.
Qed.

Lemma distance_at_mirrored (d : ConflictDetector.t) (A B : FlightPlan.t) (t t' : float)
    (p1 p2 q1 q2 : position) :
  Spec.same_number t' t -> Spec.same_position q1 p2 -> Spec.same_position q2 p1 ->
  ConflictDetector.distance_at d B A t' q1 q2 = ConflictDetector.distance_at d A B t p1 p2.
Proof.
  intros Ht H1 H2. unfold ConflictDetector.distance_at.
  rewrite (on_instant_segment_same (FlightPlan.waypoints A) t' t Ht).
  rewrite (on_instant_segment_same (FlightPlan.waypoints B) t' t Ht).
  rewrite andb_comm. apply weighted_distance_mirrored; assumption.
Qed.

(** ** The sampling loop and the check *)

Lemma sample_loop_mirrored (d : ConflictDetector.t) (A B : FlightPlan.t)
    (times times' : list float) (acc acc' : ConflictDetector.closest) :
  FlightPlan.waypoints A <> [] -> FlightPlan.waypoints B <> [] ->
  Forall2 Spec.same_number times times' -> Spec.mirrored_closest acc acc' ->
  Spec.alike Spec.mirrored_closest
    (ConflictDetector.sample_loop d A B times acc)
    (ConflictDetector.sample_loop d B A times' acc').
Proof.
  intros HnA HnB Ht. revert acc acc'.
  induction Ht as [|t t' times times' Htt _ IH]; intros acc acc' Hacc; [exact Hacc|].
  cbn [ConflictDetector.sample_loop].
  pose proof (interpolate_position_same A t t' Htt) as HA.
  pose proof (interpolate_position_same B t t' Htt) as HB.
  destruct (interpolate_position_ok A t HnA) as [pa Ea].
  destruct (interpolate_position_ok A t' HnA) as [pa' Ea'].
  destruct (interpolate_position_ok B t HnB) as [pb Eb].
  destruct (interpolate_position_ok B t' HnB) as [pb' Eb'].
  rewrite Ea, Ea' in HA. rewrite Eb, Eb' in HB. rewrite Ea, Ea', Eb, Eb'.
  cbn [Py.bind]. simpl in HA, HB.
  destruct pa as [pa|], pa' as [pa'|]; try contradiction;
    destruct pb as [pb|], pb' as [pb'|]; try contradiction; try (apply IH; exact Hacc).
  simpl in HA, HB.
  assert (Hpa : Spec.same_position pa' pa).
  { destruct pa as [[? ?] ?], pa' as [[? ?] ?]. destruct HA as (? & ? & ?).
    repeat split; apply same_number_sym; assumption. }
  assert (Hpb : Spec.same_position pb' pb).
  { destruct pb as [[? ?] ?], pb' as [[? ?] ?]. destruct HB as (? & ? & ?).
    repeat split; apply same_number_sym; assumption. }
  rewrite (distance_at_mirrored d A B t t' pa pb pb' pa' (same_number_sym _ _ Htt) Hpb Hpa).
  destruct (ConflictDetector.distance_at d A B t pa pb) as [distance|e]; [|reflexivity].
  cbn [Py.bind]. destruct Hacc as [Hmin Hat]. rewrite Hmin.
  destruct (distance <? ConflictDetector.min_distance acc); apply IH.
  - split; [reflexivity|]. cbn [ConflictDetector.at_conflict].
    repeat split; try assumption. apply same_number_sym. assumption.
  - split; assumption.
Qed.

Lemma first_In {A : Type} (l : list A) (a : A) : Py.first l = Ok a -> In a l.
Proof. destruct l; simpl; intros H; [discriminate|]. injection H as ->. auto. Qed.

Lemma last_In {A : Type} (l : list A) (a : A) : Py.last l = Ok a -> In a l.
Proof.
  induction l as [|b [|c l] IH]; intros H; try discriminate.
  - simpl in H. injection H as ->. simpl. auto.
  - right. apply IH. exact H.
Qed.

(** The first and last times of a valid trajectory are not NaN. *)
Lemma valid_span_not_nan (fp : FlightPlan.t) (wf wl : Waypoint.t) :
  Valid.trajectory fp = true ->
  Py.first (FlightPlan.waypoints fp) = Ok wf ->
  Py.last (FlightPlan.waypoints fp) = Ok wl ->
  (Waypoint.time wf =? Waypoint.time wf) = true /\
  (Waypoint.time wl =? Waypoint.time wl) = true.
Proof.
  unfold Valid.trajectory. intros Hv Hf Hl.
  apply andb_true_iff in Hv as [Hlen Hs]. apply Nat.leb_le in Hlen.
  pose proof (sorted_first_last _ _ _ Hlen Hs Hf Hl) as H.
  clear Hlen Hs Hf Hl. split; float_order.
Qed.

Lemma valid_waypoints (fp : FlightPlan.t) :
  Valid.trajectory fp = true ->
  FlightPlan.waypoints fp <> [] /\
  exists wf wl, Py.first (FlightPlan.waypoints fp) = Ok wf /\
                Py.last (FlightPlan.waypoints fp) = Ok wl.
Proof.
  unfold Valid.trajectory. intros Hv. apply andb_true_iff in Hv as [Hlen _].
  apply Nat.leb_le in Hlen.
  destruct (FlightPlan.waypoints fp) as [|w l]; [simpl in Hlen; lia|].
  split; [discriminate|]. destruct (last_ok w l) as [wl Hl].
  exists w, wl. split; [reflexivity|exact Hl].
Qed.

Lemma check_pair_mirrored (d : ConflictDetector.t) (A B : FlightPlan.t) :
  Valid.trajectory A = true -> Valid.trajectory B = true ->
  Spec.alike (Forall2 Spec.mirrored)
    (ConflictDetector._check_pair d A B) (ConflictDetector._check_pair d B A).
Proof.
  intros HvA HvB.
  destruct (valid_waypoints A HvA) as (HnA & fa & la & HfA & HlA).
  destruct (valid_waypoints B HvB) as (HnB & fb & lb & HfB & HlB).
  destruct (valid_span_not_nan A fa la HvA HfA HlA) as [Hfa Hla].
  destruct (valid_span_not_nan B fb lb HvB HfB HlB) as [Hfb Hlb].
  unfold ConflictDetector._check_pair. rewrite HfA, HlA, HfB, HlB. cbn [Py.bind].
  pose proof (max_swap (Waypoint.time fa) (Waypoint.time fb) Hfa Hfb) as Hs.
  pose proof (min_swap (Waypoint.time la) (Waypoint.time lb) Hla Hlb) as He.
  set (t_start := Py.max (Waypoint.time fa) (Waypoint.time fb)) in *.
  set (t_end := Py.min (Waypoint.time la) (Waypoint.time lb)) in *.
  set (t_start' := Py.max (Waypoint.time fb) (Waypoint.time fa)) in *.
  set (t_end' := Py.min (Waypoint.time lb) (Waypoint.time la)) in *.
  rewrite (same_ltb _ _ _ _ He Hs).
  rewrite (same_ltb _ _ _ _ (same_number_refl 1e-6) (same_sub _ _ _ _ Hs He)).
  destruct ((t_end <? t_start) && (1e-6 <? t_start - t_end)); [constructor|].
  pose proof (sample_times_mirrored d A B t_start t_start' t_end t_end'
                (same_number_sym _ _ Hs) (same_number_sym _ _ He)) as Ht.
  destruct (ConflictDetector.sample_times d A B t_start t_end) as [times|e],
           (ConflictDetector.sample_times d B A t_start' t_end') as [times'|e'];
    simpl in Ht; try contradiction; [|exact Ht].
  cbn [Py.bind].
  assert (Hinit : Spec.mirrored_closest (ConflictDetector.mk_closest infinity None)
                    (ConflictDetector.mk_closest infinity None)) by (split; [reflexivity|exact I]).
  pose proof (sample_loop_mirrored d A B times times' _ _ HnA HnB Ht Hinit) as Hl.
  destruct (ConflictDetector.sample_loop d A B times _) as [found|e],
           (ConflictDetector.sample_loop d B A times' _) as [found'|e'];
    simpl in Hl; try contradiction; [|exact Hl].
  cbn [Py.bind]. destruct Hl as [Hmin Hat]. rewrite Hmin.
  destruct (ConflictDetector.at_conflict found) as [[[t p1] p2]|],
           (ConflictDetector.at_conflict found') as [[[t' q1] q2]|];
    try contradiction; [|constructor].
  destruct (ConflictDetector.min_distance found <? ConflictDetector.safety_distance d);
    [|constructor].
  destruct Hat as (Ht' & H1 & H2).
  constructor; [|constructor]. repeat split; assumption.
Qed.

Lemma find_conflicts_two (d : ConflictDetector.t) (A B : FlightPlan.t) :
  ConflictDetector.find_conflicts d [A; B] = ConflictDetector._check_pair d A B.
Proof.
  unfold ConflictDetector.find_conflicts.
  cbn [ConflictDetector.flights_loop ConflictDetector.pair_loop].
  pose proof (check_pair_closest d A B) as H.
  destruct (ConflictDetector._check_pair d A B) as [cs|e]; [|reflexivity].
  cbn [Py.bind]. rewrite !app_nil_r. f_equal.
  apply sort_short. destruct (H cs eq_refl) as [->|(c & -> & _)]; simpl; lia.
Qed.

(** C3.  For two valid trajectories [A] and [B], [find_conflicts([A, B])]
    and [find_conflicts([B, A])] end alike: both raise the same exception,
    or both return the same conflicts seen from either side, each with the
    two identifiers and the two positions exchanged and with the same
    time, distance and severity.  Times and coordinates are the same
    numbers: the same floats, or zeros that differ in their sign at most
    (the two orders can take [0.0] and [-0.0] as the start of the
    window). *)
Theorem find_conflicts_symmetric (d : ConflictDetector.t) (A B : FlightPlan.t) :
  Valid.trajectory A = true -> Valid.trajectory B = true ->
  Spec.alike (Forall2 Spec.mirrored)
    (ConflictDetector.find_conflicts d [A; B])
    (ConflictDetector.find_conflicts d [B; A]).
Proof.
  intros HvA HvB. rewrite !find_conflicts_two. apply check_pair_mirrored; assumption.
Qed.

End Symmetry.

(** Examples on the platform of the examples. *)

Section SymmetryExamples.

#[local] Existing Instance Examples.platform.

Lemma find_conflicts_symmetric_witness :
  Spec.alike (Forall2 Spec.mirrored)
    (ConflictDetector.find_conflicts Examples.detector
       [Examples.hover_from_negative_zero; Examples.leaving])
    (ConflictDetector.find_conflicts Examples.detector
       [Examples.leaving; Examples.hover_from_negative_zero]).
Proof.
  apply (find_conflicts_symmetric Examples.detector
           Examples.hover_from_negative_zero Examples.leaving); reflexivity.
Defined.

(** The two crossing flights meet at [t = 100] at distance 0. *)
Example find_conflicts_crossing :
  ConflictDetector.find_conflicts Examples.detector [Examples.eastbound; Examples.northbound]
  = Ok [Examples.crossing].
Proof. vm_compute. reflexivity. Qed.

End SymmetryExamples.

(** * Severity *)

Section Severity.

Import IEEE.
Local Open Scope Q_scope.
Context {platform : Platform.t}.








Local Close Scope Q_scope.




End Severity.

(** Examples on the platform of the examples. *)

Section SeverityExamples.

#[local] Existing Instance Examples.platform.


End SeverityExamples.

(** * The verification service *)

Section Verification.

Import MissionVerificationService Spec.
Context {platform : Platform.t}.

Lemma duration_ok (fp : FlightPlan.t) : exists x, FlightPlan.duration fp = Ok x.
Proof.
  unfold FlightPlan.duration. destruct (FlightPlan.waypoints fp) as [|w l]; [eauto|].
  destruct (last_ok w l) as [wl ->]. simpl. eauto.
Qed.

(** ** What the pairwise check can raise *)

Lemma weighted_distance_raises (d : ConflictDetector.t) (python_floats : bool)
    (p q : position) (e : Py.exn) :
  ConflictDetector.weighted_distance d python_floats p q = Raise e -> e = Py.OverflowError.
Proof.
  destruct p as [[x1 y1] z1], q as [[x2 y2] z2]. unfold ConflictDetector.weighted_distance.
  cbv beta iota zeta.
  destruct (ConflictDetector.pow2 _ (x1 - x2)) eqn:E1; cbn [Py.bind];
    [|intros Hraise; injection Hraise as <-; exact (IEEE.pow2_raises _ _ _ E1)].
  destruct (ConflictDetector.pow2 _ (y1 - y2)) eqn:E2; cbn [Py.bind];
    [|intros Hraise; injection Hraise as <-; exact (IEEE.pow2_raises _ _ _ E2)].
  destruct (ConflictDetector.pow2 _ ((z1 - z2) * _)) eqn:E3; cbn [Py.bind];
    [discriminate|intros Hraise; injection Hraise as <-; exact (IEEE.pow2_raises _ _ _ E3)].
Qed.

Lemma distance_at_raises (d : ConflictDetector.t) (f1 f2 : FlightPlan.t) (t : float)
    (p q : position) (e : Py.exn) :
  ConflictDetector.distance_at d f1 f2 t p q = Raise e -> e = Py.OverflowError.
Proof. apply weighted_distance_raises. Qed.

Lemma effective_time_step_raises (d : ConflictDetector.t) (f1 f2 : FlightPlan.t)
    (e : Py.exn) :
  ConflictDetector._get_effective_time_step d f1 f2 = Raise e -> e = Py.OverflowError.
Proof.
  unfold ConflictDetector._get_effective_time_step.
  destruct (ConflictDetector._calculate_max_segment_speed d f1) as [s1|e1] eqn:E1;
    cbn [Py.bind]; [|intros Hraise; injection Hraise as <-; exact (max_segment_speed_raises _ _ _ E1)].
  destruct (ConflictDetector._calculate_max_segment_speed d f2) as [s2|e2] eqn:E2;
    cbn [Py.bind]; [|intros Hraise; injection Hraise as <-; exact (max_segment_speed_raises _ _ _ E2)].
  destruct (_ <=? _); discriminate.
Qed.

Lemma int_ceil_raise (x : float) (e : Py.exn) :
  Py.int_ceil x = Raise e -> e = Py.ValueError \/ e = Py.OverflowError.
Proof.
  unfold Py.int_ceil. destruct (Prim2SF x); intros H; try discriminate;
    injection H as <-; auto.
Qed.

Lemma linspace_raise (start stop : float) (num : Z) (e : Py.exn) :
  np.linspace start stop num = Raise e -> e = Py.ValueError \/ e = Py.MemoryError.
Proof.
  unfold np.linspace. destruct (_ <? 0)%Z; [intros Hraise; injection Hraise as <-; auto|].
  destruct (Platform.array_error num) as [[|]|]; intros H; try discriminate;
    injection H as <-; auto.
Qed.

Lemma sample_times_raise (d : ConflictDetector.t) (f1 f2 : FlightPlan.t)
    (t_start t_end : float) (e : Py.exn) :
  ConflictDetector.sample_times d f1 f2 t_start t_end = Raise e ->
  e = Py.OverflowError \/ e = Py.ValueError \/ e = Py.MemoryError.
Proof.
  unfold ConflictDetector.sample_times.
  destruct (abs (t_start - t_end) <=? 1e-6); [discriminate|].
  destruct (ConflictDetector._get_effective_time_step d f1 f2) as [step|e'] eqn:Es;
    cbn [Py.bind]; [|intros Hraise; injection Hraise as <-; left; exact (effective_time_step_raises _ _ _ _ Es)].
  destruct (Py.int_ceil _) as [count|e'] eqn:E; cbn [Py.bind].
  - intros H. destruct (linspace_raise _ _ _ _ H); auto.
  - intros H. injection H as <-. destruct (int_ceil_raise _ _ E); auto.
Qed.

Lemma sample_loop_raise (d : ConflictDetector.t) (f1 f2 : FlightPlan.t)
    (times : list float) (acc : ConflictDetector.closest) (e : Py.exn) :
  FlightPlan.waypoints f1 <> [] -> FlightPlan.waypoints f2 <> [] ->
  ConflictDetector.sample_loop d f1 f2 times acc = Raise e -> e = Py.OverflowError.
Proof.
  intros H1 H2. revert acc. induction times as [|t times IH]; intros acc; [discriminate|].
  cbn [ConflictDetector.sample_loop].
  destruct (interpolate_position_ok f1 t H1) as [p1 ->].
  destruct (interpolate_position_ok f2 t H2) as [p2 ->].
  cbn [Py.bind]. destruct p1 as [p1|], p2 as [p2|]; try apply IH.
  destruct (ConflictDetector.distance_at d f1 f2 t p1 p2) as [distance|e'] eqn:E;
    cbn [Py.bind]; [|intros Hraise; injection Hraise as <-; exact (distance_at_raises _ _ _ _ _ _ _ E)].
  destruct (_ <? _); apply IH.
Qed.

(** On valid trajectories the pairwise check raises nothing but an
    [OverflowError] (of a power, or of the length of the window), a
    [ValueError] (of a number of samples that is not a number, or is
    refused as the size of an array) or a [MemoryError]. *)
Lemma check_pair_raise (d : ConflictDetector.t) (f1 f2 : FlightPlan.t) (e : Py.exn) :
  Valid.trajectory f1 = true -> Valid.trajectory f2 = true ->
  ConflictDetector._check_pair d f1 f2 = Raise e ->
  e = Py.OverflowError \/ e = Py.ValueError \/ e = Py.MemoryError.
Proof.
  intros Hv1 Hv2.
  destruct (valid_waypoints f1 Hv1) as (Hn1 & wf1 & wl1 & Hf1 & Hl1).
  destruct (valid_waypoints f2 Hv2) as (Hn2 & wf2 & wl2 & Hf2 & Hl2).
  unfold ConflictDetector._check_pair.
  rewrite Hf1, Hl1, Hf2, Hl2. cbn [Py.bind].
  destruct (_ && _); [discriminate|].
  destruct (ConflictDetector.sample_times d f1 f2 _ _) as [times|e'] eqn:E; cbn [Py.bind];
    [|intros Hraise; injection Hraise as <-; exact (sample_times_raise _ _ _ _ _ _ E)].
  destruct (ConflictDetector.sample_loop d f1 f2 times _) as [found|e'] eqn:El;
    cbn [Py.bind]; [|intros Hraise; injection Hraise as <-; left; exact (sample_loop_raise _ _ _ _ _ _ Hn1 Hn2 El)].
  destruct (ConflictDetector.at_conflict found) as [[[t p1] p2]|];
    [destruct (_ <? _)|]; discriminate.
Qed.

Lemma schedule_loop_pure (primary_mission : FlightPlan.t) (schedules : list FlightPlan.t)
    (acc : list Conflict.t) (st : state) :
  schedule_loop primary_mission schedules acc st
  = (aggregate (detector (self st)) primary_mission schedules acc, st).
Proof.
  revert acc. induction schedules as [|s rest IH]; intros acc; [reflexivity|].
  cbn [schedule_loop aggregate]. unfold bind, get, lift.
  destruct (ConflictDetector.find_conflicts _ _) as [cs|e]; cbn [Py.bind]; [|reflexivity].
  apply IH.
Qed.

Lemma aggregate_cases (d : ConflictDetector.t) (primary_mission : FlightPlan.t)
    (schedules : list FlightPlan.t) (acc : list Conflict.t) :
  match aggregate d primary_mission schedules acc with
  | Ok all_conflicts =>
      exists per, Forall2 (checked d primary_mission) schedules per /\
                  all_conflicts = acc ++ aggregated primary_mission per
  | Raise e =>
      Exists (fun s => ConflictDetector.find_conflicts d [primary_mission; s] = Raise e)
        schedules
  end.
Proof.
  revert acc. induction schedules as [|s rest IH]; intros acc; cbn [aggregate].
  - exists []. split; [constructor|]. unfold aggregated. simpl.
    rewrite app_nil_r. reflexivity.
  - destruct (ConflictDetector.find_conflicts d [primary_mission; s]) as [cs|e] eqn:E;
      cbn [Py.bind]; [|apply Exists_cons_hd; exact E].
    specialize (IH (acc ++ List.filter (involves primary_mission) cs)).
    destruct (aggregate d primary_mission rest _) as [all|e].
    + destruct IH as (per & Hper & ->). exists (cs :: per).
      split; [constructor; assumption|].
      unfold aggregated. simpl. rewrite app_assoc. reflexivity.
    + apply Exists_cons_tl. assumption.
Qed.

(** What [verify_mission] does to the state and what it returns: the
    service object is kept, the output grows by the lines printed when
    [verbose], and the result is built from the outcome of the loop. *)
Lemma verify_mission_run (primary_mission : FlightPlan.t) (verbose : bool) (st : state) :
  exists out,
    (verbose = false -> out = []) /\
    verify_mission primary_mission verbose st =
    (match aggregate (detector (self st)) primary_mission
             (simulated_schedules (self st)) [] with
     | Ok all_conflicts =>
         Ok (VerificationResult.mk
               (if (length all_conflicts =? 0)%nat then "CLEAR"%string
                else "CONFLICT_DETECTED"%string)
               primary_mission all_conflicts
               (map (conflict_detail primary_mission) all_conflicts))
     | Raise e => Raise e
     end,
     mk_state (self st) (stdout st ++ out)).
Proof.
  unfold verify_mission.
  destruct (duration_ok primary_mission) as [dur Hdur].
  destruct verbose.
  - unfold bind, when, print, get, lift, ret. rewrite Hdur.
    cbn [self stdout]. rewrite schedule_loop_pure. cbn [self stdout].
    destruct (aggregate _ _ _ _) as [all|e].
    + destruct (VerificationResult.is_clear _); cbn [self stdout];
        eexists; (split; [discriminate|]); rewrite <- !app_assoc; reflexivity.
    + eexists. split; [discriminate|]. rewrite <- !app_assoc. reflexivity.
  - unfold bind, when, print, get, lift, ret.
    rewrite schedule_loop_pure. exists []. split; [reflexivity|].
    rewrite app_nil_r. destruct st as [sv out]. cbn [self stdout].
    destruct (aggregate _ _ _ _); reflexivity.
Qed.

(** The loop raises exactly when the check of some scheduled flight
    raises. *)
Lemma aggregate_raises (d : ConflictDetector.t) (primary_mission : FlightPlan.t)
    (schedules : list FlightPlan.t) (acc : list Conflict.t) :
  (exists e, aggregate d primary_mission schedules acc = Raise e) <->
  Exists (fun s => exists e, ConflictDetector.find_conflicts d [primary_mission; s] = Raise e)
    schedules.
Proof.
  revert acc. induction schedules as [|s rest IH]; intros acc; cbn [aggregate].
  - split; [intros [e H]; discriminate|intros H; inversion H].
  - destruct (ConflictDetector.find_conflicts d [primary_mission; s]) as [cs|e] eqn:E;
      cbn [Py.bind].
    + rewrite IH. split; intros H.
      * apply Exists_cons_tl. assumption.
      * apply Exists_cons in H as [[e' H]|H]; [congruence|assumption].
    + split; intros _; [apply Exists_cons_hd|]; eauto.
Qed.

(** C6, as the program has it.  For a valid primary mission and valid
    scheduled flights, [verify_mission] either returns a result or raises.
    A result holds the conflicts of the checks of the primary mission
    against each scheduled flight, in schedule order, that name the primary
    mission; its status is "CLEAR" if and only if that list is empty and
    "CONFLICT_DETECTED" if and only if it is not.  It raises exactly when
    the check of the primary mission against some scheduled flight raises,
    and then with the exception of such a check: an [OverflowError], a
    [ValueError] or a [MemoryError]. *)
Theorem verify_mission_status (primary_mission : FlightPlan.t) (verbose : bool)
    (st : state) :
  Valid.trajectory primary_mission = true ->
  Forall (fun s => Valid.trajectory s = true) (simulated_schedules (self st)) ->
  match fst (verify_mission primary_mission verbose st) with
  | Ok r =>
      (exists per,
         Forall2 (checked (detector (self st)) primary_mission)
           (simulated_schedules (self st)) per /\
         VerificationResult.conflicts r = aggregated primary_mission per) /\
      (VerificationResult.status r = "CLEAR"%string
         <-> VerificationResult.conflicts r = []) /\
      (VerificationResult.status r = "CONFLICT_DETECTED"%string
         <-> VerificationResult.conflicts r <> []) /\
      VerificationResult.is_clear r
        = (length (VerificationResult.conflicts r) =? 0)%nat
  | Raise e =>
      Exists (fun s => ConflictDetector.find_conflicts (detector (self st))
                         [primary_mission; s] = Raise e)
        (simulated_schedules (self st)) /\
      (e = Py.OverflowError \/ e = Py.ValueError \/ e = Py.MemoryError)
  end /\
  ((exists e, fst (verify_mission primary_mission verbose st) = Raise e) <->
   Exists (fun s => exists e, ConflictDetector.find_conflicts (detector (self st))
                                [primary_mission; s] = Raise e)
     (simulated_schedules (self st))).
Proof.
  intros Hp Hs.
  destruct (verify_mission_run primary_mission verbose st) as (out & _ & ->). cbn [fst].
  pose proof (aggregate_cases (detector (self st)) primary_mission
                (simulated_schedules (self st)) []) as H.
  pose proof (aggregate_raises (detector (self st)) primary_mission
                (simulated_schedules (self st)) []) as Hr.
  destruct (aggregate _ _ _ _) as [all|e].
  - split.
    + destruct H as (per & Hper & ->). cbn [app].
      cbn [VerificationResult.conflicts VerificationResult.status].
      split; [eauto|].
      unfold VerificationResult.is_clear. cbn [VerificationResult.status].
      destruct (aggregated primary_mission per) as [|c l]; simpl;
        repeat split; intros; congruence.
    + rewrite <- Hr. split; intros [e He]; discriminate.
  - split.
    + split; [exact H|].
      apply List.Exists_exists in H as (s & Hin & Hraise).
      rewrite List.Forall_forall in Hs. rewrite find_conflicts_two in Hraise.
      exact (check_pair_raise _ _ _ _ Hp (Hs s Hin) Hraise).
    + rewrite <- Hr. split; intros _; eauto.
Qed.

(** C10.  [verify_mission] leaves the service object as it was: the list
    of scheduled flights with every flight in it, the safety distance, the
    time step and the detector.  It only appends to the standard output
    (nothing when not [verbose]), whether it returns or raises, and a
    result refers to the primary mission as it was given. *)
Theorem verify_mission_frame (primary_mission : FlightPlan.t) (verbose : bool)
    (st : state) :
  self (snd (verify_mission primary_mission verbose st)) = self st /\
  simulated_schedules (self (snd (verify_mission primary_mission verbose st)))
    = simulated_schedules (self st) /\
  safety_distance (self (snd (verify_mission primary_mission verbose st)))
    = safety_distance (self st) /\
  time_step (self (snd (verify_mission primary_mission verbose st)))
    = time_step (self st) /\
  detector (self (snd (verify_mission primary_mission verbose st)))
    = detector (self st) /\
  (exists out,
     stdout (snd (verify_mission primary_mission verbose st)) = stdout st ++ out /\
     (verbose = false -> out = [])) /\
  (forall r, fst (verify_mission primary_mission verbose st) = Ok r ->
     VerificationResult.primary_mission r = primary_mission).
Proof.
  destruct (verify_mission_run primary_mission verbose st) as (out & Hout & ->).
  cbn [fst snd self stdout]. repeat split.
  - exists out. split; [reflexivity|assumption].
  - intros r. destruct (aggregate _ _ _ _); intros H; [|discriminate].
    injection H as <-. reflexivity.
Qed.

(** By contrast, registering a flight does change the service object. *)
Lemma add_simulated_schedule_run (flight : FlightPlan.t) (st : state) :
  simulated_schedules (self (snd (add_simulated_schedule flight st)))
  = simulated_schedules (self st) ++ [flight].
Proof. reflexivity. Qed.

End Verification.

(** Examples on the platform of the examples. *)

Section VerificationExamples.

Import MissionVerificationService Spec.
#[local] Existing Instance Examples.platform.

Lemma verify_mission_status_witness :
  match fst (verify_mission Examples.eastbound true
               (init [Examples.northbound; Examples.late] 10.0 0.5 [])) with
  | Ok r =>
      (exists per,
         Forall2 (checked (ConflictDetector.make 10.0 0.5) Examples.eastbound)
           [Examples.northbound; Examples.late] per /\
         VerificationResult.conflicts r = aggregated Examples.eastbound per) /\
      (VerificationResult.status r = "CLEAR"%string
         <-> VerificationResult.conflicts r = []) /\
      (VerificationResult.status r = "CONFLICT_DETECTED"%string
         <-> VerificationResult.conflicts r <> []) /\
      VerificationResult.is_clear r
        = (length (VerificationResult.conflicts r) =? 0)%nat
  | Raise e =>
      Exists (fun s => ConflictDetector.find_conflicts (ConflictDetector.make 10.0 0.5)
                         [Examples.eastbound; s] = Raise e)
        [Examples.northbound; Examples.late] /\
      (e = Py.OverflowError \/ e = Py.ValueError \/ e = Py.MemoryError)
  end /\
  ((exists e, fst (verify_mission Examples.eastbound true
                     (init [Examples.northbound; Examples.late] 10.0 0.5 [])) = Raise e) <->
   Exists (fun s => exists e, ConflictDetector.find_conflicts (ConflictDetector.make 10.0 0.5)
                                [Examples.eastbound; s] = Raise e)
     [Examples.northbound; Examples.late]).
Proof.
  apply (verify_mission_status Examples.eastbound true
           (init [Examples.northbound; Examples.late] 10.0 0.5 [])).
  - reflexivity.
  - repeat constructor.
Defined.

(** C6 fails as stated: [verify_mission] can fail.  Two valid trajectories
    that span from [t = -1e308] to [t = 1e308] overlap over a window whose
    length overflows to infinity, and [int(np.ceil(...))] raises
    [OverflowError], on every platform. *)
Lemma verify_mission_can_raise :
  Valid.trajectory Examples.endless = true /\
  Valid.trajectory Examples.endless_too = true /\
  Platform.every (fun platform =>
    fst (verify_mission (platform := platform) Examples.endless false
           (init [Examples.endless_too] 10.0 0.5 []))
    = Raise Py.OverflowError).
Proof.
  split; [reflexivity|]. split; [reflexivity|].
  intros platform. vm_compute. reflexivity.
Qed.

End VerificationExamples.
(** * Continuous conflict *)

Section Continuous.

Import Spec.
Context {platform : Platform.t}.

Lemma continuous_loop_true (d : ConflictDetector.t) (f1 f2 : FlightPlan.t)
    (times : list float) :
  ConflictDetector.continuous_loop d f1 f2 times = Ok true
  <-> Forall (in_conflict_at d f1 f2) times.
Proof.
  induction times as [|t times IH]; cbn [ConflictDetector.continuous_loop].
  - split; [constructor|reflexivity].
  - rewrite Forall_cons_iff, <- IH. unfold in_conflict_at, Spec.sampled_at.
    destruct (FlightPlan.interpolate_position f1 t) as [[p1|]|e1];
      destruct (FlightPlan.interpolate_position f2 t) as [[p2|]|e2]; cbn [Py.bind];
      try (split; [discriminate|intros [(? & ? & ? & [? ?] & _) _]; discriminate]).
    destruct (ConflictDetector.distance_at d f1 f2 t p1 p2) as [distance|e] eqn:Ed;
      cbn [Py.bind].
    + destruct (ConflictDetector.safety_distance d <=? distance) eqn:E.
      * split; [discriminate|].
        intros [(q1 & q2 & dist & [H1 H2] & Hd & H) _]. congruence.
      * split; [|intros [_ H]; exact H].
        intros H. split; [|exact H]. exists p1, p2, distance. repeat split; assumption.
    + split; [discriminate|].
      intros [(q1 & q2 & dist & [H1 H2] & Hd & H) _]. congruence.
Qed.

(** [check_continuous_conflict] returns true if and only if
    [np.arange(start, end, time_step)] is defined and, at each of its
    elements, both trajectories have a position and the weighted distance
    is not at or above the safety distance. *)
Lemma check_continuous_conflict_true (d : ConflictDetector.t) (f1 f2 : FlightPlan.t)
    (start_time end_time : float) :
  ConflictDetector.check_continuous_conflict d f1 f2 start_time end_time = Ok true
  <-> exists times,
        np.arange start_time end_time (ConflictDetector.time_step d) = Ok times /\
        Forall (in_conflict_at d f1 f2) times.
Proof.
  unfold ConflictDetector.check_continuous_conflict.
  destruct (np.arange start_time end_time (ConflictDetector.time_step d)) as [times|e];
    cbn [Py.bind].
  - rewrite continuous_loop_true. split.
    + intros H. exists times. split; [reflexivity|exact H].
    + intros (times' & Heq & H). injection Heq as <-. exact H.
  - split; [discriminate|]. intros (times' & Heq & _). discriminate.
Qed.

(** C7.  The code misses the end of the window.  Over the window from 0 to
    1 with a time step of 1, on a platform that can create an array of one
    element, [np.arange(0, 1, 1)] has the single element 0: the check
    samples [t = 0] alone and returns true.  At [t = 1], the end of the
    window, the two flights are 1 m apart, with a safety distance of
    0.5 m: they are not in conflict over the entire period. *)
Theorem check_continuous_conflict_skips_end :
  Platform.array_error 1 = None ->
  ConflictDetector.time_step Examples.tight = 1 /\
  ConflictDetector.safety_distance Examples.tight = 0.5 /\
  np.arange 0 1 1 = Ok [0] /\
  ConflictDetector.check_continuous_conflict Examples.tight
    Examples.hover Examples.creeping 0 1 = Ok true /\
  FlightPlan.interpolate_position Examples.hover 1 = Ok (Some (0, 0, 0)) /\
  FlightPlan.interpolate_position Examples.creeping 1 = Ok (Some (1, 0, 0)) /\
  ConflictDetector.distance_at Examples.tight Examples.hover Examples.creeping 1
    (0, 0, 0) (1, 0, 0) = Ok 1 /\
  (1 <? ConflictDetector.safety_distance Examples.tight) = false.
Proof.
  intros Hmem.
  assert (Ha : np.arange 0 1 1 = Ok [0]).
  { vm_compute in Hmem |- *. rewrite Hmem. reflexivity. }
  repeat split; try reflexivity; try exact Ha.
  unfold ConflictDetector.check_continuous_conflict.
  change (ConflictDetector.time_step Examples.tight) with 1. rewrite Ha. reflexivity.
Qed.

End Continuous.

(** Examples on the platform of the examples. *)

Section ContinuousExamples.

Import Spec.
#[local] Existing Instance Examples.platform.

Lemma check_continuous_conflict_skips_end_witness :
  Platform.array_error 1 = None /\
  ConflictDetector.check_continuous_conflict Examples.tight
    Examples.hover Examples.creeping 0 1 = Ok true /\
  ConflictDetector.distance_at Examples.tight Examples.hover Examples.creeping 1
    (0, 0, 0) (1, 0, 0) = Ok 1.
Proof.
  split; [reflexivity|].
  pose proof (check_continuous_conflict_skips_end eq_refl) as H.
  split; apply H.
Defined.

End ContinuousExamples.

(** * Statistics *)

Section Statistics.

Import IEEE Spec.
Context {platform : Platform.t}.








(** On the empty list the dictionary has neither a maximum distance nor a
    count of critical conflicts, which the non-empty case has. *)
Lemma get_statistics_empty_keys :
  ConflictDetector.get_statistics Examples.detector []
  = Ok (list_to_map
          [("total_conflicts"%string, Py.Int 0);
           ("avg_distance"%string, Py.Float 0);
           ("min_distance"%string, Py.Float 0);
           ("avg_severity"%string, Py.Float 0);
           ("max_severity"%string, Py.Float 0)]).
Proof. vm_compute. reflexivity. Qed.

End Statistics.

(** Examples on the platform of the examples. *)

Section StatisticsExamples.

Import IEEE Spec.
#[local] Existing Instance Examples.platform.



End StatisticsExamples.

(** * Distances and durations of a flight plan *)

Section Distances.

Import IEEE.
Context {platform : Platform.t}.

(** X1.  [distance_to] is symmetric, whatever the coordinates and the
    platform: from [a] to [b] and from [b] to [a] it returns the same
    float, or raises the same exception. *)
Theorem distance_to_symmetric (a b : Waypoint.t) :
  Waypoint.distance_to a b = Waypoint.distance_to b a.
Proof.
  unfold Waypoint.distance_to.
  rewrite (py_pow2_sub_swap (Waypoint.x a)), (py_pow2_sub_swap (Waypoint.y a)),
    (py_pow2_sub_swap (Waypoint.z a)).
  reflexivity.
Qed.

Lemma fsub_diag (x : float) : Py.isfinite x = true -> x - x = 0.
Proof.
  rewrite isfinite_spec. intros H. apply Prim2SF_inj. rewrite sub_spec.
  unfold SF64sub. rewrite SFsub_diag by assumption. reflexivity.
Qed.

(** X2.  The distance from a waypoint with finite coordinates to itself is
    exactly zero. *)
Theorem distance_to_self (w : Waypoint.t) :
  Vocab.finite_coords w = true -> Waypoint.distance_to w w = Ok 0.
Proof.
  unfold Vocab.finite_coords. intros H.
  apply andb_true_iff in H as [H Hz]. apply andb_true_iff in H as [Hx Hy].
  unfold Waypoint.distance_to. rewrite !fsub_diag by assumption. reflexivity.
Qed.

(** A rounded number with a positive sign is not below zero. *)
Lemma SFltb_zero_round s m e l :
  SFltb (binary_round_aux prec emax false m e l) (S754_zero s) = false.
Proof.
  unfold binary_round_aux.
  destruct (shr_fexp prec emax m e l) as [mrs' e'].
  destruct (shr_fexp prec emax _ e' loc_Exact) as [mrs'' e''].
  destruct (shr_m mrs''); try reflexivity.
  destruct (e'' <=? emax - prec)%Z; reflexivity.
Qed.

Lemma add_not_negative (x y : float) :
  (x <? 0) = false -> (y <? 0) = false -> (x + y <? 0) = false.
Proof.
  rewrite !FloatAxioms.ltb_spec, add_spec.
  change (Prim2SF 0) with (S754_zero false). unfold SF64add.
  destruct (Prim2SF x) as [sx|sx| |sx mx ex], (Prim2SF y) as [sy|sy| |sy my ey];
    try reflexivity; try (destruct sx; try discriminate; try reflexivity; fail);
    try (destruct sy; try discriminate; try reflexivity; fail);
    try (destruct sx, sy; try discriminate; reflexivity).
  destruct sx; [discriminate|]. destruct sy; [discriminate|]. intros _ _.
  cbn [SFadd cond_Zopp].
  set (a := fst (shl_align mx ex (Z.min ex ey))).
  set (b := fst (shl_align my ey (Z.min ex ey))).
  change (Z.pos a + Z.pos b)%Z with (Z.pos (a + b)).
  cbn [binary_normalize]. unfold binary_round.
  destruct (shl_align (a + b) _ _) as [mz ez]. apply SFltb_zero_round.
Qed.

Lemma sqrt_not_negative (x : float) : (sqrt x <? 0) = false.
Proof.
  rewrite FloatAxioms.ltb_spec, sqrt_spec.
  change (Prim2SF 0) with (S754_zero false). unfold SF64sqrt.
  destruct (Prim2SF x) as [s|s| |s m e]; try reflexivity;
    try (destruct s; reflexivity).
  destruct s; [reflexivity|]. cbn [SFsqrt].
  destruct (SFsqrt_core_binary prec emax (Z.pos m) e) as [[mz ez] lz].
  apply SFltb_zero_round.
Qed.

Lemma distance_to_not_negative (a b : Waypoint.t) (d : float) :
  Waypoint.distance_to a b = Ok d -> (d <? 0) = false.
Proof.
  unfold Waypoint.distance_to.
  destruct (Py.pow2 (Waypoint.x a - Waypoint.x b)); [|discriminate].
  destruct (Py.pow2 (Waypoint.y a - Waypoint.y b)); [|discriminate].
  destruct (Py.pow2 (Waypoint.z a - Waypoint.z b)); [|discriminate].
  cbn [Py.bind]. intros H. injection H as <-. apply sqrt_not_negative.
Qed.

Lemma total_distance_loop_not_negative (wps : list Waypoint.t) (acc d : float) :
  (acc <? 0) = false -> FlightPlan.total_distance_loop wps acc = Ok d -> (d <? 0) = false.
Proof.
  revert acc. induction wps as [|wp1 [|wp2 rest] IH]; intros acc H;
    try (intros H'; injection H' as <-; exact H).
  cbn [FlightPlan.total_distance_loop].
  destruct (Waypoint.distance_to wp1 wp2) as [dist|e] eqn:E; [|discriminate].
  cbn [Py.bind]. apply IH.
  apply add_not_negative; [exact H|exact (distance_to_not_negative _ _ _ E)].
Qed.

Lemma total_distance_loop_raises (wps : list Waypoint.t) (acc : float) (e : Py.exn) :
  FlightPlan.total_distance_loop wps acc = Raise e -> e = Py.OverflowError.
Proof.
  revert acc. induction wps as [|wp1 [|wp2 rest] IH]; intros acc; try discriminate.
  cbn [FlightPlan.total_distance_loop].
  destruct (Waypoint.distance_to wp1 wp2) as [dist|e'] eqn:E; cbn [Py.bind];
    [apply IH|].
  intros H. injection H as <-. exact (distance_to_raises _ _ _ E).
Qed.

(** X3.  Neither [distance_to] nor [total_distance] ever returns a negative
    number, whatever the waypoints and the platform are: what they return
    is zero, positive, infinite or NaN.  They raise nothing but the
    [OverflowError] of a square that overflows. *)
Theorem total_distance_not_negative (fp : FlightPlan.t) :
  (forall d, FlightPlan.total_distance fp = Ok d -> (d <? 0) = false) /\
  (forall e, FlightPlan.total_distance fp = Raise e -> e = Py.OverflowError) /\
  (forall a b d, Waypoint.distance_to a b = Ok d -> (d <? 0) = false) /\
  (forall a b e, Waypoint.distance_to a b = Raise e -> e = Py.OverflowError).
Proof.
  split; [|split; [|split]].
  - intros d. apply total_distance_loop_not_negative. reflexivity.
  - intros e. apply total_distance_loop_raises.
  - apply distance_to_not_negative.
  - apply distance_to_raises.
Qed.

End Distances.

(** Examples on the platform of the examples. *)

Section DistancesExamples.

Import IEEE.
#[local] Existing Instance Examples.platform.

Lemma distance_to_self_witness :
  Waypoint.distance_to (Examples.wp 3 4 5 0) (Examples.wp 3 4 5 0) = Ok 0.
Proof. apply (distance_to_self (Examples.wp 3 4 5 0)). reflexivity. Defined.

End DistancesExamples.

Section Duration.

Import IEEE.
Local Open Scope Z_scope.
Context {platform : Platform.t}.

Lemma canonical_lt mx ex my ey :
  bounded prec emax mx ex = true -> bounded prec emax my ey = true -> ex < ey ->
  Z.pos mx < Z.pos my * 2 ^ (ey - ex).
Proof.
  intros Hx Hy Hlt.
  apply (canonical_bounds prec emax) in Hx as (Hx1 & Hx2 & Hx3).
  apply (canonical_bounds prec emax) in Hy as (Hy1 & Hy2 & Hy3).
  assert (Hd : Z.pos (digits2_pos my) = prec) by (apply Hy3; lia).
  pose proof (digits2_pos_bounds mx) as [_ Hux].
  pose proof (digits2_pos_bounds my) as [Hly _].
  rewrite Hd in Hly.
  assert (2 ^ prec <= Z.pos my * 2 ^ (ey - ex)).
  { replace prec with ((prec - 1) + 1) at 1 by lia.
    rewrite Z.pow_add_r by (unfold prec; lia).
    assert (2 ^ 1 <= 2 ^ (ey - ex)) by (apply Z.pow_le_mono_r; lia).
    assert (0 <= 2 ^ (prec - 1)) by (apply Z.pow_nonneg; lia).
    apply Z.mul_le_mono_nonneg; lia. }
  assert (2 ^ Z.pos (digits2_pos mx) <= 2 ^ prec) by (apply Z.pow_le_mono_r; lia).
  lia.
Qed.

(** Aligned to the smaller exponent, the mantissas of two canonical
    positive numbers are ordered as the numbers are. *)
Lemma aligned_le mx ex my ey :
  bounded prec emax mx ex = true -> bounded prec emax my ey = true ->
  match ex ?= ey with
  | Lt => True
  | Eq => (mx <= my)%positive
  | Gt => False
  end ->
  Z.pos (fst (shl_align mx ex (Z.min ey ex))) <= Z.pos (fst (shl_align my ey (Z.min ey ex))).
Proof.
  intros Hx Hy H.
  rewrite (shl_align_value mx ex (Z.min ey ex)) by lia.
  rewrite (shl_align_value my ey (Z.min ey ex)) by lia.
  destruct (Z.compare_spec ex ey) as [->|Hlt|Hgt]; [| |destruct H].
  - rewrite Z.min_id, Z.sub_diag. simpl. lia.
  - replace (Z.min ey ex) with ex by lia. rewrite Z.sub_diag.
    pose proof (canonical_lt mx ex my ey Hx Hy Hlt). simpl (2 ^ 0). lia.
Qed.

Lemma binary_normalize_not_negative m e :
  0 <= m -> SFltb (binary_normalize prec emax m e false) (S754_zero false) = false.
Proof.
  intros H. destruct m as [|q|q]; [reflexivity| |lia].
  cbn [binary_normalize]. unfold binary_round.
  destruct (shl_align q e _) as [mz ez]. apply SFltb_zero_round.
Qed.

Lemma SFsub_le_not_negative x y :
  SpecFloat.valid_binary prec emax x = true -> SpecFloat.valid_binary prec emax y = true ->
  SFleb x y = true -> SFltb (SFsub prec emax y x) (S754_zero false) = false.
Proof.
  unfold SFleb.
  destruct x as [sx|sx| |sx mx ex], y as [sy|sy| |sy my ey]; simpl SFcompare;
    intros Hx Hy H; try discriminate H; try reflexivity;
    try (destruct sx, sy; try discriminate H; reflexivity);
    try (destruct sx; try discriminate H; reflexivity);
    try (destruct sy; try discriminate H; reflexivity).
  cbn [SFsub]. apply binary_normalize_not_negative.
  simpl in Hx, Hy.
  destruct sx, sy; try discriminate H; unfold cond_Zopp.
  - assert (Hle : Z.pos (fst (shl_align my ey (Z.min ex ey)))
                  <= Z.pos (fst (shl_align mx ex (Z.min ex ey)))).
    { apply aligned_le; try assumption.
      destruct (Z.compare_spec ex ey) as [->|Hlt|Hgt].
      - rewrite Z.compare_refl. rewrite Pos.compare_cont_spec in H. simpl in H.
        destruct (Pos.compare_spec mx my); simpl in H; try discriminate; lia.
      - discriminate H.
      - replace (ey ?= ex) with Lt by (symmetry; apply Z.compare_lt_iff; lia). exact I. }
    rewrite (Z.min_comm ey ex). lia.
  - rewrite (Z.min_comm ey ex). lia.
  - assert (Hle : Z.pos (fst (shl_align mx ex (Z.min ey ex)))
                  <= Z.pos (fst (shl_align my ey (Z.min ey ex)))).
    { apply aligned_le; try assumption.
      destruct (Z.compare_spec ex ey) as [->|Hlt|Hgt]; try exact I; try discriminate H.
      rewrite Pos.compare_cont_spec in H. simpl in H.
      destruct (Pos.compare_spec mx my); simpl in H; try discriminate; lia. }
    lia.
Qed.

(** The difference of two ordered floats is not negative. *)
Lemma fsub_le_not_negative (x y : float) :
  (x <=? y)%float = true -> (y - x <? 0)%float = false.
Proof.
  rewrite FloatAxioms.leb_spec, FloatAxioms.ltb_spec, sub_spec. intros H.
  change (Prim2SF 0) with (S754_zero false).
  apply SFsub_le_not_negative; auto using Prim2SF_valid.
Qed.

(** X4.  On a trajectory with at least two waypoints and non-decreasing
    times, [duration] returns the last waypoint's time minus the first
    one's, and that number is not negative. *)
Theorem duration_not_negative (fp : FlightPlan.t) :
  Valid.trajectory fp = true ->
  exists wf wl,
    Py.first (FlightPlan.waypoints fp) = Ok wf /\
    Py.last (FlightPlan.waypoints fp) = Ok wl /\
    FlightPlan.duration fp = Ok (Waypoint.time wl - Waypoint.time wf)%float /\
    (Waypoint.time wl - Waypoint.time wf <? 0)%float = false.
Proof.
  intros Hv. destruct (valid_waypoints fp Hv) as (Hn & wf & wl & Hf & Hl).
  exists wf, wl. split; [exact Hf|]. split; [exact Hl|].
  unfold Valid.trajectory in Hv. apply andb_true_iff in Hv as [Hlen Hs].
  apply Nat.leb_le in Hlen.
  split.
  - unfold FlightPlan.duration. rewrite Hf, Hl.
    destruct (FlightPlan.waypoints fp); [congruence|reflexivity].
  - apply fsub_le_not_negative. exact (sorted_first_last _ _ _ Hlen Hs Hf Hl).
Qed.

End Duration.

(** Examples on the platform of the examples. *)

Section DurationExamples.

Import IEEE.
Local Open Scope Z_scope.
#[local] Existing Instance Examples.platform.

Lemma duration_not_negative_witness :
  exists wf wl,
    Py.first (FlightPlan.waypoints Examples.final_jump) = Ok wf /\
    Py.last (FlightPlan.waypoints Examples.final_jump) = Ok wl /\
    FlightPlan.duration Examples.final_jump = Ok (Waypoint.time wl - Waypoint.time wf)%float /\
    (Waypoint.time wl - Waypoint.time wf <? 0)%float = false.
Proof. apply (duration_not_negative Examples.final_jump). reflexivity. Defined.

End DurationExamples.

(** * Construction, velocity and bounding box of a flight plan *)

Section Accessors.

Import IEEE.
Context {platform : Platform.t}.

(** X5.  A plan accepted by the constructor has the fields it was given,
    at least two waypoints, a speed that is not zero or below and a
    priority of at least 1; on it [duration] returns the difference of the
    last and the first times, and [interpolate_position] (at any time) and
    [get_bounds] return without raising. *)
Theorem make_checked (uav_id : string) (waypoints : list Waypoint.t) (speed : float)
    (start_time priority : Z) (fp : FlightPlan.t) :
  FlightPlan.make uav_id waypoints speed start_time priority = Ok fp ->
  fp = FlightPlan.mk uav_id waypoints speed start_time priority /\
  (2 <= length (FlightPlan.waypoints fp))%nat /\
  (FlightPlan.speed fp <=? 0) = false /\
  (1 <= FlightPlan.priority fp)%Z /\
  (exists wf wl,
     Py.first (FlightPlan.waypoints fp) = Ok wf /\
     Py.last (FlightPlan.waypoints fp) = Ok wl /\
     FlightPlan.duration fp = Ok (Waypoint.time wl - Waypoint.time wf)) /\
  (forall t, exists r, FlightPlan.interpolate_position fp t = Ok r) /\
  (exists b, FlightPlan.get_bounds fp = Ok b).
Proof.
  unfold FlightPlan.make.
  destruct (length waypoints <? 2)%nat eqn:E1; [discriminate|].
  destruct (speed <=? 0) eqn:E2; [discriminate|].
  destruct (priority <? 1)%Z eqn:E3; [discriminate|].
  intros H. injection H as <-. cbn [FlightPlan.waypoints FlightPlan.speed FlightPlan.priority].
  apply Nat.ltb_ge in E1. apply Z.ltb_ge in E3.
  split; [reflexivity|]. split; [exact E1|]. split; [exact E2|]. split; [exact E3|].
  destruct waypoints as [|w l]; [simpl in E1; lia|].
  destruct (last_ok w l) as [wl Hl].
  split; [|split].
  - exists w, wl. split; [reflexivity|]. split; [exact Hl|].
    unfold FlightPlan.duration. cbn [FlightPlan.waypoints]. rewrite Hl. reflexivity.
  - intros t. apply interpolate_position_ok. discriminate.
  - unfold FlightPlan.get_bounds. cbn [FlightPlan.waypoints map Py.min_of Py.max_of Py.bind].
    eauto.
Qed.

Lemma enclosing_segment_nan (wps : list Waypoint.t) (t : float) :
  (t =? t) = false -> Valid.enclosing_segment wps t = None.
Proof.
  intros H. induction wps as [|wp1 [|wp2 rest] IH]; try reflexivity.
  cbn [Valid.enclosing_segment].
  replace (Waypoint.time wp1 <=? t) with false by (symmetry; clear IH; float_order).
  exact IH.
Qed.

(** X6.  On a trajectory with at least two waypoints and non-decreasing
    times, [interpolate_position] returns [None] for every time that is
    not within the closed span from the first to the last waypoint's time:
    before the first, after the last, or NaN. *)
Theorem interpolate_position_outside (fp : FlightPlan.t) (t : float) :
  Valid.trajectory fp = true -> Vocab.in_span fp t = false ->
  FlightPlan.interpolate_position fp t = Ok None.
Proof.
  intros Hv Hout.
  destruct (valid_waypoints fp Hv) as (Hn & wf & wl & Hf & Hl).
  destruct (valid_span_not_nan fp wf wl Hv Hf Hl) as [Hnf Hnl].
  unfold Vocab.in_span in Hout. rewrite Hf, Hl in Hout.
  unfold FlightPlan.interpolate_position, FlightPlan.interpolate_position_with.
  rewrite Hf, Hl. cbn [Py.bind].
  destruct (t <? Waypoint.time wf) eqn:E1; [reflexivity|].
  destruct (Waypoint.time wl <? t) eqn:E2; [reflexivity|].
  assert (Hnan : (t =? t) = false).
  { clear -Hout E1 E2 Hnf Hnl. apply andb_false_iff in Hout. destruct Hout; float_order. }
  rewrite segment_search_with_enclosing, enclosing_segment_nan by assumption.
  reflexivity.
Qed.

(** The velocity on a segment never raises: the division is reached only
    with a duration that is not zero. *)
Lemma segment_velocity_ok (wp1 wp2 : Waypoint.t) :
  exists v, FlightPlan.segment_velocity wp1 wp2 = Ok v.
Proof.
  unfold FlightPlan.segment_velocity.
  destruct (Waypoint.time wp2 - Waypoint.time wp1 =? 0) eqn:E; [eauto|].
  unfold Py.truediv. rewrite E. simpl. eauto.
Qed.

Lemma velocity_search_enclosing (wps : list Waypoint.t) (t : float) :
  FlightPlan.velocity_search wps t =
  match Valid.enclosing_segment wps t with
  | Some (wp1, wp2) => v <- FlightPlan.segment_velocity wp1 wp2 ;; Ok (Some v)
  | None => Ok None
  end.
Proof.
  induction wps as [|wp1 [|wp2 rest] IH]; try reflexivity.
  cbn [FlightPlan.velocity_search Valid.enclosing_segment].
  destruct ((Waypoint.time wp1 <=? t) && (t <=? Waypoint.time wp2)); [reflexivity|exact IH].
Qed.

(** X7.  [get_velocity_at_time] never raises, on any list of waypoints and
    at any time: the division is reached only with a duration that is not
    zero.  It answers [None] when no segment contains the time, the zero
    vector on a segment without duration, and the coordinate differences
    over the duration otherwise, on the first segment whose closed time
    span contains the time. *)
Theorem get_velocity_at_time_returns (fp : FlightPlan.t) (t : float) :
  match Valid.enclosing_segment (FlightPlan.waypoints fp) t with
  | Some (wp1, wp2) =>
      let dt := Waypoint.time wp2 - Waypoint.time wp1 in
      FlightPlan.get_velocity_at_time fp t
      = Ok (Some (if dt =? 0 then (0, 0, 0)
                  else ((Waypoint.x wp2 - Waypoint.x wp1) / dt,
                        (Waypoint.y wp2 - Waypoint.y wp1) / dt,
                        (Waypoint.z wp2 - Waypoint.z wp1) / dt)))
  | None => FlightPlan.get_velocity_at_time fp t = Ok None
  end.
Proof.
  unfold FlightPlan.get_velocity_at_time. rewrite velocity_search_enclosing.
  destruct (Valid.enclosing_segment _ _) as [[wp1 wp2]|]; [|reflexivity].
  cbv zeta. unfold FlightPlan.segment_velocity.
  destruct (Waypoint.time wp2 - Waypoint.time wp1 =? 0) eqn:E; [reflexivity|].
  unfold Py.truediv. rewrite E. reflexivity.
Qed.

Lemma enclosing_segment_in_span (wps : list Waypoint.t) (t : float)
    (wf wl wp1 wp2 : Waypoint.t) :
  Valid.times_sorted wps = true ->
  Py.first wps = Ok wf -> Py.last wps = Ok wl ->
  Valid.enclosing_segment wps t = Some (wp1, wp2) ->
  (Waypoint.time wf <=? t) = true /\ (t <=? Waypoint.time wl) = true.
Proof.
  revert wf. induction wps as [|w1 [|w2 rest] IH]; intros wf Hs Hf Hl He; try discriminate.
  simpl in Hf. injection Hf as <-.
  cbn [Valid.times_sorted] in Hs. apply andb_true_iff in Hs as [Hs1 Hs2].
  rewrite last_cons_cons in Hl.
  cbn [Valid.enclosing_segment] in He.
  assert (Hspan : (Waypoint.time w2 <=? Waypoint.time wl) = true).
  { destruct (sorted_in_range (w2 :: rest) w2 wl w2 Hs2 eq_refl Hl (or_introl eq_refl)) as [_ H].
    destruct rest as [|w3 rest].
    - simpl in Hl. injection Hl as <-. clear -Hs1. float_order.
    - apply H. simpl. lia. }
  destruct (Waypoint.time w1 <=? t) eqn:E1; simpl in He.
  - destruct (t <=? Waypoint.time w2) eqn:E2.
    + split; [reflexivity|]. clear -E2 Hspan. float_order.
    + destruct (IH w2 Hs2 eq_refl Hl He) as [H1 H2]. split; [reflexivity|assumption].
  - destruct (IH w2 Hs2 eq_refl Hl He) as [H1 H2]. split; [|assumption].
    clear -H1 Hs1 E1. float_order.
Qed.

(** X8.  On a trajectory with at least two waypoints and non-decreasing
    times, [get_velocity_at_time], which does not test the time span,
    returns a velocity at exactly the times at which
    [interpolate_position] returns a position. *)
Theorem velocity_defined_iff_position (fp : FlightPlan.t) (t : float) :
  Valid.trajectory fp = true ->
  (exists v, FlightPlan.get_velocity_at_time fp t = Ok (Some v)) <->
  (exists pos, FlightPlan.interpolate_position fp t = Ok (Some pos)).
Proof.
  intros Hv.
  destruct (valid_waypoints fp Hv) as (Hn & wf & wl & Hf & Hl).
  unfold Valid.trajectory in Hv. apply andb_true_iff in Hv as [Hlen Hs].
  unfold FlightPlan.get_velocity_at_time. rewrite velocity_search_enclosing.
  split.
  - intros [v H].
    destruct (Valid.enclosing_segment (FlightPlan.waypoints fp) t) as [[wp1 wp2]|] eqn:E;
      [|discriminate].
    destruct (enclosing_segment_in_span _ _ _ _ _ _ Hs Hf Hl E) as [H1 H2].
    unfold FlightPlan.interpolate_position.
    rewrite (interpolate_position_guard fp t wf wl Hf Hl H1 H2).
    rewrite segment_search_with_enclosing, E.
    destruct (blend_ok wp1 wp2 t) as [pos Hp]. unfold FlightPlan.blend in Hp.
    rewrite Hp. simpl. eauto.
  - intros [pos H].
    unfold FlightPlan.interpolate_position, FlightPlan.interpolate_position_with in H.
    rewrite Hf, Hl in H. cbn [Py.bind] in H.
    destruct (t <? Waypoint.time wf); [discriminate|].
    destruct (Waypoint.time wl <? t); [discriminate|].
    rewrite segment_search_with_enclosing in H.
    destruct (Valid.enclosing_segment (FlightPlan.waypoints fp) t) as [[wp1 wp2]|];
      [|discriminate].
    destruct (segment_velocity_ok wp1 wp2) as [v ->]. simpl. eauto.
Qed.

End Accessors.

(** Examples on the platform of the examples. *)

Section AccessorsExamples.

Import IEEE.
#[local] Existing Instance Examples.platform.

Lemma make_checked_witness :
  Examples.final_jump
  = FlightPlan.mk "U2" (FlightPlan.waypoints Examples.final_jump) 15.0 0 1 /\
  (2 <= length (FlightPlan.waypoints Examples.final_jump))%nat /\
  (FlightPlan.speed Examples.final_jump <=? 0) = false /\
  (1 <= FlightPlan.priority Examples.final_jump)%Z /\
  (exists wf wl,
     Py.first (FlightPlan.waypoints Examples.final_jump) = Ok wf /\
     Py.last (FlightPlan.waypoints Examples.final_jump) = Ok wl /\
     FlightPlan.duration Examples.final_jump = Ok (Waypoint.time wl - Waypoint.time wf)) /\
  (forall t, exists r, FlightPlan.interpolate_position Examples.final_jump t = Ok r) /\
  (exists b, FlightPlan.get_bounds Examples.final_jump = Ok b).
Proof.
  apply (make_checked "U2" (FlightPlan.waypoints Examples.final_jump) 15.0 0 1
           Examples.final_jump).
  reflexivity.
Defined.

Lemma interpolate_position_outside_witness :
  FlightPlan.interpolate_position Examples.eastbound nan = Ok None.
Proof. apply (interpolate_position_outside Examples.eastbound nan); reflexivity. Defined.

Lemma velocity_defined_iff_position_witness :
  (exists v, FlightPlan.get_velocity_at_time Examples.eastbound 100 = Ok (Some v)) <->
  (exists pos, FlightPlan.interpolate_position Examples.eastbound 100 = Ok (Some pos)).
Proof. apply (velocity_defined_iff_position Examples.eastbound 100). reflexivity. Defined.

End AccessorsExamples.

Section Bounds.

Import IEEE.
Context {platform : Platform.t}.

Lemma fold_min_spec (l : list float) (a : float) :
  (a =? a) = true -> Forall (fun x => (x =? x) = true) l ->
  let m := fold_left (fun current item => Py.min current item) l a in
  In m (a :: l) /\ (m <=? a) = true /\ Forall (fun x => (m <=? x) = true) l.
Proof.
  revert a. induction l as [|b l IH]; intros a Ha Hl; cbn [fold_left].
  - split; [left; reflexivity|]. split; [float_order|constructor].
  - apply Forall_cons_iff in Hl as [Hb Hl].
    assert (Hm : (Py.min a b =? Py.min a b) = true).
    { unfold Py.min. cbn [Py.num_ltb Py.float_Num]. destruct (b <? a); assumption. }
    destruct (IH (Py.min a b) Hm Hl) as (Hin & Hle & Hall).
    set (m := fold_left _ l (Py.min a b)) in *. clearbody m.
    assert (Hab : (Py.min a b <=? a) = true /\ (Py.min a b <=? b) = true).
    { unfold Py.min. cbn [Py.num_ltb Py.float_Num].
      destruct (b <? a) eqn:E; split; clear -E Ha Hb; float_order. }
    destruct Hab as [H1 H2].
    split; [|split].
    + destruct Hin as [Hin|Hin]; [|right; right; assumption].
      unfold Py.min in Hin. cbn [Py.num_ltb Py.float_Num] in Hin.
      destruct (b <? a); [right; left|left]; assumption.
    + clear -Hle H1. float_order.
    + constructor; [|assumption]. clear -Hle H2. float_order.
Qed.

Lemma fold_max_spec (l : list float) (a : float) :
  (a =? a) = true -> Forall (fun x => (x =? x) = true) l ->
  let m := fold_left (fun current item => Py.max current item) l a in
  In m (a :: l) /\ (a <=? m) = true /\ Forall (fun x => (x <=? m) = true) l.
Proof.
  revert a. induction l as [|b l IH]; intros a Ha Hl; cbn [fold_left].
  - split; [left; reflexivity|]. split; [float_order|constructor].
  - apply Forall_cons_iff in Hl as [Hb Hl].
    assert (Hm : (Py.max a b =? Py.max a b) = true).
    { unfold Py.max. cbn [Py.num_ltb Py.float_Num]. destruct (a <? b); assumption. }
    destruct (IH (Py.max a b) Hm Hl) as (Hin & Hle & Hall).
    set (m := fold_left _ l (Py.max a b)) in *. clearbody m.
    assert (Hab : (a <=? Py.max a b) = true /\ (b <=? Py.max a b) = true).
    { unfold Py.max. cbn [Py.num_ltb Py.float_Num].
      destruct (a <? b) eqn:E; split; clear -E Ha Hb; float_order. }
    destruct Hab as [H1 H2].
    split; [|split].
    + destruct Hin as [Hin|Hin]; [|right; right; assumption].
      unfold Py.max in Hin. cbn [Py.num_ltb Py.float_Num] in Hin.
      destruct (a <? b); [right; left|left]; assumption.
    + clear -Hle H1. float_order.
    + constructor; [|assumption]. clear -Hle H2. float_order.
Qed.

(** The least and the greatest value of a coordinate over a non-empty
    list of waypoints. *)
Lemma min_max_of (A : Type) (f : A -> float) (a : A) (l : list A) :
  Forall (fun w => (f w =? f w) = true) (a :: l) ->
  exists lo hi,
    Py.min_of (map f (a :: l)) = Ok lo /\ Py.max_of (map f (a :: l)) = Ok hi /\
    In lo (map f (a :: l)) /\ In hi (map f (a :: l)) /\
    Forall (fun w => Vocab.between (lo, hi) (f w) = true) (a :: l).
Proof.
  intros H. apply Forall_cons_iff in H as [Ha Hl].
  assert (Hl' : Forall (fun x => (x =? x) = true) (map f l)).
  { apply Forall_map. exact Hl. }
  cbn [map Py.min_of Py.max_of].
  destruct (fold_min_spec (map f l) (f a) Ha Hl') as (H1 & H2 & H3).
  destruct (fold_max_spec (map f l) (f a) Ha Hl') as (H4 & H5 & H6).
  eexists. eexists. split; [reflexivity|]. split; [reflexivity|].
  split; [exact H1|]. split; [exact H4|].
  unfold Vocab.between. cbn [fst snd].
  constructor; [rewrite H2, H5; reflexivity|].
  apply Forall_map in H3. apply Forall_map in H6.
  rewrite List.Forall_forall in *. intros w Hw.
  rewrite (H3 w Hw), (H6 w Hw). reflexivity.
Qed.

(** X9.  For a plan with at least one waypoint and no NaN coordinate,
    [get_bounds] returns a box that contains every waypoint, and each of
    its six bounds is the coordinate of some waypoint. *)
Theorem get_bounds_box (fp : FlightPlan.t) :
  FlightPlan.waypoints fp <> [] ->
  Forall (fun w => Vocab.coords_not_nan w = true) (FlightPlan.waypoints fp) ->
  exists min_x max_x min_y max_y min_z max_z,
    FlightPlan.get_bounds fp = Ok ((min_x, max_x), (min_y, max_y), (min_z, max_z)) /\
    Forall (fun w => Vocab.inside ((min_x, max_x), (min_y, max_y), (min_z, max_z)) w = true)
      (FlightPlan.waypoints fp) /\
    In min_x (map Waypoint.x (FlightPlan.waypoints fp)) /\
    In max_x (map Waypoint.x (FlightPlan.waypoints fp)) /\
    In min_y (map Waypoint.y (FlightPlan.waypoints fp)) /\
    In max_y (map Waypoint.y (FlightPlan.waypoints fp)) /\
    In min_z (map Waypoint.z (FlightPlan.waypoints fp)) /\
    In max_z (map Waypoint.z (FlightPlan.waypoints fp)).
Proof.
  unfold FlightPlan.get_bounds. intros Hne Hnan.
  destruct (FlightPlan.waypoints fp) as [|a l]; [congruence|]. clear Hne.
  assert (Hx : Forall (fun w => (Waypoint.x w =? Waypoint.x w) = true) (a :: l)).
  { eapply List.Forall_impl; [|exact Hnan]. unfold Vocab.coords_not_nan. intros w H.
    apply andb_true_iff in H as [H _]. apply andb_true_iff in H as [H _]. exact H. }
  assert (Hy : Forall (fun w => (Waypoint.y w =? Waypoint.y w) = true) (a :: l)).
  { eapply List.Forall_impl; [|exact Hnan]. unfold Vocab.coords_not_nan. intros w H.
    apply andb_true_iff in H as [H _]. apply andb_true_iff in H as [_ H]. exact H. }
  assert (Hz : Forall (fun w => (Waypoint.z w =? Waypoint.z w) = true) (a :: l)).
  { eapply List.Forall_impl; [|exact Hnan]. unfold Vocab.coords_not_nan. intros w H.
    apply andb_true_iff in H as [_ H]. exact H. }
  destruct (min_max_of _ Waypoint.x a l Hx) as (x0 & x1 & -> & -> & Hx0 & Hx1 & Hbx).
  destruct (min_max_of _ Waypoint.y a l Hy) as (y0 & y1 & -> & -> & Hy0 & Hy1 & Hby).
  destruct (min_max_of _ Waypoint.z a l Hz) as (z0 & z1 & -> & -> & Hz0 & Hz1 & Hbz).
  cbn [Py.bind]. exists x0, x1, y0, y1, z0, z1.
  split; [reflexivity|]. split; [|tauto].
  rewrite List.Forall_forall in *. intros w Hw. unfold Vocab.inside.
  rewrite (Hbx w Hw), (Hby w Hw), (Hbz w Hw). reflexivity.
Qed.

End Bounds.

(** Examples on the platform of the examples. *)

Section BoundsExamples.

Import IEEE.
#[local] Existing Instance Examples.platform.

Lemma get_bounds_box_witness :
  exists min_x max_x min_y max_y min_z max_z,
    FlightPlan.get_bounds Examples.final_jump
    = Ok ((min_x, max_x), (min_y, max_y), (min_z, max_z)) /\
    Forall (fun w => Vocab.inside ((min_x, max_x), (min_y, max_y), (min_z, max_z)) w = true)
      (FlightPlan.waypoints Examples.final_jump) /\
    In min_x (map Waypoint.x (FlightPlan.waypoints Examples.final_jump)) /\
    In max_x (map Waypoint.x (FlightPlan.waypoints Examples.final_jump)) /\
    In min_y (map Waypoint.y (FlightPlan.waypoints Examples.final_jump)) /\
    In max_y (map Waypoint.y (FlightPlan.waypoints Examples.final_jump)) /\
    In min_z (map Waypoint.z (FlightPlan.waypoints Examples.final_jump)) /\
    In max_z (map Waypoint.z (FlightPlan.waypoints Examples.final_jump)).
Proof.
  apply (get_bounds_box Examples.final_jump).
  - discriminate.
  - repeat constructor.
Defined.

End BoundsExamples.

(** * The sampling step *)

Section Sampling.

Import IEEE.
Context {platform : Platform.t}.

Lemma max_segment_speed_loop_ge (wps : list Waypoint.t) (acc r : float) :
  (acc =? acc) = true ->
  ConflictDetector.max_segment_speed_loop wps acc = Ok r ->
  (acc <=? r) = true.
Proof.
  revert acc. induction wps as [|wp1 [|wp2 rest] IH]; intros acc Ha;
    try solve [intros H; injection H as <-; clear -Ha; float_order].
  cbn [ConflictDetector.max_segment_speed_loop].
  destruct (_ <=? 0); [apply IH; assumption|].
  destruct (Waypoint.distance_to wp1 wp2) as [dist|e]; [|discriminate]. cbn [Py.bind].
  set (v := dist / _).
  destruct (acc <? v) eqn:E; [|apply IH; assumption].
  assert (Hv : (v =? v) = true) by (clear -E; float_order).
  intros H. specialize (IH v Hv H). clearbody v.
  clear -E IH. float_order.
Qed.

(** X10.  For a flight whose cruising speed is a number, what
    [_calculate_max_segment_speed] returns is never below that speed and
    never negative, whatever the waypoints and the platform are; it raises
    nothing but the [OverflowError] of a square that overflows. *)
Theorem max_segment_speed_at_least (d : ConflictDetector.t) (flight : FlightPlan.t) :
  (FlightPlan.speed flight =? FlightPlan.speed flight) = true ->
  match ConflictDetector._calculate_max_segment_speed d flight with
  | Ok max_speed =>
      (FlightPlan.speed flight <=? max_speed) = true /\ (0 <=? max_speed) = true
  | Raise e => e = Py.OverflowError
  end.
Proof.
  intros Hs.
  destruct (ConflictDetector._calculate_max_segment_speed d flight) as [r|e] eqn:Er;
    [|exact (max_segment_speed_raises _ _ _ Er)].
  unfold ConflictDetector._calculate_max_segment_speed in Er.
  set (init := Py.max (FlightPlan.speed flight) 0.0) in *.
  assert (Hi : (init =? init) = true /\ (FlightPlan.speed flight <=? init) = true
               /\ (0 <=? init) = true).
  { unfold init, Py.max. cbn [Py.num_ltb Py.float_Num].
    destruct (FlightPlan.speed flight <? 0.0) eqn:E; repeat split; clear -E Hs; float_order. }
  destruct Hi as (H1 & H2 & H3).
  pose proof (max_segment_speed_loop_ge (FlightPlan.waypoints flight) init r H1 Er) as H.
  clearbody init.
  split; clear -H H2 H3; float_order.
Qed.

(** X11.  The adaptive step that [_get_effective_time_step] returns is
    never zero.  When the configured time step is a number, the step is
    positive and never coarser than the base step [max(time_step, 1e-3)],
    and it is either the base step itself or at least a tenth of it.  The
    function raises nothing but the [OverflowError] of a square that
    overflows. *)
Theorem effective_time_step_bounds (d : ConflictDetector.t) (f1 f2 : FlightPlan.t) :
  let base_step := Py.max (ConflictDetector.time_step d) 1e-3 in
  match ConflictDetector._get_effective_time_step d f1 f2 with
  | Ok step =>
      (step =? 0) = false /\
      ((ConflictDetector.time_step d =? ConflictDetector.time_step d) = true ->
       (0 <? step) = true /\ (step <=? base_step) = true /\ (1e-3 <=? base_step) = true /\
       (step = base_step \/ (base_step * 0.1 <=? step) = true))
  | Raise e => e = Py.OverflowError
  end.
Proof.
  cbv zeta.
  destruct (ConflictDetector._get_effective_time_step d f1 f2) as [step|e] eqn:Es;
    [|exact (effective_time_step_raises _ _ _ _ Es)].
  split; [exact (effective_time_step_not_zero _ _ _ _ Es)|]. intros Hn.
  revert Es. unfold ConflictDetector._get_effective_time_step.
  destruct (ConflictDetector._calculate_max_segment_speed d f1) as [speed1|]; [|discriminate].
  destruct (ConflictDetector._calculate_max_segment_speed d f2) as [speed2|]; [|discriminate].
  cbn [Py.bind].
  set (rel := (_ + _)).
  set (desired := (ConflictDetector.safety_distance d / (rel * 4.0))).
  set (base := Py.max (ConflictDetector.time_step d) 1e-3).
  assert (Hb : (1e-3 <=? base) = true).
  { unfold base, Py.max. cbn [Py.num_ltb Py.float_Num].
    destruct (ConflictDetector.time_step d <? 1e-3) eqn:E; clear -E Hn; float_order. }
  assert (Hmin : (0 <? base * 0.1) = true).
  { apply (positive_above_mul base 0.1 (-62) (-56)); try reflexivity.
    apply (positive_above_lt 1e-3); [reflexivity|exact Hb]. }
  clearbody base. set (min_step := (base * 0.1)) in *. clearbody min_step desired.
  unfold Py.max, Py.min. cbn [Py.num_ltb Py.float_Num].
  destruct (rel <=? 1e-6).
  - intros H; injection H as <-.
    repeat split; try solve [clear -Hb; float_order]. left. reflexivity.
  - intros H; injection H as <-.
    destruct (desired <? min_step) eqn:E1;
      match goal with |- context [if ?c then _ else _] => destruct c eqn:E2 end;
      repeat split; try solve [float_order];
      try solve [left; reflexivity]; right; float_order.
Qed.

Lemma last_snoc {A : Type} (l : list A) (x : A) : Py.last (l ++ [x]) = Ok x.
Proof.
  induction l as [|a l IH]; [reflexivity|].
  cbn [app]. destruct (l ++ [x]) as [|b l'] eqn:E.
  - destruct l; discriminate E.
  - rewrite last_cons_cons. exact IH.
Qed.

Lemma linspace_ends (start stop : float) (num : Z) (times : list float) :
  (2 <= num)%Z -> np.linspace start stop num = Ok times ->
  length times = Z.to_nat num /\ Py.last times = Ok stop.
Proof.
  intros Hnum. unfold np.linspace.
  replace (num <? 0)%Z with false by (symmetry; apply Z.ltb_ge; lia).
  replace (1 <? num)%Z with true by (symmetry; apply Z.ltb_lt; lia).
  destruct (Platform.array_error num); [discriminate|].
  intros H. injection H as <-. split; [|apply last_snoc].
  rewrite length_app. cbn [length].
  match goal with |- context [removelast ?y] => set (l := y) end.
  assert (Hl : length l = Z.to_nat num).
  { unfold l. rewrite length_map.
    destruct (0 <? num - 1)%Z; [destruct (_ =? 0)|]; rewrite length_map;
      unfold np.indices; rewrite length_map, length_seq; reflexivity. }
  clearbody l. destruct l as [|a l] using rev_ind.
  - simpl in Hl. lia.
  - rewrite removelast_last. rewrite length_app in Hl. simpl in Hl. lia.
Qed.

(** X12.  When the overlap window is longer than 1e-6 seconds the pairwise
    check takes at least two samples, and the last one is exactly the end
    of the window; a window of at most 1e-6 seconds is sampled once, at
    its start. *)
Theorem sample_times_window (d : ConflictDetector.t) (f1 f2 : FlightPlan.t)
    (t_start t_end : float) (times : list float) :
  ConflictDetector.sample_times d f1 f2 t_start t_end = Ok times ->
  if abs (t_start - t_end) <=? 1e-6 then times = [t_start]
  else (2 <= length times)%nat /\ Py.last times = Ok t_end.
Proof.
  unfold ConflictDetector.sample_times.
  destruct (abs (t_start - t_end) <=? 1e-6); [intros H; injection H as <-; reflexivity|].
  destruct (ConflictDetector._get_effective_time_step d f1 f2) as [step|]; [|discriminate].
  cbn [Py.bind].
  destruct (Py.int_ceil _) as [count|]; [|discriminate]. cbn [Py.bind]. intros H.
  destruct (linspace_ends t_start t_end (Z.max (count + 1) 2) times ltac:(lia) H) as [H1 H2].
  split; [lia|exact H2].
Qed.

End Sampling.

(** Examples on the platform of the examples. *)

Section SamplingExamples.

Import IEEE.
#[local] Existing Instance Examples.platform.

Lemma max_segment_speed_at_least_witness :
  match ConflictDetector._calculate_max_segment_speed Examples.detector Examples.eastbound with
  | Ok max_speed =>
      (FlightPlan.speed Examples.eastbound <=? max_speed) = true /\ (0 <=? max_speed) = true
  | Raise e => e = Py.OverflowError
  end.
Proof.
  apply (max_segment_speed_at_least Examples.detector Examples.eastbound). reflexivity.
Defined.

Lemma sample_times_window_witness :
  (2 <= length Examples.departure_times)%nat /\ Py.last Examples.departure_times = Ok 1.
Proof.
  apply (sample_times_window Examples.detector Examples.hover Examples.leaving 0 1
           Examples.departure_times).
  vm_compute. reflexivity.
Defined.

Lemma effective_time_step_bounds_witness :
  match ConflictDetector._get_effective_time_step Examples.detector Examples.eastbound
          Examples.northbound with
  | Ok step =>
      (step =? 0) = false /\ (0 <? step) = true /\
      (step <=? Py.max (ConflictDetector.time_step Examples.detector) 1e-3) = true
  | Raise e => e = Py.OverflowError
  end.
Proof.
  pose proof (effective_time_step_bounds Examples.detector Examples.eastbound
                Examples.northbound) as H.
  cbv zeta in H.
  destruct (ConflictDetector._get_effective_time_step Examples.detector Examples.eastbound
              Examples.northbound) as [step|e]; [|exact H].
  destruct H as [H0 H]. destruct (H eq_refl) as (H1 & H2 & _).
  split; [exact H0|]. split; [exact H1|exact H2].
Defined.

End SamplingExamples.

(** * Reported conflicts, prediction and the conflict matrix *)

Section Reports.

Import IEEE.
Context {platform : Platform.t}.

Lemma Forall2_In_l {A B : Type} (R : A -> B -> Prop) (l : list A) (l' : list B) (a : A) :
  Forall2 R l l' -> In a l -> exists b, In b l' /\ R a b.
Proof.
  induction 1 as [|a' b l l' Hab _ IH]; intros Hin; [destruct Hin|].
  destruct Hin as [->|Hin].
  - exists b. split; [left; reflexivity|assumption].
  - destruct (IH Hin) as (b' & H1 & H2). exists b'. split; [right|]; assumption.
Qed.

Lemma Forall2_In_r {A B : Type} (R : A -> B -> Prop) (l : list A) (l' : list B) (b : B) :
  Forall2 R l l' -> In b l' -> exists a, In a l /\ R a b.
Proof.
  induction 1 as [|a b' l l' Hab _ IH]; intros Hin; [destruct Hin|].
  destruct Hin as [->|Hin].
  - exists a. split; [left; reflexivity|assumption].
  - destruct (IH Hin) as (a' & H1 & H2). exists a'. split; [right|]; assumption.
Qed.

Lemma pairs_In {A : Type} (l : list A) (a b : A) :
  In (a, b) (Spec.pairs l) -> In a l /\ In b l.
Proof.
  induction l as [|x l IH]; [intros []|]. cbn [Spec.pairs]. intros H.
  apply in_app_or in H as [H|H].
  - apply in_map_iff in H as (y & [= <- <-] & Hy). split; [left; reflexivity|right; exact Hy].
  - destruct (IH H). split; right; assumption.
Qed.

(** A conflict of [find_conflicts] comes from the check of one pair of the
    flights. *)
Lemma find_conflicts_origin (d : ConflictDetector.t) (flights : list FlightPlan.t)
    (conflicts : list Conflict.t) (c : Conflict.t) :
  ConflictDetector.find_conflicts d flights = Ok conflicts -> In c conflicts ->
  exists flight1 flight2,
    In (flight1, flight2) (Spec.pairs flights) /\
    Spec.closest_approach d flight1 flight2 c.
Proof.
  unfold ConflictDetector.find_conflicts. intros H Hc.
  pose proof (flights_loop_cases d flights) as Hl.
  destruct (ConflictDetector.flights_loop d flights) as [cs|e]; [|discriminate].
  cbn [Py.bind] in H. injection H as <-. destruct Hl as (per & Hper & ->).
  apply (Permutation_in _ (sort_Permutation Conflict.time _)) in Hc.
  apply in_concat in Hc as (r & Hr & Hc).
  destruct (Forall2_In_r _ _ _ _ Hper Hr) as ([f1 f2] & Hin & _ & _ & Hall).
  cbn [fst snd] in Hall. rewrite List.Forall_forall in Hall.
  exists f1, f2. split; [exact Hin|exact (Hall c Hc)].
Qed.

Lemma interpolate_position_some_span (fp : FlightPlan.t) (t : float) (pos : position) :
  FlightPlan.interpolate_position fp t = Ok (Some pos) ->
  Vocab.not_outside fp t = true.
Proof.
  intros H. pose proof (interpolate_position_some_not_nan fp t pos H) as Hn.
  unfold FlightPlan.interpolate_position, FlightPlan.interpolate_position_with in H.
  unfold Vocab.not_outside.
  destruct (Py.first _) as [wf|]; [|discriminate]. cbn [Py.bind] in H.
  destruct (t <? Waypoint.time wf); [discriminate|].
  destruct (Py.last _) as [wl|]; [|discriminate]. cbn [Py.bind] in H.
  destruct (Waypoint.time wl <? t); [discriminate|].
  rewrite Hn. reflexivity.
Qed.

(** X13.  Every conflict [find_conflicts] returns is between two flights
    of the input list, the first one earlier in the list than the second.
    Its time is a number that is neither before the first waypoint nor
    after the last waypoint of either flight, and its two positions are
    the interpolated positions of the two flights at that time. *)
Theorem find_conflicts_within_spans (d : ConflictDetector.t) (flights : list FlightPlan.t)
    (conflicts : list Conflict.t) :
  ConflictDetector.find_conflicts d flights = Ok conflicts ->
  Forall (fun c =>
    exists flight1 flight2,
      In (flight1, flight2) (Spec.pairs flights) /\
      In flight1 flights /\ In flight2 flights /\
      Conflict.uav1_id c = FlightPlan.uav_id flight1 /\
      Conflict.uav2_id c = FlightPlan.uav_id flight2 /\
      Vocab.not_outside flight1 (Conflict.time c) = true /\
      Vocab.not_outside flight2 (Conflict.time c) = true /\
      FlightPlan.interpolate_position flight1 (Conflict.time c)
      = Ok (Some (Conflict.position1 c)) /\
      FlightPlan.interpolate_position flight2 (Conflict.time c)
      = Ok (Some (Conflict.position2 c)))
    conflicts.
Proof.
  intros H. rewrite List.Forall_forall. intros c Hc.
  destruct (find_conflicts_origin d flights conflicts c H Hc) as (f1 & f2 & Hin & Hcl).
  destruct Hcl as (Hid1 & Hid2 & _ & _ & _ & times & _ & _ & [Hp1 Hp2] & _).
  destruct (pairs_In _ _ _ Hin) as [Hin1 Hin2].
  exists f1, f2. repeat split; try assumption.
  - exact (interpolate_position_some_span _ _ _ Hp1).
  - exact (interpolate_position_some_span _ _ _ Hp2).
Qed.

Lemma first_raise {A : Type} (l : list A) (e : Py.exn) :
  Py.first l = Raise e -> l = [] /\ e = Py.IndexError.
Proof. destruct l; simpl; intros H; [injection H as <-; auto|discriminate]. Qed.

Lemma last_raise {A : Type} (l : list A) (e : Py.exn) :
  Py.last l = Raise e -> l = [] /\ e = Py.IndexError.
Proof.
  destruct l as [|a l]; simpl; intros H; [injection H as <-; auto|].
  destruct (last_ok a l) as [b Hb]. simpl in Hb. rewrite Hb in H. discriminate.
Qed.

(** X14.  The pairwise check raises [IndexError] exactly when one of the
    two flights has no waypoint, which the constructor of a flight plan
    rules out. *)
Theorem check_pair_index_error (d : ConflictDetector.t) (f1 f2 : FlightPlan.t) :
  ConflictDetector._check_pair d f1 f2 = Raise Py.IndexError <->
  FlightPlan.waypoints f1 = [] \/ FlightPlan.waypoints f2 = [].
Proof.
  split.
  - unfold ConflictDetector._check_pair.
    destruct (Py.first (FlightPlan.waypoints f1)) as [a1|e1] eqn:Ha1.
    2:{ destruct (first_raise _ _ Ha1) as [H _]. auto. }
    destruct (Py.first (FlightPlan.waypoints f2)) as [a2|e2] eqn:Ha2.
    2:{ destruct (first_raise _ _ Ha2) as [H _]. auto. }
    assert (Hn1 : FlightPlan.waypoints f1 <> []).
    { intros H. rewrite H in Ha1. discriminate. }
    assert (Hn2 : FlightPlan.waypoints f2 <> []).
    { intros H. rewrite H in Ha2. discriminate. }
    destruct (Py.last (FlightPlan.waypoints f1)) as [b1|e1] eqn:Hb1.
    2:{ destruct (last_raise _ _ Hb1) as [H _]. congruence. }
    destruct (Py.last (FlightPlan.waypoints f2)) as [b2|e2] eqn:Hb2.
    2:{ destruct (last_raise _ _ Hb2) as [H _]. congruence. }
    cbn [Py.bind]. destruct (_ && _); [discriminate|].
    destruct (ConflictDetector.sample_times d f1 f2 _ _) as [times|e'] eqn:E; cbn [Py.bind].
    + destruct (ConflictDetector.sample_loop d f1 f2 times _) as [found|e'] eqn:El;
        cbn [Py.bind].
      * destruct (ConflictDetector.at_conflict found) as [[[t p1] p2]|];
          [destruct (_ <? _)|]; discriminate.
      * intros H. injection H as ->.
        pose proof (sample_loop_raise _ _ _ _ _ _ Hn1 Hn2 El). discriminate.
    + intros H. injection H as ->.
      destruct (sample_times_raise _ _ _ _ _ _ E) as [?|[?|?]]; discriminate.
  - intros H. unfold ConflictDetector._check_pair. destruct H as [H|H].
    + rewrite H. reflexivity.
    + rewrite H. destruct (Py.first (FlightPlan.waypoints f1)) as [a1|e1] eqn:Ha1;
        [reflexivity|]. destruct (first_raise _ _ Ha1) as [_ ->]. reflexivity.
Qed.

Lemma sample_loop_time_window (d : ConflictDetector.t) (w : float) (f1 f2 : FlightPlan.t)
    (times : list float) (acc : ConflictDetector.closest) :
  ConflictDetector.sample_loop (Vocab.with_time_window d w) f1 f2 times acc
  = ConflictDetector.sample_loop d f1 f2 times acc.
Proof.
  revert acc. induction times as [|t times IH]; intros acc; [reflexivity|].
  cbn [ConflictDetector.sample_loop].
  destruct (FlightPlan.interpolate_position f1 t) as [[p1|]|]; cbn [Py.bind]; try reflexivity;
    destruct (FlightPlan.interpolate_position f2 t) as [[p2|]|]; cbn [Py.bind];
    try reflexivity; try apply IH.
  change (ConflictDetector.distance_at (Vocab.with_time_window d w) f1 f2 t p1 p2)
    with (ConflictDetector.distance_at d f1 f2 t p1 p2).
  destruct (ConflictDetector.distance_at d f1 f2 t p1 p2); [|reflexivity].
  cbn [Py.bind]. destruct (_ <? _); apply IH.
Qed.

Lemma check_pair_time_window (d : ConflictDetector.t) (w : float) (f1 f2 : FlightPlan.t) :
  ConflictDetector._check_pair (Vocab.with_time_window d w) f1 f2
  = ConflictDetector._check_pair d f1 f2.
Proof.
  unfold ConflictDetector._check_pair.
  destruct (Py.first (FlightPlan.waypoints f1)) as [a1|]; [|reflexivity].
  destruct (Py.first (FlightPlan.waypoints f2)) as [a2|]; [|reflexivity].
  destruct (Py.last (FlightPlan.waypoints f1)) as [b1|]; [|reflexivity].
  destruct (Py.last (FlightPlan.waypoints f2)) as [b2|]; [|reflexivity].
  cbn [Py.bind]. destruct (_ && _); [reflexivity|].
  change (ConflictDetector.sample_times (Vocab.with_time_window d w) f1 f2)
    with (ConflictDetector.sample_times d f1 f2).
  destruct (ConflictDetector.sample_times d f1 f2 _ _) as [times|]; [|reflexivity].
  cbn [Py.bind]. rewrite sample_loop_time_window. reflexivity.
Qed.

Lemma flights_loop_time_window (d : ConflictDetector.t) (w : float)
    (flights : list FlightPlan.t) :
  ConflictDetector.flights_loop (Vocab.with_time_window d w) flights
  = ConflictDetector.flights_loop d flights.
Proof.
  induction flights as [|f rest IH]; [reflexivity|].
  cbn [ConflictDetector.flights_loop]. rewrite IH. f_equal.
  clear IH. induction rest as [|g rest IH]; [reflexivity|].
  cbn [ConflictDetector.pair_loop]. rewrite IH, check_pair_time_window. reflexivity.
Qed.

(** X15.  The look-ahead window [time_window] of the detector is never
    read: [find_conflicts] and [predict_conflicts] return the same result,
    or raise the same exception, whatever its value. *)
Theorem time_window_unused (d : ConflictDetector.t) (time_window : float)
    (flights : list FlightPlan.t) (current_time : float) :
  ConflictDetector.find_conflicts (Vocab.with_time_window d time_window) flights
  = ConflictDetector.find_conflicts d flights /\
  ConflictDetector.predict_conflicts (Vocab.with_time_window d time_window) flights
    current_time
  = ConflictDetector.predict_conflicts d flights current_time.
Proof.
  assert (H : forall fl,
            ConflictDetector.find_conflicts (Vocab.with_time_window d time_window) fl
            = ConflictDetector.find_conflicts d fl).
  { intros fl. unfold ConflictDetector.find_conflicts. rewrite flights_loop_time_window.
    reflexivity. }
  split; [apply H|].
  unfold ConflictDetector.predict_conflicts.
  destruct (ConflictDetector.future_loop flights current_time); [|reflexivity].
  cbn [Py.bind]. apply H.
Qed.

Lemma filter_all {A : Type} (f : A -> bool) (l : list A) :
  Forall (fun a => f a = true) l -> List.filter f l = l.
Proof.
  induction 1 as [|a l Ha _ IH]; [reflexivity|]. simpl. rewrite Ha, IH. reflexivity.
Qed.

Lemma pairs_filter_In {A : Type} (p : A -> bool) (l : list A) (pr : A * A) :
  In pr (Spec.pairs (List.filter p l)) -> In pr (Spec.pairs l).
Proof.
  induction l as [|a l IH]; [intros []|]. cbn [List.filter Spec.pairs].
  destruct (p a).
  - cbn [Spec.pairs]. intros H. apply in_app_or in H as [H|H]; apply in_or_app.
    + left. apply in_map_iff in H as (b & <- & Hb). apply in_map.
      apply filter_In in Hb as [Hb _]. exact Hb.
    + right. apply IH. exact H.
  - intros H. apply in_or_app. right. apply IH. exact H.
Qed.

Lemma future_loop_filter (flights : list FlightPlan.t) (current_time : float) :
  Forall (fun f => FlightPlan.waypoints f <> []) flights ->
  ConflictDetector.future_loop flights current_time
  = Ok (List.filter (Vocab.ends_after current_time) flights).
Proof.
  induction 1 as [|f rest Hf _ IH]; [reflexivity|].
  cbn [ConflictDetector.future_loop List.filter]. unfold Vocab.ends_after at 1.
  destruct (FlightPlan.waypoints f) as [|w l]; [congruence|].
  destruct (last_ok w l) as [wl ->]. cbn [Py.bind]. rewrite IH. reflexivity.
Qed.

Lemma find_conflicts_sublist (d : ConflictDetector.t) (flights flights' : list FlightPlan.t)
    (all : list Conflict.t) :
  (forall pr, In pr (Spec.pairs flights') -> In pr (Spec.pairs flights)) ->
  ConflictDetector.find_conflicts d flights = Ok all ->
  exists some, ConflictDetector.find_conflicts d flights' = Ok some /\
               forall c, In c some -> In c all.
Proof.
  unfold ConflictDetector.find_conflicts. intros Hsub H.
  pose proof (flights_loop_cases d flights) as Hl.
  destruct (ConflictDetector.flights_loop d flights) as [cs|e]; [|discriminate].
  cbn [Py.bind] in H. injection H as <-. destruct Hl as (per & Hper & ->).
  pose proof (flights_loop_cases d flights') as Hl'.
  destruct (ConflictDetector.flights_loop d flights') as [cs'|e].
  - destruct Hl' as (per' & Hper' & ->). cbn [Py.bind]. eexists. split; [reflexivity|].
    intros c Hc.
    apply (Permutation_in _ (sort_Permutation Conflict.time _)) in Hc.
    apply (Permutation_in _ (Permutation_sym (sort_Permutation Conflict.time _))).
    apply in_concat in Hc as (r' & Hr' & Hc).
    destruct (Forall2_In_r _ _ _ _ Hper' Hr') as (pr & Hin & Hpr & _).
    destruct (Forall2_In_l _ _ _ _ Hper (Hsub pr Hin)) as (r & Hr & Hpr2 & _).
    assert (r = r') by congruence. subst r'.
    apply in_concat. exists r. split; assumption.
  - exfalso. apply List.Exists_exists in Hl' as (pr & Hin & Hraise).
    destruct (Forall2_In_l _ _ _ _ Hper (Hsub pr Hin)) as (r & _ & Hpr & _). congruence.
Qed.

(** X16.  For flights that each have a waypoint, [predict_conflicts] is
    [find_conflicts] on the flights whose last waypoint is later than
    [current_time].  When [find_conflicts] returns on the whole list,
    [predict_conflicts] returns too, and every conflict it predicts is one
    of the conflicts of the whole list; when every flight ends later than
    [current_time] it predicts all of them, whenever they occur. *)
Theorem predict_conflicts_subset (d : ConflictDetector.t) (flights : list FlightPlan.t)
    (current_time : float) (all : list Conflict.t) :
  Forall (fun f => FlightPlan.waypoints f <> []) flights ->
  ConflictDetector.find_conflicts d flights = Ok all ->
  exists predicted,
    ConflictDetector.predict_conflicts d flights current_time = Ok predicted /\
    ConflictDetector.find_conflicts d (List.filter (Vocab.ends_after current_time) flights)
    = Ok predicted /\
    (forall c, In c predicted -> In c all) /\
    (Forall (fun f => Vocab.ends_after current_time f = true) flights -> predicted = all).
Proof.
  intros Hne Hall. unfold ConflictDetector.predict_conflicts.
  rewrite future_loop_filter by assumption. cbn [Py.bind].
  destruct (find_conflicts_sublist d flights
              (List.filter (Vocab.ends_after current_time) flights) all
              (pairs_filter_In _ flights) Hall) as (some & H1 & H2).
  exists some. repeat split; try assumption.
  intros Hkeep. rewrite filter_all in H1 by assumption. congruence.
Qed.

End Reports.

(** Examples on the platform of the examples. *)

Section ReportsExamples.

Import IEEE.
#[local] Existing Instance Examples.platform.

Lemma find_conflicts_within_spans_witness :
  Forall (fun c =>
    exists flight1 flight2,
      In (flight1, flight2) (Spec.pairs [Examples.eastbound; Examples.northbound]) /\
      In flight1 [Examples.eastbound; Examples.northbound] /\
      In flight2 [Examples.eastbound; Examples.northbound] /\
      Conflict.uav1_id c = FlightPlan.uav_id flight1 /\
      Conflict.uav2_id c = FlightPlan.uav_id flight2 /\
      Vocab.not_outside flight1 (Conflict.time c) = true /\
      Vocab.not_outside flight2 (Conflict.time c) = true /\
      FlightPlan.interpolate_position flight1 (Conflict.time c)
      = Ok (Some (Conflict.position1 c)) /\
      FlightPlan.interpolate_position flight2 (Conflict.time c)
      = Ok (Some (Conflict.position2 c)))
    [Examples.crossing].
Proof.
  apply (find_conflicts_within_spans Examples.detector
           [Examples.eastbound; Examples.northbound] [Examples.crossing]).
  vm_compute. reflexivity.
Defined.

Lemma predict_conflicts_subset_witness :
  exists predicted,
    ConflictDetector.predict_conflicts Examples.detector
      [Examples.eastbound; Examples.early; Examples.northbound] 50 = Ok predicted /\
    ConflictDetector.find_conflicts Examples.detector
      (List.filter (Vocab.ends_after 50)
         [Examples.eastbound; Examples.early; Examples.northbound])
    = Ok predicted /\
    (forall c, In c predicted -> In c [Examples.crossing]) /\
    (Forall (fun f => Vocab.ends_after 50 f = true)
       [Examples.eastbound; Examples.early; Examples.northbound] ->
     predicted = [Examples.crossing]).
Proof.
  apply (predict_conflicts_subset Examples.detector
           [Examples.eastbound; Examples.early; Examples.northbound] 50 [Examples.crossing]).
  - repeat constructor; discriminate.
  - vm_compute. reflexivity.
Defined.

End ReportsExamples.

(** * No sample is missed *)

Section Completeness.

Import IEEE.
Context {platform : Platform.t}.

Lemma ltb_below_infinity (a b : float) : (a <? b) = true -> (a <? infinity) = true.
Proof.
  rewrite !FloatAxioms.ltb_spec. change (Prim2SF infinity) with (S754_infinity false).
  unfold SFltb.
  destruct (Prim2SF a) as [sa|sa| |sa ma ea], (Prim2SF b) as [sb|sb| |sb mb eb];
    simpl; try discriminate; try reflexivity;
    destruct sa; try reflexivity; try discriminate; destruct sb; discriminate.
Qed.

(** While no sample has been recorded the running minimum is infinite. *)
Lemma sample_loop_none (d : ConflictDetector.t) (f1 f2 : FlightPlan.t)
    (times : list float) (acc found : ConflictDetector.closest) :
  ConflictDetector.sample_loop d f1 f2 times acc = Ok found ->
  (ConflictDetector.at_conflict acc = None -> ConflictDetector.min_distance acc = infinity) ->
  ConflictDetector.at_conflict found = None -> ConflictDetector.min_distance found = infinity.
Proof.
  revert acc. induction times as [|t times IH]; intros acc Hrun Hinv.
  - simpl in Hrun. injection Hrun as <-. exact Hinv.
  - cbn [ConflictDetector.sample_loop] in Hrun.
    apply bind_Ok in Hrun as (pos1 & H1 & Hrun).
    apply bind_Ok in Hrun as (pos2 & H2 & Hrun).
    destruct pos1 as [pos1|]; [|exact (IH _ Hrun Hinv)].
    destruct pos2 as [pos2|]; [|exact (IH _ Hrun Hinv)].
    apply bind_Ok in Hrun as (distance & Hd & Hrun).
    destruct (_ <? _); [|exact (IH _ Hrun Hinv)].
    apply (IH _ Hrun). cbn. discriminate.
Qed.

(** The pairwise check misses no sample: when at one of its sample times
    the two flights are closer than the safety distance, it reports a
    conflict, at a distance that is not greater. *)
Lemma check_pair_complete (d : ConflictDetector.t) (f1 f2 : FlightPlan.t)
    (cs : list Conflict.t) (times : list float) (t : float) (p1 p2 : position)
    (distance : float) :
  ConflictDetector._check_pair d f1 f2 = Ok cs ->
  Spec.pair_sample_times d f1 f2 = Ok times -> In t times ->
  Spec.sampled_at f1 f2 t p1 p2 ->
  ConflictDetector.distance_at d f1 f2 t p1 p2 = Ok distance ->
  (distance <? ConflictDetector.safety_distance d) = true ->
  exists c, cs = [c] /\ Spec.closest_approach d f1 f2 c /\
            (Conflict.distance c <=? distance) = true.
Proof.
  intros Hrun Htimes Hin Hs Hdist Hclose.
  pose proof (check_pair_closest d f1 f2 cs Hrun) as Hcl.
  unfold ConflictDetector._check_pair in Hrun. unfold Spec.pair_sample_times in Htimes.
  destruct (Py.first (FlightPlan.waypoints f1)) as [a1|] eqn:Ha1; [|discriminate].
  destruct (Py.first (FlightPlan.waypoints f2)) as [a2|] eqn:Ha2; [|discriminate].
  destruct (Py.last (FlightPlan.waypoints f1)) as [b1|] eqn:Hb1; [|discriminate].
  destruct (Py.last (FlightPlan.waypoints f2)) as [b2|] eqn:Hb2; [|discriminate].
  cbn [Py.bind] in Hrun, Htimes.
  pose proof (interpolate_position_some_span _ _ _ (proj1 Hs)) as Hs1.
  pose proof (interpolate_position_some_span _ _ _ (proj2 Hs)) as Hs2.
  unfold Vocab.not_outside in Hs1, Hs2. rewrite Ha1, Hb1 in Hs1. rewrite Ha2, Hb2 in Hs2.
  apply andb_true_iff in Hs1 as [Hs1 Hl1]. apply andb_true_iff in Hs1 as [Hn Hf1].
  apply andb_true_iff in Hs2 as [Hs2 Hl2]. apply andb_true_iff in Hs2 as [_ Hf2].
  apply negb_true_iff in Hf1, Hl1, Hf2, Hl2.
  match type of Hrun with (if ?g then _ else _) = _ => destruct g eqn:Hguard end.
  { exfalso. apply andb_true_iff in Hguard as [Hg _].
    unfold Py.max, Py.min in Hg. cbn [Py.num_ltb Py.float_Num] in Hg.
    clear -Hg Hn Hf1 Hl1 Hf2 Hl2.
    destruct (Waypoint.time a1 <? Waypoint.time a2) eqn:E1;
      destruct (Waypoint.time b2 <? Waypoint.time b1) eqn:E2; float_order. }
  rewrite Htimes in Hrun. cbn [Py.bind] in Hrun.
  apply bind_Ok in Hrun as (found & Hloop & Hrun).
  assert (Hinit : Spec.closest_over d f1 f2 [] (ConflictDetector.mk_closest infinity None)).
  { repeat split. intros t' q1 q2 []. }
  pose proof (sample_loop_closest d f1 f2 times [] _ found Hloop Hinit) as (Hnan & Hmin & Hat).
  pose proof (sample_loop_none d f1 f2 times _ found Hloop (fun _ => eq_refl)) as Hnone.
  cbn [app] in Hmin. destruct (Hmin t p1 p2 Hin Hs) as (distance' & Hd' & Hmin').
  assert (distance' = distance) by congruence. subst distance'. clear Hmin.
  rename Hmin' into Hmin.
  assert (Hle : (ConflictDetector.min_distance found <=? distance) = true).
  { clear -Hmin Hnan Hclose. float_order. }
  destruct (ConflictDetector.at_conflict found) as [[[t' q1] q2]|].
  - replace (ConflictDetector.min_distance found <? ConflictDetector.safety_distance d)
      with true in Hrun by (symmetry; clear -Hle Hclose; float_order).
    injection Hrun as <-. eexists. split; [reflexivity|].
    destruct Hcl as [Hcl|(c & Hc & Hcl)]; [discriminate|].
    injection Hc as <-. split; [exact Hcl|exact Hle].
  - exfalso. rewrite (Hnone eq_refl) in Hmin.
    rewrite (ltb_below_infinity _ _ Hclose) in Hmin. discriminate.
Qed.

(** X17.  [find_conflicts] misses no sample.  When it returns, and at one
    of the sample times of a pair of the flights both flights have a
    position and the weighted distance the program computes there is
    below the safety distance, the returned list holds a conflict of that
    pair, its closest approach, at a distance that is not greater. *)
Theorem find_conflicts_complete (d : ConflictDetector.t) (flights : list FlightPlan.t)
    (conflicts : list Conflict.t) (flight1 flight2 : FlightPlan.t)
    (times : list float) (t : float) (p1 p2 : position) (distance : float) :
  ConflictDetector.find_conflicts d flights = Ok conflicts ->
  In (flight1, flight2) (Spec.pairs flights) ->
  Spec.pair_sample_times d flight1 flight2 = Ok times -> In t times ->
  Spec.sampled_at flight1 flight2 t p1 p2 ->
  ConflictDetector.distance_at d flight1 flight2 t p1 p2 = Ok distance ->
  (distance <? ConflictDetector.safety_distance d) = true ->
  exists c, In c conflicts /\ Spec.closest_approach d flight1 flight2 c /\
            (Conflict.distance c <=? distance) = true.
Proof.
  unfold ConflictDetector.find_conflicts. intros H Hpair Htimes Hin Hs Hdist Hclose.
  pose proof (flights_loop_cases d flights) as Hl.
  destruct (ConflictDetector.flights_loop d flights) as [cs|e]; [|discriminate].
  cbn [Py.bind] in H. injection H as <-. destruct Hl as (per & Hper & ->).
  destruct (Forall2_In_l _ _ _ _ Hper Hpair) as (r & Hr & Hrun & _).
  cbn [fst snd] in Hrun.
  destruct (check_pair_complete d flight1 flight2 r times t p1 p2 distance
              Hrun Htimes Hin Hs Hdist Hclose) as (c & -> & Hcl & Hle).
  exists c. split; [|split; assumption].
  apply (Permutation_in _ (Permutation_sym (sort_Permutation Conflict.time _))).
  apply in_concat. exists [c]. split; [exact Hr|left; reflexivity].
Qed.

End Completeness.

(** Examples on the platform of the examples. *)

Section CompletenessExamples.

Import IEEE.
#[local] Existing Instance Examples.platform.

Lemma find_conflicts_complete_witness :
  exists c, In c [Examples.departure] /\
            Spec.closest_approach Examples.detector Examples.hover Examples.leaving c /\
            (Conflict.distance c <=? 5) = true.
Proof.
  apply (find_conflicts_complete Examples.detector [Examples.hover; Examples.leaving]
           [Examples.departure] Examples.hover Examples.leaving Examples.departure_times 0
           (0, 0, 0) (0, 5, 0) 5).
  - vm_compute. reflexivity.
  - left. reflexivity.
  - vm_compute. reflexivity.
  - left. reflexivity.
  - split; vm_compute; reflexivity.
  - vm_compute. reflexivity.
  - vm_compute. reflexivity.
Defined.

End CompletenessExamples.

Section Matrix.
Context {platform : Platform.t}.

Lemma cell_zeros (n a b : nat) : Vocab.cell (np.zeros n) a b = false.
Proof.
  unfold Vocab.cell, np.zeros.
  destruct (_ !! a) as [row|] eqn:E; [|reflexivity].
  apply list_elem_of_lookup_2 in E. apply list_elem_of_In, repeat_spec in E. subst row.
  destruct (_ !! b) as [v|] eqn:E; [|reflexivity].
  apply list_elem_of_lookup_2 in E. apply list_elem_of_In, repeat_spec in E. exact E.
Qed.

Lemma zeros_shape (n : nat) : Vocab.square_shape n (np.zeros n).
Proof.
  unfold Vocab.square_shape, np.zeros. split; [apply repeat_length|].
  rewrite List.Forall_forall. intros row H. apply repeat_spec in H. subst row.
  apply repeat_length.
Qed.

(** An assignment inside the shape returns, keeps the shape and changes
    one entry. *)
Lemma setitem_spec (n : nat) (m : np.matrix) (i j : nat) :
  Vocab.square_shape n m -> (i < n)%nat -> (j < n)%nat ->
  exists m', np.setitem m i j true = Ok m' /\ Vocab.square_shape n m' /\
    forall a b, Vocab.cell m' a b = Vocab.cell m a b || ((a =? i)%nat && (b =? j)%nat).
Proof.
  intros [Hlen Hrows] Hi Hj. unfold np.setitem.
  destruct (m !! i) as [row|] eqn:E.
  2:{ apply lookup_ge_None in E. lia. }
  assert (Hrow : length row = n).
  { rewrite List.Forall_forall in Hrows. apply Hrows.
    apply list_elem_of_In. eapply list_elem_of_lookup_2. exact E. }
  replace (j <? length row)%nat with true by (symmetry; apply Nat.ltb_lt; lia).
  eexists. split; [reflexivity|]. split.
  - split; [rewrite length_insert; exact Hlen|].
    rewrite List.Forall_forall in *. intros r Hr.
    apply list_elem_of_In, list_elem_of_lookup in Hr as [k Hk].
    destruct (Nat.eq_dec k i) as [->|Hne].
    + rewrite list_lookup_insert_eq in Hk by lia. injection Hk as <-.
      rewrite length_insert. exact Hrow.
    + rewrite list_lookup_insert_ne in Hk by congruence.
      apply Hrows. apply list_elem_of_In. eapply list_elem_of_lookup_2. exact Hk.
  - intros a b. unfold Vocab.cell.
    destruct (Nat.eq_dec a i) as [->|Hne].
    + rewrite list_lookup_insert_eq by lia. rewrite E, Nat.eqb_refl. cbn [andb].
      destruct (Nat.eq_dec b j) as [->|Hne].
      * rewrite list_lookup_insert_eq by lia. rewrite Nat.eqb_refl, orb_true_r. reflexivity.
      * rewrite list_lookup_insert_ne by congruence.
        apply Nat.eqb_neq in Hne. rewrite Hne, orb_false_r. reflexivity.
    + rewrite list_lookup_insert_ne by congruence.
      apply Nat.eqb_neq in Hne. rewrite Hne. cbn [andb]. rewrite orb_false_r. reflexivity.
Qed.

Lemma matrix_loop_spec (n : nat) (flight_map : gmap string nat) (conflicts : list Conflict.t)
    (m : np.matrix) :
  Vocab.square_shape n m ->
  Forall (fun c => exists i j, flight_map !! Conflict.uav1_id c = Some i /\
                               flight_map !! Conflict.uav2_id c = Some j /\
                               (i < n)%nat /\ (j < n)%nat) conflicts ->
  exists m', ConflictDetector.matrix_loop flight_map conflicts m = inl m' /\
    Vocab.square_shape n m' /\
    forall a b, Vocab.cell m' a b
                = Vocab.cell m a b || existsb (Vocab.links flight_map a b) conflicts.
Proof.
  intros Hm H. revert m Hm. induction H as [|c rest (i & j & H1 & H2 & Hi & Hj) _ IH];
    intros m Hm.
  - exists m. split; [reflexivity|]. split; [assumption|]. intros a b.
    cbn [existsb]. rewrite orb_false_r. reflexivity.
  - cbn [ConflictDetector.matrix_loop]. rewrite H1, H2.
    destruct (setitem_spec n m i j Hm Hi Hj) as (m1 & -> & Hm1 & Hc1).
    destruct (setitem_spec n m1 j i Hm1 Hj Hi) as (m2 & -> & Hm2 & Hc2).
    destruct (IH m2 Hm2) as (m' & -> & Hm' & Hc').
    exists m'. split; [reflexivity|]. split; [assumption|]. intros a b.
    rewrite Hc', Hc2, Hc1. cbn [existsb]. unfold Vocab.links at 2. rewrite H1, H2.
    rewrite (Nat.eqb_sym i a), (Nat.eqb_sym j b), (Nat.eqb_sym i b), (Nat.eqb_sym j a).
    rewrite <- !orb_assoc, (andb_comm (b =? i)%nat). reflexivity.
Qed.

(** Every identifier of a flight is a key of the dictionary, with an index
    inside the list. *)
Lemma flight_map_from_lookup (flights : list FlightPlan.t) (i : nat) (m : gmap string nat)
    (key : string) :
  (forall k, m !! key = Some k -> (k < i)%nat) ->
  (In key (map FlightPlan.uav_id flights) \/ is_Some (m !! key)) ->
  exists k, ConflictDetector.flight_map_from i flights m !! key = Some k /\
            (k < i + length flights)%nat.
Proof.
  revert i m. induction flights as [|f rest IH]; intros i m Hb H.
  - destruct H as [[]|[k Hk]]. exists k. split; [exact Hk|]. specialize (Hb k Hk). simpl. lia.
  - cbn [ConflictDetector.flight_map_from length].
    destruct (IH (S i) (<[FlightPlan.uav_id f := i]> m)) as (k & Hk & Hlt).
    + intros k. destruct (String.eqb_spec (FlightPlan.uav_id f) key) as [->|Hne].
      * rewrite lookup_insert_eq. intros [= <-]. lia.
      * rewrite lookup_insert_ne by assumption. intros Hk. specialize (Hb k Hk). lia.
    + destruct (String.eqb_spec (FlightPlan.uav_id f) key) as [->|Hne].
      * right. rewrite lookup_insert_eq. eauto.
      * destruct H as [[H|H]|H]; [congruence|left; exact H|].
        right. rewrite lookup_insert_ne by assumption. exact H.
    + exists k. split; [exact Hk|lia].
Qed.

Lemma flight_map_from_absent (flights : list FlightPlan.t) (i : nat) (m : gmap string nat)
    (key : string) :
  ~ In key (map FlightPlan.uav_id flights) ->
  ConflictDetector.flight_map_from i flights m !! key = m !! key.
Proof.
  revert i m. induction flights as [|f rest IH]; intros i m H; [reflexivity|].
  cbn [ConflictDetector.flight_map_from]. rewrite IH by (intros Hin; apply H; right; exact Hin).
  apply lookup_insert_ne. intros Heq. apply H. left. exact Heq.
Qed.

(** The dictionary sends an identifier to the position of the last flight
    that carries it. *)
Lemma flight_map_from_last (flights : list FlightPlan.t) (base : nat) (m : gmap string nat)
    (i : nat) (f : FlightPlan.t) :
  nth_error flights i = Some f ->
  (forall j g, nth_error flights j = Some g ->
               FlightPlan.uav_id g = FlightPlan.uav_id f -> (j <= i)%nat) ->
  ConflictDetector.flight_map_from base flights m !! FlightPlan.uav_id f
  = Some (base + i)%nat.
Proof.
  revert base m i. induction flights as [|h rest IH]; intros base m i Hi Hlast.
  - destruct i; discriminate Hi.
  - cbn [ConflictDetector.flight_map_from]. destruct i as [|i].
    + simpl in Hi. injection Hi as ->.
      rewrite flight_map_from_absent.
      * rewrite lookup_insert_eq. f_equal. lia.
      * intros Hin. apply in_map_iff in Hin as (g & Hg & Hin).
        apply In_nth_error in Hin as [j Hj].
        specialize (Hlast (S j) g Hj Hg). lia.
    + simpl in Hi. rewrite (IH (S base) _ i Hi).
      * f_equal. lia.
      * intros j g Hj Hg. specialize (Hlast (S j) g Hj Hg). lia.
Qed.

(** X18.  [get_conflict_matrix] raises only what [find_conflicts] raises:
    no dictionary lookup and no array assignment fails.  Otherwise it
    returns a symmetric matrix with one row and one column per flight,
    whose entry at rows [a] and [b] is true exactly when some conflict has
    its two identifiers mapped to [a] and [b], in either order; an
    identifier is mapped to the position of the last flight that carries
    it. *)
Theorem get_conflict_matrix_symmetric (d : ConflictDetector.t) (flights : list FlightPlan.t) :
  let flight_map := ConflictDetector.flight_map_from 0 flights ∅ in
  (forall i f,
     nth_error flights i = Some f ->
     (forall j g, nth_error flights j = Some g ->
                  FlightPlan.uav_id g = FlightPlan.uav_id f -> (j <= i)%nat) ->
     flight_map !! FlightPlan.uav_id f = Some i) /\
  match ConflictDetector.find_conflicts d flights with
  | Ok conflicts =>
      exists matrix,
        ConflictDetector.get_conflict_matrix d flights = inl matrix /\
        Vocab.square_shape (length flights) matrix /\
        (forall a b, Vocab.cell matrix a b = Vocab.cell matrix b a) /\
        (forall a b, Vocab.cell matrix a b
                     = existsb (Vocab.links flight_map a b) conflicts)
  | Raise e =>
      ConflictDetector.get_conflict_matrix d flights = inr (ConflictDetector.Exn e)
  end.
Proof.
  cbv zeta. split.
  { intros i f Hi Hlast. exact (flight_map_from_last flights 0 ∅ i f Hi Hlast). }
  unfold ConflictDetector.get_conflict_matrix.
  destruct (ConflictDetector.find_conflicts d flights) as [conflicts|e] eqn:E; [|reflexivity].
  assert (Hids : Forall (fun c =>
            In (Conflict.uav1_id c) (map FlightPlan.uav_id flights) /\
            In (Conflict.uav2_id c) (map FlightPlan.uav_id flights)) conflicts).
  { rewrite List.Forall_forall. intros c Hc.
    destruct (find_conflicts_origin d flights conflicts c E Hc) as (f1 & f2 & Hin & Hcl).
    destruct Hcl as (-> & -> & _). apply pairs_In in Hin as [H1 H2].
    split; apply in_map; assumption. }
  destruct (matrix_loop_spec (length flights) (ConflictDetector.flight_map_from 0 flights ∅)
              conflicts (np.zeros (length flights)) (zeros_shape _))
    as (m & Hm & Hshape & Hcell).
  { eapply List.Forall_impl; [|exact Hids]. intros c [H1 H2].
    destruct (flight_map_from_lookup flights 0 ∅ (Conflict.uav1_id c)) as (i & Hi & Hlt);
      [intros k; rewrite lookup_empty; discriminate|left; exact H1|].
    destruct (flight_map_from_lookup flights 0 ∅ (Conflict.uav2_id c)) as (j & Hj & Hlt');
      [intros k; rewrite lookup_empty; discriminate|left; exact H2|].
    exists i, j. auto. }
  exists m. split; [exact Hm|]. split; [exact Hshape|].
  assert (Hc : forall a b, Vocab.cell m a b
            = existsb (Vocab.links (ConflictDetector.flight_map_from 0 flights ∅) a b)
                conflicts).
  { intros a b. rewrite Hcell, cell_zeros. reflexivity. }
  split; [|exact Hc]. intros a b. rewrite !Hc. clear.
  induction conflicts as [|c rest IH]; [reflexivity|]. cbn [existsb]. rewrite IH. f_equal.
  unfold Vocab.links.
  destruct (ConflictDetector.flight_map_from 0 flights ∅ !! Conflict.uav1_id c);
    destruct (ConflictDetector.flight_map_from 0 flights ∅ !! Conflict.uav2_id c);
    try reflexivity. apply orb_comm.
Qed.

End Matrix.

(** * The schedule list and the results of the service *)

Section Schedules.

Import IEEE MissionVerificationService Spec.
Context {platform : Platform.t}.

Lemma remove_loop_absent (uav_id : string) (before rest : list FlightPlan.t) (st : state) :
  Forall (fun f => ~ Vocab.named uav_id f) rest ->
  remove_loop uav_id before rest st = (Ok false, st).
Proof.
  intros H. revert before. induction H as [|f rest Hf _ IH]; intros before; [reflexivity|].
  cbn [remove_loop]. apply String.eqb_neq in Hf. rewrite Hf. apply IH.
Qed.

Lemma remove_loop_present (uav_id : string) (before pre post : list FlightPlan.t)
    (f : FlightPlan.t) (st : state) :
  Forall (fun g => ~ Vocab.named uav_id g) pre -> Vocab.named uav_id f ->
  remove_loop uav_id before (pre ++ f :: post) st
  = (Ok true,
     mk_state (Vocab.with_schedules (self st) (before ++ pre ++ post))
       (stdout st ++ [RemovedSchedule uav_id])).
Proof.
  intros H Hf. revert before. induction H as [|g pre Hg _ IH]; intros before.
  - cbn [app remove_loop]. apply String.eqb_eq in Hf. rewrite Hf. reflexivity.
  - cbn [app remove_loop]. apply String.eqb_neq in Hg. rewrite Hg.
    rewrite IH, <- app_assoc. reflexivity.
Qed.

(** X19.  [remove_simulated_schedule] returns false and leaves the service
    and the output untouched when no scheduled flight has the identifier.
    Otherwise it returns true, prints one line, and removes the first
    scheduled flight with that identifier and nothing else: the flights
    before and after it, later ones with the same identifier included,
    stay in their order. *)
Theorem remove_simulated_schedule_first (uav_id : string) (st : state) :
  (Forall (fun f => ~ Vocab.named uav_id f) (simulated_schedules (self st)) ->
   remove_simulated_schedule uav_id st = (Ok false, st)) /\
  (forall pre f post,
     simulated_schedules (self st) = pre ++ f :: post ->
     Forall (fun g => ~ Vocab.named uav_id g) pre -> Vocab.named uav_id f ->
     remove_simulated_schedule uav_id st
     = (Ok true,
        mk_state (Vocab.with_schedules (self st) (pre ++ post))
          (stdout st ++ [RemovedSchedule uav_id]))).
Proof.
  unfold remove_simulated_schedule, bind, get. split.
  - intros H. apply remove_loop_absent. exact H.
  - intros pre f post -> Hpre Hf. apply (remove_loop_present uav_id [] pre post f st Hpre Hf).
Qed.

(** X20.  Registering a flight whose identifier no scheduled flight has
    and then removing that identifier gives back the service object as it
    was: the removal returns true and the schedule list, the safety
    distance, the time step and the detector are those before the
    registration; the output has grown by the two lines printed. *)
Theorem add_then_remove (flight : FlightPlan.t) (st : state) :
  Forall (fun f => ~ Vocab.named (FlightPlan.uav_id flight) f)
    (simulated_schedules (self st)) ->
  fst (add_simulated_schedule flight st) = Ok tt /\
  remove_simulated_schedule (FlightPlan.uav_id flight) (snd (add_simulated_schedule flight st))
  = (Ok true,
     mk_state (self st)
       (stdout st ++ [AddedSchedule (FlightPlan.uav_id flight);
                      RemovedSchedule (FlightPlan.uav_id flight)])).
Proof.
  intros H. split; [reflexivity|].
  unfold remove_simulated_schedule, bind, get.
  change (simulated_schedules (self (snd (add_simulated_schedule flight st))))
    with (simulated_schedules (self st) ++ [flight]).
  rewrite (remove_loop_present (FlightPlan.uav_id flight) [] (simulated_schedules (self st)) []
             flight _ H eq_refl).
  cbn [app]. rewrite app_nil_r. destruct st as [[l sd ts det] out].
  cbn. rewrite <- app_assoc. reflexivity.
Qed.

Lemma aggregate_app (d : ConflictDetector.t) (p : FlightPlan.t) (l l' : list FlightPlan.t)
    (acc : list Conflict.t) :
  aggregate d p (l ++ l') acc = (r <- aggregate d p l acc ;; aggregate d p l' r).
Proof.
  revert acc. induction l as [|s l IH]; intros acc; [reflexivity|].
  cbn [app aggregate].
  destruct (ConflictDetector.find_conflicts d [p; s]) as [cs|e]; [|reflexivity].
  cbn [Py.bind]. apply IH.
Qed.

(** X21.  Registering one more flight can only add conflicts to the
    verification of a mission: when [verify_mission] returns a result and
    the check of the mission against the new flight returns, verifying
    again after the registration returns the earlier conflicts followed by
    those with the new flight, so a mission that was in conflict is not
    cleared. *)
Theorem verify_mission_after_add (primary_mission flight : FlightPlan.t) (verbose : bool)
    (st : state) (r : VerificationResult.t) (cs : list Conflict.t) :
  fst (verify_mission primary_mission verbose st) = Ok r ->
  ConflictDetector.find_conflicts (detector (self st)) [primary_mission; flight] = Ok cs ->
  exists r',
    fst (verify_mission primary_mission verbose (snd (add_simulated_schedule flight st)))
    = Ok r' /\
    VerificationResult.conflicts r'
    = VerificationResult.conflicts r ++ List.filter (involves primary_mission) cs /\
    (VerificationResult.is_clear r' = true -> VerificationResult.is_clear r = true).
Proof.
  intros Hr Hcs.
  destruct (verify_mission_run primary_mission verbose st) as (out & _ & E).
  rewrite E in Hr. cbn [fst] in Hr.
  destruct (verify_mission_run primary_mission verbose (snd (add_simulated_schedule flight st)))
    as (out' & _ & E').
  rewrite E'. cbn [fst].
  change (simulated_schedules (self (snd (add_simulated_schedule flight st))))
    with (simulated_schedules (self st) ++ [flight]).
  change (detector (self (snd (add_simulated_schedule flight st)))) with (detector (self st)).
  rewrite aggregate_app.
  destruct (aggregate (detector (self st)) primary_mission (simulated_schedules (self st)) [])
    as [all|e]; [|discriminate].
  injection Hr as <-. cbn [Py.bind aggregate]. rewrite Hcs. cbn [Py.bind].
  eexists. split; [reflexivity|]. split; [reflexivity|].
  unfold VerificationResult.is_clear. cbn [VerificationResult.status].
  rewrite length_app. destruct all as [|c all]; [reflexivity|]. simpl. discriminate.
Qed.

Lemma checked_unique (d : ConflictDetector.t) (p : FlightPlan.t) (l : list FlightPlan.t)
    (per per' : list (list Conflict.t)) :
  Forall2 (checked d p) l per -> Forall2 (checked d p) l per' -> per = per'.
Proof.
  intros H. revert per'. induction H as [|s cs l per Hs _ IH]; intros per' H'.
  - inversion H'. reflexivity.
  - inversion H' as [|s' cs' l' per'' Hs' Hrest]; subst.
    unfold checked in Hs, Hs'. f_equal; [congruence|apply IH; assumption].
Qed.

Lemma aggregate_checked (d : ConflictDetector.t) (p : FlightPlan.t) (l : list FlightPlan.t)
    (per : list (list Conflict.t)) (acc : list Conflict.t) :
  Forall2 (checked d p) l per -> aggregate d p l acc = Ok (acc ++ aggregated p per).
Proof.
  intros H. pose proof (aggregate_cases d p l acc) as Hc.
  destruct (aggregate d p l acc) as [all|e].
  - destruct Hc as (per' & Hper' & ->). rewrite (checked_unique d p l per per' H Hper').
    reflexivity.
  - exfalso. apply List.Exists_exists in Hc as (s & Hin & Hraise).
    destruct (Forall2_In_l _ _ _ _ H Hin) as (cs & _ & Hchk). unfold checked in Hchk.
    congruence.
Qed.

Lemma first_named_split (uav_id : string) (l : list FlightPlan.t) :
  Forall (fun f => ~ Vocab.named uav_id f) l \/
  exists pre f post,
    l = pre ++ f :: post /\ Forall (fun g => ~ Vocab.named uav_id g) pre /\
    Vocab.named uav_id f.
Proof.
  induction l as [|a l IH]; [left; constructor|].
  destruct (String.eqb_spec (FlightPlan.uav_id a) uav_id) as [Heq|Hne].
  - right. exists [], a, l. split; [reflexivity|]. split; [constructor|exact Heq].
  - destruct IH as [IH|(pre & f & post & -> & Hpre & Hf)].
    + left. constructor; assumption.
    + right. exists (a :: pre), f, post. split; [reflexivity|].
      split; [constructor; assumption|exact Hf].
Qed.

Lemma remove_simulated_schedule_cases (uav_id : string) (st : state) :
  remove_simulated_schedule uav_id st = (Ok false, st) \/
  exists pre f post,
    simulated_schedules (self st) = pre ++ f :: post /\
    remove_simulated_schedule uav_id st
    = (Ok true,
       mk_state (Vocab.with_schedules (self st) (pre ++ post))
         (stdout st ++ [RemovedSchedule uav_id])).
Proof.
  unfold remove_simulated_schedule, bind, get.
  destruct (first_named_split uav_id (simulated_schedules (self st)))
    as [H|(pre & f & post & Hl & Hpre & Hf)].
  - left. apply remove_loop_absent. exact H.
  - right. exists pre, f, post. split; [exact Hl|]. rewrite Hl.
    apply (remove_loop_present uav_id [] pre post f st Hpre Hf).
Qed.

(** X22.  Removing a scheduled flight can only remove conflicts from the
    verification of a mission: when [verify_mission] returns a result,
    verifying again after [remove_simulated_schedule], whether or not it
    found the identifier, returns a result too, each of its conflicts is
    one of the earlier result, and a mission that was clear stays clear. *)
Theorem verify_mission_after_remove (primary_mission : FlightPlan.t) (verbose : bool)
    (uav_id : string) (st : state) (r : VerificationResult.t) :
  fst (verify_mission primary_mission verbose st) = Ok r ->
  exists r',
    fst (verify_mission primary_mission verbose (snd (remove_simulated_schedule uav_id st)))
    = Ok r' /\
    (forall c, In c (VerificationResult.conflicts r') -> In c (VerificationResult.conflicts r)) /\
    (VerificationResult.is_clear r = true -> VerificationResult.is_clear r' = true).
Proof.
  intros Hr.
  destruct (verify_mission_run primary_mission verbose st) as (out & _ & E).
  rewrite E in Hr. cbn [fst] in Hr.
  pose proof (aggregate_cases (detector (self st)) primary_mission
                (simulated_schedules (self st)) []) as Hagg.
  destruct (aggregate _ _ _ _) as [all|e]; [|discriminate]. injection Hr as <-.
  destruct Hagg as (per & Hper & ->). cbn [app VerificationResult.conflicts].
  destruct (remove_simulated_schedule_cases uav_id st) as [Hsame|Hcut].
  - rewrite Hsame. cbn [snd]. rewrite E. cbn [fst].
    eexists. split; [reflexivity|]. split; [auto|]. auto.
  - destruct Hcut as (pre & f & post & Hl & ->). cbn [snd].
    destruct (verify_mission_run primary_mission verbose
                (mk_state (Vocab.with_schedules (self st) (pre ++ post))
                   (stdout st ++ [RemovedSchedule uav_id]))) as (out' & _ & ->).
    cbn [fst self Vocab.with_schedules simulated_schedules detector].
    rewrite Hl in Hper. apply Forall2_app_inv_l in Hper as (per1 & per2' & H1 & H2 & ->).
    inversion H2 as [|f' cs post' per2 Hf Hpost]; subst.
    rewrite (aggregate_checked _ _ (pre ++ post) (per1 ++ per2) []
               (Forall2_app H1 Hpost)).
    cbn [app]. eexists. split; [reflexivity|].
    cbn [VerificationResult.conflicts].
    unfold aggregated. rewrite !map_app, !concat_app. cbn [map concat].
    split.
    + intros c Hc. apply in_app_or in Hc as [Hc|Hc]; apply in_or_app; [left; exact Hc|].
      right. apply in_or_app. right. exact Hc.
    + unfold VerificationResult.is_clear. cbn [VerificationResult.status].
      rewrite !length_app.
      destruct (concat (map _ per1)); [|simpl; discriminate].
      destruct (List.filter _ cs); [|simpl; discriminate].
      destruct (concat (map _ per2)); [reflexivity|simpl; discriminate].
Qed.

End Schedules.

(** Examples on the platform of the examples. *)

Section SchedulesExamples.

Import IEEE MissionVerificationService Spec.
#[local] Existing Instance Examples.platform.

Lemma remove_simulated_schedule_first_witness :
  remove_simulated_schedule "L"
    (init [Examples.northbound; Examples.late; Examples.early] 10.0 0.5 [])
  = (Ok true,
     mk_state
       (Vocab.with_schedules
          (self (init [Examples.northbound; Examples.late; Examples.early] 10.0 0.5 []))
          ([Examples.northbound] ++ [Examples.early]))
       (stdout (init [Examples.northbound; Examples.late; Examples.early] 10.0 0.5 [])
        ++ [RemovedSchedule "L"])).
Proof.
  apply (proj2 (remove_simulated_schedule_first "L"
                  (init [Examples.northbound; Examples.late; Examples.early] 10.0 0.5 []))
           [Examples.northbound] Examples.late [Examples.early]).
  - reflexivity.
  - repeat constructor. discriminate.
  - reflexivity.
Defined.

Lemma add_then_remove_witness :
  fst (add_simulated_schedule Examples.late (init [Examples.northbound] 10.0 0.5 [])) = Ok tt /\
  remove_simulated_schedule (FlightPlan.uav_id Examples.late)
    (snd (add_simulated_schedule Examples.late (init [Examples.northbound] 10.0 0.5 [])))
  = (Ok true,
     mk_state (self (init [Examples.northbound] 10.0 0.5 []))
       (stdout (init [Examples.northbound] 10.0 0.5 [])
        ++ [AddedSchedule (FlightPlan.uav_id Examples.late);
            RemovedSchedule (FlightPlan.uav_id Examples.late)])).
Proof.
  apply (add_then_remove Examples.late (init [Examples.northbound] 10.0 0.5 [])).
  repeat constructor. discriminate.
Defined.

Lemma verify_mission_after_add_witness :
  exists r',
    fst (verify_mission Examples.eastbound false
           (snd (add_simulated_schedule Examples.northbound
                   (init [Examples.late] 10.0 1.0 []))))
    = Ok r' /\
    VerificationResult.conflicts r'
    = VerificationResult.conflicts (VerificationResult.mk "CLEAR" Examples.eastbound [] [])
      ++ List.filter (involves Examples.eastbound) [Examples.crossing] /\
    (VerificationResult.is_clear r' = true ->
     VerificationResult.is_clear (VerificationResult.mk "CLEAR" Examples.eastbound [] [])
     = true).
Proof.
  apply (verify_mission_after_add Examples.eastbound Examples.northbound false
           (init [Examples.late] 10.0 1.0 [])
           (VerificationResult.mk "CLEAR" Examples.eastbound [] []) [Examples.crossing]).
  - vm_compute. reflexivity.
  - vm_compute. reflexivity.
Defined.

Lemma verify_mission_after_remove_witness :
  exists r',
    fst (verify_mission Examples.eastbound false
           (snd (remove_simulated_schedule "NORTH"
                   (init [Examples.late; Examples.northbound] 10.0 1.0 []))))
    = Ok r' /\
    (forall c, In c (VerificationResult.conflicts r') -> In c [Examples.crossing]) /\
    (VerificationResult.is_clear
       (VerificationResult.mk "CONFLICT_DETECTED" Examples.eastbound [Examples.crossing]
          [conflict_detail Examples.eastbound Examples.crossing]) = true ->
     VerificationResult.is_clear r' = true).
Proof.
  apply (verify_mission_after_remove Examples.eastbound false "NORTH"
           (init [Examples.late; Examples.northbound] 10.0 1.0 [])
           (VerificationResult.mk "CONFLICT_DETECTED" Examples.eastbound [Examples.crossing]
              [conflict_detail Examples.eastbound Examples.crossing])).
  vm_compute. reflexivity.
Defined.

End SchedulesExamples.

Section Results.

Import IEEE MissionVerificationService Spec.
Context {platform : Platform.t}.

Lemma checked_names (d : ConflictDetector.t) (p s : FlightPlan.t) (cs : list Conflict.t)
    (c : Conflict.t) :
  checked d p s cs -> In c cs ->
  Conflict.uav1_id c = FlightPlan.uav_id p /\ Conflict.uav2_id c = FlightPlan.uav_id s.
Proof.
  unfold checked. rewrite find_conflicts_two. intros H Hc.
  destruct (ConflictDetector._check_pair d p s) as [r|] eqn:E; [|discriminate].
  injection H as <-.
  destruct (check_pair_closest d p s r E) as [->|(c' & -> & H1 & H2 & _)]; [destruct Hc|].
  destruct Hc as [<-|[]]. split; assumption.
Qed.

Lemma checked_length (d : ConflictDetector.t) (p : FlightPlan.t)
    (schedules : list FlightPlan.t) (per : list (list Conflict.t)) :
  Forall2 (checked d p) schedules per -> (length (concat per) <= length schedules)%nat.
Proof.
  induction 1 as [|s cs schedules per Hchk _ IH]; [simpl; lia|].
  cbn [concat length]. rewrite length_app.
  unfold checked in Hchk. rewrite find_conflicts_two in Hchk.
  destruct (ConflictDetector._check_pair d p s) as [r|] eqn:E; [|discriminate].
  injection Hchk as <-.
  destruct (check_pair_closest d p s r E) as [->|(c & -> & _)]; simpl; lia.
Qed.

(** The conflicts of a result are those of the checks against the
    scheduled flights, none filtered out. *)
Lemma verify_mission_checks (primary_mission : FlightPlan.t) (verbose : bool)
    (st : state) (r : VerificationResult.t) :
  fst (verify_mission primary_mission verbose st) = Ok r ->
  r = VerificationResult.mk
        (if (length (VerificationResult.conflicts r) =? 0)%nat then "CLEAR"%string
         else "CONFLICT_DETECTED"%string)
        primary_mission (VerificationResult.conflicts r)
        (map (conflict_detail primary_mission) (VerificationResult.conflicts r)) /\
  exists per,
    Forall2 (checked (detector (self st)) primary_mission) (simulated_schedules (self st)) per /\
    VerificationResult.conflicts r = concat per.
Proof.
  intros Hr.
  destruct (verify_mission_run primary_mission verbose st) as (out & _ & E).
  rewrite E in Hr. cbn [fst] in Hr.
  pose proof (aggregate_cases (detector (self st)) primary_mission
                (simulated_schedules (self st)) []) as H.
  destruct (aggregate _ _ _ _) as [all|e]; [|discriminate].
  injection Hr as <-. cbn [VerificationResult.conflicts].
  split; [reflexivity|].
  destruct H as (per & Hper & ->). cbn [app]. exists per. split; [exact Hper|].
  unfold aggregated. f_equal. rewrite <- (map_id per) at 2. apply map_ext_in.
  intros cs Hcs. apply filter_all. rewrite List.Forall_forall. intros c Hc.
  destruct (Forall2_In_r _ _ _ _ Hper Hcs) as (s & Hs & Hchk).
  destruct (checked_names _ _ _ _ _ Hchk Hc) as [H1 _]. unfold involves.
  apply String.eqb_eq in H1. rewrite H1. reflexivity.
Qed.

(** X23.  In a result of [verify_mission] the filter on the primary
    mission's identifier removes nothing: the conflicts are all those of
    the checks against the scheduled flights, in schedule order, at most
    one per scheduled flight.  Each of them names the primary mission first
    and a scheduled flight second, and the entry of [conflict_details]
    built from it, one per conflict in the same order, gives that scheduled
    flight's identifier as the conflicting flight. *)
Theorem verify_mission_conflicts (primary_mission : FlightPlan.t) (verbose : bool)
    (st : state) (r : VerificationResult.t) :
  fst (verify_mission primary_mission verbose st) = Ok r ->
  (exists per,
     Forall2 (checked (detector (self st)) primary_mission) (simulated_schedules (self st)) per /\
     VerificationResult.conflicts r = concat per) /\
  Forall (fun c =>
     Conflict.uav1_id c = FlightPlan.uav_id primary_mission /\
     (exists s, In s (simulated_schedules (self st)) /\
                Conflict.uav2_id c = FlightPlan.uav_id s) /\
     conflict_detail primary_mission c !! "conflicting_flight"
     = Some (Py.Str (Conflict.uav2_id c)))
    (VerificationResult.conflicts r) /\
  VerificationResult.conflict_details r
  = map (conflict_detail primary_mission) (VerificationResult.conflicts r) /\
  (length (VerificationResult.conflicts r) <= length (simulated_schedules (self st)))%nat.
Proof.
  intros Hr.
  destruct (verify_mission_checks primary_mission verbose st r Hr) as (Hshape & per & Hper & Hcs).
  split; [exists per; split; assumption|].
  split; [|split; [rewrite Hshape; reflexivity
                  |rewrite Hcs; exact (checked_length _ _ _ _ Hper)]].
  rewrite Hcs, List.Forall_forall. intros c Hc.
  apply in_concat in Hc as (cs & Hcs_in & Hc).
  destruct (Forall2_In_r _ _ _ _ Hper Hcs_in) as (s & Hs & Hchk).
  destruct (checked_names _ _ _ _ _ Hchk Hc) as [H1 H2].
  split; [assumption|]. split; [eauto|].
  unfold conflict_detail. apply String.eqb_eq in H1. rewrite H1.
  destruct (Conflict.position1 c) as [[x1 y1] z1], (Conflict.position2 c) as [[x2 y2] z2].
  repeat (rewrite lookup_insert_ne by discriminate). apply lookup_insert_eq.
Qed.

(** X24.  [verify_mission] misses no sample.  When it returns, and at one
    of the sample times of the check against a scheduled flight the
    mission and that flight both have a position and the weighted
    distance the program computes there is below the safety distance, the
    status is "CONFLICT_DETECTED" and the result holds a conflict with that
    flight, at a distance that is not greater. *)
Theorem verify_mission_detects (primary_mission : FlightPlan.t) (verbose : bool) (st : state)
    (r : VerificationResult.t) (s : FlightPlan.t) (times : list float) (t : float)
    (p1 p2 : position) (distance : float) :
  fst (verify_mission primary_mission verbose st) = Ok r ->
  In s (simulated_schedules (self st)) ->
  Spec.pair_sample_times (detector (self st)) primary_mission s = Ok times -> In t times ->
  Spec.sampled_at primary_mission s t p1 p2 ->
  ConflictDetector.distance_at (detector (self st)) primary_mission s t p1 p2
  = Ok distance ->
  (distance <? ConflictDetector.safety_distance (detector (self st))) = true ->
  VerificationResult.status r = "CONFLICT_DETECTED"%string /\
  VerificationResult.is_clear r = false /\
  exists c, In c (VerificationResult.conflicts r) /\
            Spec.closest_approach (detector (self st)) primary_mission s c /\
            (Conflict.distance c <=? distance) = true.
Proof.
  intros Hr Hs Htimes Hin Hsam Hdist Hclose.
  destruct (verify_mission_checks primary_mission verbose st r Hr)
    as (Hshape & per & Hper & Hcs).
  destruct (Forall2_In_l _ _ _ _ Hper Hs) as (cs & Hcs_in & Hchk).
  unfold checked in Hchk. rewrite find_conflicts_two in Hchk.
  destruct (ConflictDetector._check_pair (detector (self st)) primary_mission s)
    as [found|] eqn:E; [|discriminate].
  injection Hchk as <-.
  destruct (check_pair_complete _ _ _ _ _ _ _ _ _ E Htimes Hin Hsam Hdist Hclose)
    as (c & -> & Hcl & Hle).
  assert (Hc : In c (VerificationResult.conflicts r)).
  { rewrite Hcs. apply in_concat. exists [c]. split; [exact Hcs_in|left; reflexivity]. }
  rewrite Hshape. unfold VerificationResult.is_clear.
  cbn [VerificationResult.status VerificationResult.conflicts].
  destruct (VerificationResult.conflicts r) as [|c0 all]; [destruct Hc|]. cbn.
  split; [reflexivity|]. split; [reflexivity|]. exists c. auto.
Qed.

(** X25.  What [verify_mission] returns or raises depends on the service
    object and the mission only: neither [verbose] nor what has been
    printed before changes it. *)
Theorem verify_mission_verbose (primary_mission : FlightPlan.t) (verbose : bool)
    (s : MissionVerificationService.t) (out : list line) :
  fst (verify_mission primary_mission verbose (mk_state s out))
  = fst (verify_mission primary_mission false (mk_state s [])).
Proof.
  destruct (verify_mission_run primary_mission verbose (mk_state s out)) as (o1 & _ & ->).
  destruct (verify_mission_run primary_mission false (mk_state s [])) as (o2 & _ & ->).
  reflexivity.
Qed.

Lemma check_pair_before (d : ConflictDetector.t) (A B : FlightPlan.t) :
  Valid.trajectory A = true -> Valid.trajectory B = true ->
  Vocab.disjoint_spans A B = true ->
  ConflictDetector._check_pair d A B = Ok [].
Proof.
  intros HA HB Hd.
  destruct (valid_waypoints A HA) as (_ & fa & la & HfA & HlA).
  destruct (valid_waypoints B HB) as (_ & fb & lb & HfB & HlB).
  unfold Valid.trajectory in HA, HB.
  apply andb_true_iff in HA as [HA1 HA2]. apply Nat.leb_le in HA1.
  apply andb_true_iff in HB as [HB1 HB2]. apply Nat.leb_le in HB1.
  pose proof (sorted_first_last _ _ _ HA1 HA2 HfA HlA) as HspanA.
  pose proof (sorted_first_last _ _ _ HB1 HB2 HfB HlB) as HspanB.
  clear HA1 HA2 HB1 HB2.
  unfold ConflictDetector._check_pair. rewrite HfA, HlA, HfB, HlB. cbn [Py.bind].
  unfold Vocab.disjoint_spans, Vocab.before in Hd. rewrite HfA, HlA, HfB, HlB in Hd.
  unfold Py.max, Py.min. cbn [Py.num_ltb Py.float_Num].
  apply orb_true_iff in Hd as [Hd|Hd]; apply andb_true_iff in Hd as [Hlt Hgap].
  - replace (Waypoint.time fa <? Waypoint.time fb) with true
      by (symmetry; clear Hgap; float_order).
    replace (Waypoint.time lb <? Waypoint.time la) with false
      by (symmetry; clear Hgap; float_order).
    rewrite Hlt, Hgap. reflexivity.
  - replace (Waypoint.time fa <? Waypoint.time fb) with false
      by (symmetry; clear Hgap; float_order).
    replace (Waypoint.time lb <? Waypoint.time la) with true
      by (symmetry; clear Hgap; float_order).
    rewrite Hlt, Hgap. reflexivity.
Qed.

Lemma aggregate_disjoint (d : ConflictDetector.t) (p : FlightPlan.t)
    (schedules : list FlightPlan.t) (acc : list Conflict.t) :
  Valid.trajectory p = true ->
  Forall (fun s => Valid.trajectory s = true /\ Vocab.disjoint_spans p s = true) schedules ->
  aggregate d p schedules acc = Ok acc.
Proof.
  intros Hp H. revert acc. induction H as [|s rest [Hs Hd] _ IH]; intros acc; [reflexivity|].
  cbn [aggregate]. rewrite find_conflicts_two, (check_pair_before d p s Hp Hs Hd).
  cbn [Py.bind List.filter]. rewrite app_nil_r. apply IH.
Qed.

(** X26.  A valid mission whose time span is separated by more than 1e-6
    seconds from the span of every scheduled flight (all of them valid) is
    cleared: [verify_mission] returns, without raising, the status "CLEAR"
    with no conflict and no detail, whatever the positions are.  This
    includes a service with no scheduled flight. *)
Theorem verify_mission_clear (primary_mission : FlightPlan.t) (verbose : bool) (st : state) :
  Valid.trajectory primary_mission = true ->
  Forall (fun s => Valid.trajectory s = true /\ Vocab.disjoint_spans primary_mission s = true)
    (simulated_schedules (self st)) ->
  fst (verify_mission primary_mission verbose st)
  = Ok (VerificationResult.mk "CLEAR" primary_mission [] []).
Proof.
  intros Hp Hs.
  destruct (verify_mission_run primary_mission verbose st) as (out & _ & ->).
  cbn [fst]. rewrite (aggregate_disjoint _ _ _ [] Hp Hs). reflexivity.
Qed.

End Results.

(** Examples on the platform of the examples. *)

Section ResultsExamples.

Import IEEE MissionVerificationService Spec.
#[local] Existing Instance Examples.platform.

Lemma verify_mission_conflicts_witness :
  (exists per,
     Forall2 (checked Examples.detector Examples.eastbound) [Examples.northbound] per /\
     [Examples.crossing] = concat per) /\
  Forall (fun c =>
     Conflict.uav1_id c = FlightPlan.uav_id Examples.eastbound /\
     (exists s, In s [Examples.northbound] /\ Conflict.uav2_id c = FlightPlan.uav_id s) /\
     conflict_detail Examples.eastbound c !! "conflicting_flight"
     = Some (Py.Str (Conflict.uav2_id c)))
    [Examples.crossing] /\
  [conflict_detail Examples.eastbound Examples.crossing]
  = map (conflict_detail Examples.eastbound) [Examples.crossing] /\
  (length [Examples.crossing] <= length [Examples.northbound])%nat.
Proof.
  apply (verify_mission_conflicts Examples.eastbound false
           (init [Examples.northbound] 10.0 1.0 [])
           (VerificationResult.mk "CONFLICT_DETECTED" Examples.eastbound [Examples.crossing]
              [conflict_detail Examples.eastbound Examples.crossing])).
  vm_compute. reflexivity.
Defined.

Lemma verify_mission_detects_witness :
  VerificationResult.status
    (VerificationResult.mk "CONFLICT_DETECTED" Examples.hover [Examples.departure]
       [conflict_detail Examples.hover Examples.departure])
  = "CONFLICT_DETECTED"%string /\
  VerificationResult.is_clear
    (VerificationResult.mk "CONFLICT_DETECTED" Examples.hover [Examples.departure]
       [conflict_detail Examples.hover Examples.departure])
  = false /\
  exists c, In c [Examples.departure] /\
            Spec.closest_approach Examples.detector Examples.hover Examples.leaving c /\
            (Conflict.distance c <=? 5) = true.
Proof.
  apply (verify_mission_detects Examples.hover false (init [Examples.leaving] 10.0 1.0 [])
           (VerificationResult.mk "CONFLICT_DETECTED" Examples.hover [Examples.departure]
              [conflict_detail Examples.hover Examples.departure])
           Examples.leaving Examples.departure_times 0 (0, 0, 0) (0, 5, 0) 5).
  - vm_compute. reflexivity.
  - left. reflexivity.
  - vm_compute. reflexivity.
  - left. reflexivity.
  - split; vm_compute; reflexivity.
  - vm_compute. reflexivity.
  - vm_compute. reflexivity.
Defined.

Lemma verify_mission_clear_witness :
  fst (verify_mission Examples.early true (init [Examples.late] 10.0 0.5 []))
  = Ok (VerificationResult.mk "CLEAR" Examples.early [] []).
Proof.
  apply (verify_mission_clear Examples.early true (init [Examples.late] 10.0 0.5 [])).
  - reflexivity.
  - repeat constructor.
Defined.

End ResultsExamples.

Section Batch.

Import MissionVerificationService Spec.
Context {platform : Platform.t}.

Lemma call_verify_mission (mission : FlightPlan.t) (verbose : bool) (bs : batch_state) :
  exists out,
    call (verify_mission mission verbose) bs
    = (Vocab.verified (service bs) mission,
       mk_batch_state (service bs) (output bs ++ map inl out)).
Proof.
  unfold call, Vocab.verified.
  destruct (verify_mission_run mission verbose (mk_state (service bs) [])) as (o1 & _ & ->).
  destruct (verify_mission_run mission false (mk_state (service bs) [])) as (o2 & _ & ->).
  cbn [fst self stdout app]. eauto.
Qed.

Lemma batch_loop_spec (missions : list FlightPlan.t) (verbose : bool)
    (results : gmap string VerificationResult.t) (bs : batch_state) :
  service (snd (batch_loop missions verbose results bs)) = service bs /\
  match fst (batch_loop missions verbose results bs) with
  | Ok results' =>
      Forall (fun m => exists r, Vocab.verified (service bs) m = Ok r) missions /\
      forall uav_id,
        results' !! uav_id =
        match Vocab.last_named uav_id missions with
        | Some m => match Vocab.verified (service bs) m with
                    | Ok r => Some r
                    | Raise _ => None
                    end
        | None => results !! uav_id
        end
  | Raise e => Exists (fun m => Vocab.verified (service bs) m = Raise e) missions
  end.
Proof.
  revert results bs. induction missions as [|m rest IH]; intros results bs.
  - cbn. split; [reflexivity|]. split; [constructor|]. reflexivity.
  - cbn [batch_loop]. destruct (call_verify_mission m verbose bs) as (out & ->).
    destruct (Vocab.verified (service bs) m) as [r|e] eqn:E.
    + specialize (IH (<[FlightPlan.uav_id m := r]> results)
                     (mk_batch_state (service bs) (output bs ++ map inl out))).
      cbn [service] in IH. destruct IH as [IH1 IH2]. split; [exact IH1|].
      destruct (fst (batch_loop rest verbose _ _)) as [results'|e'].
      * destruct IH2 as [Hall Hlook]. split; [constructor; eauto|].
        intros uav_id. rewrite Hlook. cbn [Vocab.last_named].
        destruct (Vocab.last_named uav_id rest) as [g|]; [reflexivity|].
        destruct (String.eqb_spec (FlightPlan.uav_id m) uav_id) as [->|Hne].
        -- rewrite lookup_insert_eq, E. reflexivity.
        -- rewrite lookup_insert_ne by assumption. reflexivity.
      * apply Exists_cons_tl. exact IH2.
    + cbn [fst snd service]. split; [reflexivity|]. apply Exists_cons_hd. exact E.
Qed.

(** X27.  [batch_verify] leaves the service object as it was.  It raises
    exactly when the verification of some mission raises; otherwise the
    dictionary it returns has one entry per identifier among the missions,
    and the entry of an identifier is the result of verifying the last
    mission that carries it: an earlier mission with the same identifier
    is verified but its result is replaced. *)
Theorem batch_verify_results (missions : list FlightPlan.t) (verbose : bool)
    (bs : batch_state) :
  service (snd (batch_verify missions verbose bs)) = service bs /\
  match fst (batch_verify missions verbose bs) with
  | Ok results =>
      Forall (fun m => exists r, Vocab.verified (service bs) m = Ok r) missions /\
      forall uav_id,
        results !! uav_id =
        match Vocab.last_named uav_id missions with
        | Some m => match Vocab.verified (service bs) m with
                    | Ok r => Some r
                    | Raise _ => None
                    end
        | None => None
        end
  | Raise e => Exists (fun m => Vocab.verified (service bs) m = Raise e) missions
  end.
Proof.
  unfold batch_verify.
  set (bs0 := if verbose then batch_print _ bs else bs).
  assert (H0 : service bs0 = service bs) by (unfold bs0; destruct verbose; reflexivity).
  pose proof (batch_loop_spec missions verbose ∅ bs0) as [H1 H2].
  rewrite H0 in H1, H2.
  destruct (batch_loop missions verbose ∅ bs0) as [[results|e] bs1]; cbn [fst snd] in *.
  - split; [destruct verbose; exact H1|].
    destruct H2 as [Hall Hlook]. split; [exact Hall|].
    intros uav_id. rewrite Hlook.
    destruct (Vocab.last_named uav_id missions); [reflexivity|apply lookup_empty].
  - split; assumption.
Qed.

End Batch.
